(** * Appointment backend: slot generation, conflict checking, booking,
      patient registration and one-time passcodes.

    A shallow embedding of [api.js] (the later, more complete copy of each
    route), of the earlier router's [POST /patients], of [otpService.js]
    and of the Mongoose models, followed by the properties proved about
    them.

    Conventions of the embedding:
    - a JavaScript string is a [string]; a value that may be [undefined]
      is an [option], and truthiness is [truthy];
    - minute counts and epoch milliseconds are [Z]; a number that may be
      [NaN] is an [option Z] and every comparison with [None] is [false];
    - [new Date(s).getTime()] is the parameter [getTime]; [RefClock.getTime]
      implements it for the date-time format the program builds and is used
      to run the handlers on concrete requests;
    - a route handler is a [Prog]: a tree of calls to the collaborators
      (record store, calendar, mail transport, clock, uuid, process
      environment); [run] executes it against a [World];
    - the record store answers every query; a write may be refused
      (schema validation, a unique index, the driver), which the caller
      sees as an exception. *)

From Stdlib Require Import ZArith Lia List Bool Ascii String DecimalString Sorted.
From stdpp Require Import gmap strings list.
Import ListNotations.

#[local] Open Scope string_scope.
#[local] Open Scope Z_scope.

(* ===================================================================== *)
(** * JavaScript primitives used by the program                           *)
(* ===================================================================== *)
Module Js.

(** [!!v] for a value that is a string or [undefined]. *)
Definition truthy (v : option string) : bool :=
  match v with
  | Some s => negb (String.eqb s "")
  | None => false
  end.

(** [a || b] on such values. *)
Definition orElse (a b : option string) : option string :=
  if truthy a then a else b.

(** [a === b] on such values. *)
Definition strictEq (a b : option string) : bool :=
  match a, b with
  | Some x, Some y => String.eqb x y
  | None, None => true
  | _, _ => false
  end.

(** [a < b] on numbers that may be [NaN]. *)
Definition lt (a b : option Z) : bool :=
  match a, b with
  | Some x, Some y => x <? y
  | _, _ => false
  end.

(** [a > b] on numbers that may be [NaN]. *)
Definition gt (a b : option Z) : bool := lt b a.

(** [n.toString()] for an integer. *)
Definition toString (n : Z) : string := NilZero.string_of_int (Z.to_int n).

(** [s.padStart(2, '0')]. *)
Definition padStart2 (s : string) : string :=
  match String.length s with
  | O => "00"
  | S O => "0" ++ s
  | _ => s
  end.

Definition codeOf (c : ascii) : Z := Z.of_N (N_of_ascii c).

(** The regular-expression class [\d]. *)
Definition isDigit (c : ascii) : bool :=
  (48 <=? codeOf c) && (codeOf c <=? 57).

(** The regular-expression class [\s] on the code units below 256:
    tab, line feed, vertical tab, form feed, carriage return, space and
    the no-break space. *)
Definition isSpace (c : ascii) : bool :=
  let n := codeOf c in
  ((9 <=? n) && (n <=? 13)) || (n =? 32) || (n =? 160).

Definition digitVal (c : ascii) : Z := codeOf c - 48.

(** Value of a string of decimal digits, [None] when another character
    occurs. *)
Fixpoint digitsFrom (acc : Z) (s : string) : option Z :=
  match s with
  | EmptyString => Some acc
  | String c rest =>
      if isDigit c then digitsFrom (10 * acc + digitVal c) rest else None
  end.

(** [Number(s)] on the numerals an "HH:MM" field is made of: the empty
    string is 0, a string of decimal digits is its value, and anything
    else is read as [NaN].  (Signs, fractions, exponents, radix prefixes
    and surrounding blanks, which [Number] also accepts, are not part of
    the time format and are outside this model.) *)
Definition Number (s : string) : option Z := digitsFrom 0 s.


(** [s.split(':')]. *)
Fixpoint splitColon (cur : string) (s : string) : list string :=
  match s with
  | EmptyString => [cur]
  | String c rest =>
      if Ascii.eqb c ":"%char
      then cur :: splitColon "" rest
      else splitColon (cur ++ String c "") rest
  end.

Definition split (s : string) : list string := splitColon "" s.

(** [c.toUpperCase()] on the letters the program cares about. *)
Definition upper (c : ascii) : ascii :=
  let n := codeOf c in
  if (97 <=? n) && (n <=? 122) then ascii_of_N (Z.to_N (n - 32)) else c.

End Js.

(* ===================================================================== *)
(** * Data model (Mongoose schemas)                                       *)
(* ===================================================================== *)

(** One weekday of a doctor's template: [{available, start, end}]. *)
Record DayAvailability := {
  available : bool;
  dayStart : option string;
  dayEnd : option string
}.

Record Doctor := {
  d_doctorId : string;
  d_name : string;
  d_email : option string;
  d_specialty : string;
  d_consultationFee : Z;
  d_calendarId : option string;
  d_availability : option (gmap string DayAvailability)
}.

Record Patient := {
  patientId : string;
  p_name : option string;
  p_email : option string;
  p_phone : option string
}.

(** [startDateTime] and [endDateTime] are the [getTime()] of the stored
    [Date]; [None] stands for a missing or invalid date. *)
Record Appointment := {
  appointmentId : string;
  a_doctorId : string;
  a_doctorName : string;
  a_doctorSpecialty : string;
  a_patientId : string;
  a_patientName : string;
  a_patientEmail : option string;
  a_patientPhone : option string;
  a_date : string;
  a_timeSlot : string;
  startDateTime : option Z;
  endDateTime : option Z;
  googleEventId : string;
  status : string;
  paymentStatus : string
}.

(** A busy period reported by the calendar: two date-time strings. *)
Record BusyPeriod := {
  busyStart : string;
  busyEnd : string
}.

(** A bookable slot as the availability route returns it. *)
Record Slot := {
  time : string;
  startTime : string;
  endTime : string;
  startISO : string;
  endISO : string
}.

(* ===================================================================== *)
(** * Slot generation and conflict checking ([api.js], helpers)           *)
(* ===================================================================== *)
Module Slots.

(** The overlap test both call sites use:
    [aStart < bEnd && aEnd > bStart]. *)
Definition overlaps (aStart aEnd bStart bEnd : option Z) : bool :=
  Js.lt aStart bEnd && Js.gt aEnd bStart.

(** [formatTimeDisplay(hour, minute)]. *)
Definition formatTimeDisplay (hour minute : Z) : string :=
  let period := if 12 <=? hour then "PM" else "AM" in
  let displayHour :=
    if 12 <? hour then hour - 12 else if hour =? 0 then 12 else hour in
  Js.padStart2 (Js.toString displayHour) ++ ":" ++
  Js.padStart2 (Js.toString minute) ++ " " ++ period.

(** "HH:MM" of a minute count, as the loop body builds it. *)
Definition clockLabel (minutes : Z) : string :=
  Js.padStart2 (Js.toString (minutes / 60)) ++ ":" ++
  Js.padStart2 (Js.toString (Z.rem minutes 60)).

(** The object pushed for the candidate that starts at [currentMinutes]. *)
Definition slotAt (date : string) (currentMinutes : Z) : Slot :=
  let slotHour := currentMinutes / 60 in
  let slotMinute := Z.rem currentMinutes 60 in
  let nextMinutes := currentMinutes + 30 in
  let nextHour := nextMinutes / 60 in
  let nextMinute := Z.rem nextMinutes 60 in
  let slotStart := clockLabel currentMinutes in
  let slotEnd := clockLabel nextMinutes in
  {| time := formatTimeDisplay slotHour slotMinute ++ " - " ++
             formatTimeDisplay nextHour nextMinute;
     startTime := slotStart;
     endTime := slotEnd;
     startISO := date ++ "T" ++ slotStart ++ ":00+05:30";
     endISO := date ++ "T" ++ slotEnd ++ ":00+05:30" |}.

(** "HH:MM" to minutes: [split(':').map(Number)], then
    [hour * 60 + minute]; [None] is [NaN]. *)
Definition parseClock (s : string) : option Z :=
  match Js.split s with
  | h :: m :: _ =>
      match Js.Number h, Js.Number m with
      | Some hh, Some mm => Some (hh * 60 + mm)
      | _, _ => None
      end
  | _ => None
  end.

Section WithClock.

(** [new Date(s).getTime()]; [None] is [NaN]. *)
Variable getTime : string -> option Z.

(** [isSlotConflicting]: the two [for] loops, each returning [true]
    at the first overlap. *)
Definition isSlotConflicting (slotStart slotEnd : string)
    (busyPeriods : list BusyPeriod)
    (existingAppointments : list Appointment) : bool :=
  let slotStartTime := getTime slotStart in
  let slotEndTime := getTime slotEnd in
  existsb (fun busy =>
             overlaps slotStartTime slotEndTime
                      (getTime (busyStart busy)) (getTime (busyEnd busy)))
          busyPeriods
  || existsb (fun appointment =>
                overlaps slotStartTime slotEndTime
                         (startDateTime appointment)
                         (endDateTime appointment))
             existingAppointments.

(** [isAvailable] of the loop body, for the candidate that starts
    at [currentMinutes]. *)
Definition isAvailable (date : string) (currentMinutes : Z)
    (busyPeriods : list BusyPeriod)
    (existingAppointments : list Appointment) : bool :=
  let slot := slotAt date currentMinutes in
  negb (isSlotConflicting (startISO slot) (endISO slot)
                          busyPeriods existingAppointments).

(** The [while (currentMinutes + 30 <= endMinutes)] loop.  [fuel]
    bounds the number of iterations; [generateFromMinutes] supplies
    more than the loop can use.  The sums are those of the integers,
    which is what the program computes as long as they stay below 2^53;
    [iterations], further down, is the loop's control on doubles. *)
Fixpoint slotLoop (fuel : nat) (date : string)
    (currentMinutes endMinutes : Z)
    (busyPeriods : list BusyPeriod)
    (existingAppointments : list Appointment) : list Slot :=
  match fuel with
  | O => []
  | S fuel' =>
      if currentMinutes + 30 <=? endMinutes then
        let slot := slotAt date currentMinutes in
        let available :=
          isAvailable date currentMinutes busyPeriods
                      existingAppointments in
        let rest := slotLoop fuel' date (currentMinutes + 30) endMinutes
                             busyPeriods existingAppointments in
        if available then slot :: rest else rest
      else []
  end.

(** Iterations the loop performs for a window. *)
Definition slotCount (startMinutes endMinutes : Z) : nat :=
  Z.to_nat ((endMinutes - startMinutes) / 30).

(** [generateAvailableSlots] from the point where the two times are
    minute counts. *)
Definition generateFromMinutes (date : string)
    (startMinutes endMinutes : Z)
    (busyPeriods : list BusyPeriod)
    (existingAppointments : list Appointment) : list Slot :=
  slotLoop (S (slotCount startMinutes endMinutes)) date
           startMinutes endMinutes busyPeriods existingAppointments.

(** [generateAvailableSlots(date, startTime, endTime, busyPeriods,
    existingAppointments)]. *)
Definition generateAvailableSlots (date startTime endTime : string)
    (busyPeriods : list BusyPeriod)
    (existingAppointments : list Appointment) : list Slot :=
  match parseClock startTime, parseClock endTime with
  | Some currentMinutes, Some endMinutes =>
      generateFromMinutes date currentMinutes endMinutes
                          busyPeriods existingAppointments
  | _, _ => []
  end.

End WithClock.


End Slots.

(* ===================================================================== *)
(** * A reference clock                                                   *)
(* ===================================================================== *)

(** [new Date(s).getTime()] for the date-time strings the program builds,
    "YYYY-MM-DDTHH:MM:SS" followed by "Z" or a "+HH:MM" / "-HH:MM" offset;
    any other string is an invalid date.  Hour 24 is accepted with minute
    and second 0, as the ECMAScript date-time format allows. *)
Module RefClock.

(** Exactly [n] decimal digits at the head of [s]. *)
Fixpoint num (n : nat) (acc : Z) (s : string) : option (Z * string) :=
  match n with
  | O => Some (acc, s)
  | S n' =>
      match s with
      | String c rest =>
          if Js.isDigit c then num n' (10 * acc + Js.digitVal c) rest
          else None
      | EmptyString => None
      end
  end.

Definition lit (c : ascii) (s : string) : option string :=
  match s with
  | String c' rest => if Ascii.eqb c c' then Some rest else None
  | EmptyString => None
  end.

(** Days between 1970-01-01 and the civil date, proleptic Gregorian. *)
Definition daysFromCivil (y m d : Z) : Z :=
  let y' := if m <=? 2 then y - 1 else y in
  let era := y' / 400 in
  let yoe := y' - era * 400 in
  let mp := if 2 <? m then m - 3 else m + 9 in
  let doy := (153 * mp + 2) / 5 + d - 1 in
  let doe := yoe * 365 + yoe / 4 - yoe / 100 + doy in
  era * 146097 + doe - 719468.

(** Minutes east of UTC of the offset suffix. *)
Definition offset (s : string) : option Z :=
  match s with
  | "Z" => Some 0
  | String sign rest =>
      '(h, rest) ← num 2 0 rest;
      rest ← lit ":" rest;
      '(m, rest) ← num 2 0 rest;
      if negb (String.eqb rest "") || (23 <? h) || (59 <? m) then None
      else if Ascii.eqb sign "+" then Some (h * 60 + m)
      else if Ascii.eqb sign "-" then Some (- (h * 60 + m))
      else None
  | EmptyString => None
  end.

Definition getTime (s : string) : option Z :=
  '(y, s) ← num 4 0 s;
  s ← lit "-" s;
  '(mo, s) ← num 2 0 s;
  s ← lit "-" s;
  '(d, s) ← num 2 0 s;
  s ← lit "T" s;
  '(h, s) ← num 2 0 s;
  s ← lit ":" s;
  '(mi, s) ← num 2 0 s;
  s ← lit ":" s;
  '(sec, s) ← num 2 0 s;
  off ← offset s;
  let dateOk := (1 <=? mo) && (mo <=? 12) && (1 <=? d) && (d <=? 31) in
  let timeOk :=
    ((h <=? 23) && (mi <=? 59) && (sec <=? 59))
    || ((h =? 24) && (mi =? 0) && (sec =? 0)) in
  if dateOk && timeOk
  then Some ((daysFromCivil y mo d * 1440 + h * 60 + mi - off) * 60000
             + sec * 1000)
  else None.

End RefClock.

(* ===================================================================== *)
(** * Reading a time-slot label back (booking route)                      *)
(* ===================================================================== *)
Module Label.

Fixpoint skipSpaces (s : string) : string :=
  match s with
  | String c rest => if Js.isSpace c then skipSpaces rest else s
  | EmptyString => s
  end.

(** The pattern [(\d{2}):(\d{2})\s*(AM|PM)] with flag [i], anchored at
    the head of [s]: the three captured groups.  After the greedy run of
    blanks the next character is not a blank, so giving blanks back
    cannot produce another match. *)
Definition matchHere (s : string) : option (string * string * string) :=
  match s with
  | String h1 (String h2 (String c (String m1 (String m2 rest)))) =>
      if Js.isDigit h1 && Js.isDigit h2 && Ascii.eqb c ":"
         && Js.isDigit m1 && Js.isDigit m2
      then
        match skipSpaces rest with
        | String x (String y _) =>
            if (Ascii.eqb (Js.upper x) "A" || Ascii.eqb (Js.upper x) "P")
               && Ascii.eqb (Js.upper y) "M"
            then Some (String h1 (String h2 ""), String m1 (String m2 ""),
                       String x (String y ""))
            else None
        | _ => None
        end
      else None
  | _ => None
  end.

(** [timeSlot.match(/(\d{2}):(\d{2})\s*(AM|PM)/i)]: the leftmost match,
    [None] for [null]. *)
Fixpoint timeMatch (timeSlot : string) : option (string * string * string) :=
  match matchHere timeSlot with
  | Some groups => Some groups
  | None =>
      match timeSlot with
      | String _ rest => timeMatch rest
      | EmptyString => None
      end
  end.

(** [s.toUpperCase()]. *)
Fixpoint toUpperCase (s : string) : string :=
  match s with
  | String c rest => String (Js.upper c) (toUpperCase rest)
  | EmptyString => EmptyString
  end.

(** [parseInt] of a captured group of two digits. *)
Definition parseInt (s : string) : Z :=
  match Js.digitsFrom 0 s with
  | Some n => n
  | None => 0
  end.

(** The start and end times the booking route derives from the groups:
    ["HH:MM:00"] each. *)
Definition timesOfMatch (groups : string * string * string)
    : string * string :=
  let '(g1, minute, g3) := groups in
  let hour := parseInt g1 in
  let period := toUpperCase g3 in
  let hour := if String.eqb period "PM" && (hour <? 12) then hour + 12
              else hour in
  let hour := if String.eqb period "AM" && (hour =? 12) then 0 else hour in
  let startTime := Js.padStart2 (Js.toString hour) ++ ":" ++ minute ++ ":00" in
  let endHour := hour + (if String.eqb minute "30" then 1 else 0) in
  let endMinute := if String.eqb minute "30" then "00" else "30" in
  let endTime :=
    Js.padStart2 (Js.toString endHour) ++ ":" ++ endMinute ++ ":00" in
  (startTime, endTime).

(** [startDateTimeISO] and [endDateTimeISO] for a date and a label;
    [None] when the label does not match. *)
Definition bookingInterval (date timeSlot : string)
    : option (string * string) :=
  match timeMatch timeSlot with
  | None => None
  | Some groups =>
      let '(startTime, endTime) := timesOfMatch groups in
      Some (date ++ "T" ++ startTime ++ "+05:30",
            date ++ "T" ++ endTime ++ "+05:30")
  end.

End Label.

(* ===================================================================== *)
(** * Collaborators and route programs                                    *)
(* ===================================================================== *)
Module Effects.

(** What an awaited call gives back: a value, or an exception with its
    message. *)
Inductive Outcome (A : Type) : Type :=
| Returned (a : A)
| Thrown (message : string).
Arguments Returned {A} a.
Arguments Thrown {A} message.

(** One equality clause of a [$or] filter on patients.  A filter value
    that is [undefined] reaches the store as [null], which selects the
    documents that lack the field. *)
Inductive PatientClause :=
| ByEmail (v : option string)
| ByPhone (v : option string).

(** The event object handed to the calendar (the free-text description
    is left out). *)
Record EventObj := {
  summary : string;
  eventStart : string;
  eventEnd : string;
  attendees : list string
}.

(** What the calendar returns for an inserted event. *)
Record CalendarEvent := {
  eventId : string;
  htmlLink : option string
}.

(** Calls a route makes to the outside.  A document found in a
    collection comes with its position, which [save] uses to write the
    same document back. *)
Inductive Eff : Type -> Type :=
| GetEnv (name : string) : Eff (option string)
| Uuid : Eff string
| DateNow : Eff Z
| DoctorFindOne (doctorId : string) : Eff (option Doctor)
| PatientFindOne (anyOf : list PatientClause) : Eff (option (nat * Patient))
| PatientSave (doc : option nat) (p : Patient) : Eff (Outcome unit)
| AppointmentFind (doctorId date : string) : Eff (list Appointment)
| AppointmentFindOverlap (doctorId : string) (startT endT : Z)
    : Eff (option Appointment)
| AppointmentFindById (id : string) : Eff (option (nat * Appointment))
| AppointmentSave (doc : option nat) (a : Appointment)
    : Eff (Outcome unit)
| AppointmentDeleteOne (id : string) : Eff unit
| GetFreeBusy (calendarId timeMin timeMax : string)
    : Eff (Outcome (option (list BusyPeriod)))
| CreateEvent (calendarId : option string) (ev : EventObj)
    : Eff (Outcome CalendarEvent)
| SmtpSend (toEmail subject : string) : Eff (Outcome string).

(** A route: a value, or a call and what to do with its answer. *)
Inductive Prog (A : Type) : Type :=
| Ret (a : A)
| Vis {X : Type} (e : Eff X) (k : X -> Prog A).
Arguments Ret {A} a.
Arguments Vis {A X} e k.

Fixpoint bind {A B : Type} (p : Prog A) (f : A -> Prog B) : Prog B :=
  match p with
  | Ret a => f a
  | Vis e k => Vis e (fun x => bind (k x) f)
  end.

(** The collaborator a call goes to. *)
Inductive Collaborator :=
| ProcessEnv | UuidSource | Clock
| DoctorStore | PatientStore | AppointmentStore
| BusySource | CalendarInsert | MailTransport.

Definition collaborator {X : Type} (e : Eff X) : Collaborator :=
  match e with
  | GetEnv _ => ProcessEnv
  | Uuid => UuidSource
  | DateNow => Clock
  | DoctorFindOne _ => DoctorStore
  | PatientFindOne _ | PatientSave _ _ => PatientStore
  | AppointmentFind _ _ | AppointmentFindOverlap _ _ _
  | AppointmentFindById _ | AppointmentSave _ _
  | AppointmentDeleteOne _ => AppointmentStore
  | GetFreeBusy _ _ _ => BusySource
  | CreateEvent _ _ => CalendarInsert
  | SmtpSend _ _ => MailTransport
  end.

(** The three collections. *)
Record Store := {
  doctors : list Doctor;
  patients : list Patient;
  appointments : list Appointment
}.

(** Everything outside the three collections: the process environment
    and, for the [n]-th call of the run, what the uuid source, the clock,
    the calendar and the mail transport answer, and whether the store
    refuses a write made then ([Some] message) or accepts it. *)
Record Env := {
  processEnv : string -> option string;
  uuidAt : nat -> string;
  nowAt : nat -> Z;
  writeFaultAt : nat -> option string;
  freeBusyAt : nat -> Outcome (option (list BusyPeriod));
  createEventAt : nat -> Outcome CalendarEvent;
  smtpAt : nat -> Outcome string
}.

(** The state a run threads: the store, the number of calls made so far
    and the collaborators called, oldest first. *)
Record World := {
  store : Store;
  tick : nat;
  calls : list Collaborator
}.

Definition matchesClause (p : Patient) (c : PatientClause) : bool :=
  match c with
  | ByEmail v => Js.strictEq (p_email p) v
  | ByPhone v => Js.strictEq (p_phone p) v
  end.

Definition matchesAny (anyOf : list PatientClause) (p : Patient) : bool :=
  existsb (matchesClause p) anyOf.

(** First element satisfying [f], with its position. *)
Fixpoint findFrom {A : Type} (f : A -> bool) (i : nat) (l : list A)
    : option (nat * A) :=
  match l with
  | [] => None
  | x :: rest => if f x then Some (i, x) else findFrom f (S i) rest
  end.

Definition findOne {A : Type} (f : A -> bool) (l : list A)
    : option (nat * A) := findFrom f O l.

(** [doc.save()]: a new document goes to the end of its collection, a
    found one is written back in place. *)
Definition save {A : Type} (doc : option nat) (x : A) (l : list A)
    : list A :=
  match doc with
  | None => (l ++ [x])%list
  | Some i => <[i := x]> l
  end.

(** [deleteOne]: the first document satisfying [f] is removed. *)
Fixpoint deleteFirst {A : Type} (f : A -> bool) (l : list A) : list A :=
  match l with
  | [] => []
  | x :: rest => if f x then rest else x :: deleteFirst f rest
  end.

Definition notCancelled (a : Appointment) : bool :=
  negb (String.eqb (status a) "cancelled").

(** The filter of the booking route's conflict query:
    [{doctorId, status: {$ne: 'cancelled'}, startDateTime: {$lt: end},
      endDateTime: {$gt: start}}]. *)
Definition conflictsWith (doctorId : string) (startT endT : Z)
    (a : Appointment) : bool :=
  String.eqb (a_doctorId a) doctorId
  && notCancelled a
  && Js.lt (startDateTime a) (Some endT)
  && Js.gt (endDateTime a) (Some startT).

Definition withPatients (s : Store) (ps : list Patient) : Store :=
  {| doctors := doctors s; patients := ps; appointments := appointments s |}.

Definition withAppointments (s : Store) (l : list Appointment) : Store :=
  {| doctors := doctors s; patients := patients s; appointments := l |}.

(** The answer to one call and the store after it. *)
Definition answer (env : Env) {X : Type} (e : Eff X) (n : nat) (s : Store)
    : X * Store :=
  match e in Eff T return T * Store with
  | GetEnv name => (processEnv env name, s)
  | Uuid => (uuidAt env n, s)
  | DateNow => (nowAt env n, s)
  | DoctorFindOne id =>
      (List.find (fun d => String.eqb (d_doctorId d) id) (doctors s), s)
  | PatientFindOne anyOf => (findOne (matchesAny anyOf) (patients s), s)
  | PatientSave doc p =>
      match writeFaultAt env n with
      | Some m => (Thrown m, s)
      | None => (Returned tt, withPatients s (save doc p (patients s)))
      end
  | AppointmentFind id date =>
      (List.filter (fun a => String.eqb (a_doctorId a) id
                             && String.eqb (a_date a) date
                             && notCancelled a)
                   (appointments s), s)
  | AppointmentFindOverlap id startT endT =>
      (List.find (conflictsWith id startT endT) (appointments s), s)
  | AppointmentFindById id =>
      (findOne (fun a => String.eqb (appointmentId a) id) (appointments s),
       s)
  | AppointmentSave doc a =>
      match writeFaultAt env n with
      | Some m => (Thrown m, s)
      | None =>
          (Returned tt, withAppointments s (save doc a (appointments s)))
      end
  | AppointmentDeleteOne id =>
      (tt, withAppointments s
             (deleteFirst (fun a => String.eqb (appointmentId a) id)
                          (appointments s)))
  | GetFreeBusy _ _ _ => (freeBusyAt env n, s)
  | CreateEvent _ _ => (createEventAt env n, s)
  | SmtpSend _ _ => (smtpAt env n, s)
  end.

Definition handle (env : Env) {X : Type} (e : Eff X) (w : World)
    : X * World :=
  let '(x, s) := answer env e (tick w) (store w) in
  (x, {| store := s; tick := S (tick w);
         calls := (calls w ++ [collaborator e])%list |}).

(** Running a route against a world. *)
Fixpoint run {A : Type} (env : Env) (p : Prog A) (w : World) : A * World :=
  match p with
  | Ret a => (a, w)
  | Vis e k => let '(x, w') := handle env e w in run env (k x) w'
  end.

End Effects.

(* ===================================================================== *)
(** * HTTP requests and responses                                         *)
(* ===================================================================== *)
Module Http.

(** The soft [emailStatus] field of a booking response. *)
Inductive EmailStatus :=
| EmailNull
| EmailSkipped (reason : string)
| EmailSent (messageId : string)
| EmailError (error : string).

(** [{patientId, name, email, phone}] as responses embed it. *)
Record PatientSummary := {
  s_patientId : string;
  s_name : option string;
  s_email : option string;
  s_phone : option string
}.

Definition summaryOf (p : Patient) : PatientSummary :=
  {| s_patientId := patientId p; s_name := p_name p;
     s_email := p_email p; s_phone := p_phone p |}.

(** JSON bodies, one constructor per shape the routes send. *)
Inductive Body :=
| ErrorBody (error : string)
| ConflictBody (error message : string)
| AvailabilityBody (date dayOfWeek doctorId : string)
    (availableSlots : list Slot) (message : option string)
| BookedBody (appointmentId status : string) (patient : PatientSummary)
    (emailStatus : EmailStatus) (calendarLink : option string)
| AlreadyRegisteredBody (error : string) (patient : PatientSummary)
| RegisteredBody (patient : PatientSummary)
| PatientBody (patient : Patient)
| CancelledBody (appointmentId : string).

Record Response := {
  code : Z;
  body : Body
}.

(** [res.status(c).json(b)] and [res.json(b)]. *)
Definition json (c : Z) (b : Body) : Response := {| code := c; body := b |}.
Definition ok (b : Body) : Response := json 200 b.

(** Body of [POST /appointments/book], with the shared secret the
    request carries in its header or query. *)
Record BookRequest := {
  apiKey : option string;
  doctorId : option string;
  doctorName : option string;
  doctorSpecialty : option string;
  patientName : option string;
  patientEmail : option string;
  patientPhone : option string;
  date : option string;
  timeSlot : option string
}.

(** Body of [POST /patients/register] and of [POST /patients]. *)
Record RegisterRequest := {
  r_apiKey : option string;
  r_name : option string;
  r_email : option string;
  r_phone : option string
}.

End Http.

(* ===================================================================== *)
(** * Routes ([api.js] and the earlier router)                            *)
(* ===================================================================== *)
Module Api.
Import Effects Http.

(** [const x = await e; k]. *)
Notation "'let*' x ':=' e 'in' k" := (Vis e (fun x => k))
  (at level 10, x pattern, e at level 100, k at level 200).

(** The string inside a value known to be a string; used after the
    truthiness checks of a handler. *)
Definition str (v : option string) : string := default "" v.

(** [uuidv4().slice(0, 8)]. *)
Definition slice8 (u : string) : string := String.substring 0 8 u.

(** [requireApiKey]: with no [API_KEY] configured every request passes;
    otherwise the request must carry that key. *)
Definition requireApiKey (key : option string) (next : Prog Response)
    : Prog Response :=
  let* configured := GetEnv "API_KEY" in
  if negb (Js.truthy configured) then next
  else if negb (Js.truthy key) || negb (Js.strictEq key configured)
  then Ret (json 401 (ErrorBody "Unauthorized"))
  else next.

(** The names of the settings that are not given, as the error of
    [getTransporter] lists them: the array of names, [filter(Boolean)]. *)
Definition missingSettings (host user pass : option string) : list string :=
  ((if Js.truthy host then [] else ["SMTP_HOST"])
   ++ (if Js.truthy user then [] else ["SMTP_USER"])
   ++ (if Js.truthy pass then [] else ["SMTP_PASS"]))%list.

(** [getTransporter]: throws when the SMTP settings are incomplete. *)
Definition getTransporter : Prog (Outcome unit) :=
  let* host := GetEnv "SMTP_HOST" in
  let* user := GetEnv "SMTP_USER" in
  let* pass := GetEnv "SMTP_PASS" in
  if negb (Js.truthy host) || negb (Js.truthy user) || negb (Js.truthy pass)
  then Ret (Thrown ("SMTP configuration incomplete. Missing: "
                    ++ String.concat ", " (missingSettings host user pass)))
  else Ret (Returned tt).

(** [sendConfirmationEmail]: skipped without a recipient or without
    [SMTP_HOST]; otherwise the transport's answer, an exception being
    thrown on to the caller. *)
Definition sendConfirmationEmail (toEmail : option string)
    (subject : string) : Prog (Outcome EmailStatus) :=
  if negb (Js.truthy toEmail)
  then Ret (Returned (EmailSkipped "No recipient email"))
  else
    let* host := GetEnv "SMTP_HOST" in
    if negb (Js.truthy host)
    then Ret (Returned (EmailSkipped "SMTP not configured"))
    else
      bind getTransporter (fun transporter =>
        match transporter with
        | Thrown m => Ret (Thrown m)
        | Returned _ =>
            let* sent := SmtpSend (str toEmail) subject in
            match sent with
            | Returned messageId => Ret (Returned (EmailSent messageId))
            | Thrown m => Ret (Thrown m)
            end
        end).

(** [/^\d{4}-\d{2}-\d{2}$/.test(date)]. *)
Definition dateRegexTest (date : string) : bool :=
  match date with
  | String y1 (String y2 (String y3 (String y4 (String d1
      (String m1 (String m2 (String d2 (String a1 (String a2 ""))))))))) =>
      Js.isDigit y1 && Js.isDigit y2 && Js.isDigit y3 && Js.isDigit y4
      && Ascii.eqb d1 "-" && Js.isDigit m1 && Js.isDigit m2
      && Ascii.eqb d2 "-" && Js.isDigit a1 && Js.isDigit a2
  | _ => false
  end.

Section WithRuntime.

(** [new Date(s).getTime()]. *)
Variable getTime : string -> option Z.

(** Lower-cased English weekday name of a "YYYY-MM-DD" date, as
    [toLocaleDateString('en-US', {weekday: 'long'})] gives it. *)
Variable weekdayOf : string -> string.

(** [POST /doctors/:doctorId/availability], on the paths on which the
    doctor and appointment queries are answered.  (The handler's
    [catch], which answers 500 when one of them is refused, is not part
    of this definition.) *)
Definition availabilityRoute (doctorIdParam : string)
    (dateField : option string) : Prog Response :=
  if negb (Js.truthy dateField)
  then Ret (json 400 (ErrorBody "Date is required (format: YYYY-MM-DD)"))
  else
    let date := str dateField in
    if negb (dateRegexTest date)
    then Ret (json 400
                (ErrorBody
                   "Invalid date format. Use YYYY-MM-DD (e.g., 2025-12-02)"))
    else
      let* found := DoctorFindOne doctorIdParam in
      match found with
      | None => Ret (json 404 (ErrorBody "Doctor not found"))
      | Some doctor =>
          let dayOfWeek := weekdayOf date in
          match d_availability doctor with
          | None =>
              Ret (json 400
                     (ErrorBody "Doctor availability schedule not configured"))
          | Some availability =>
              match availability !! dayOfWeek with
              | None =>
                  Ret (ok (AvailabilityBody date dayOfWeek
                             (d_doctorId doctor) []
                             (Some ("No schedule configured for "
                                    ++ dayOfWeek))))
              | Some dayAvailability =>
                  if negb (available dayAvailability)
                  then
                    Ret (ok (AvailabilityBody date dayOfWeek
                               (d_doctorId doctor) []
                               (Some "Doctor not available on this day")))
                  else if negb (Js.truthy (dayStart dayAvailability))
                          || negb (Js.truthy (dayEnd dayAvailability))
                  then
                    Ret (json 400
                           (ErrorBody
                              "Doctor's working hours not properly configured"))
                  else
                    let timeMin := date ++ "T00:00:00+05:30" in
                    let timeMax := date ++ "T23:59:59+05:30" in
                    let withBusy (busyPeriods : list BusyPeriod) :=
                      let* existingAppointments :=
                        AppointmentFind (d_doctorId doctor) date in
                      Ret (ok (AvailabilityBody date dayOfWeek
                                 (d_doctorId doctor)
                                 (Slots.generateAvailableSlots getTime
                                    date
                                    (str (dayStart dayAvailability))
                                    (str (dayEnd dayAvailability))
                                    busyPeriods existingAppointments)
                                 None)) in
                    if Js.truthy (d_calendarId doctor)
                    then
                      let* freeBusy :=
                        GetFreeBusy (str (d_calendarId doctor))
                                    timeMin timeMax in
                      match freeBusy with
                      | Returned (Some busy) => withBusy busy
                      | Returned None => withBusy []
                      | Thrown _ => withBusy []
                      end
                    else withBusy []
              end
          end
      end.

(** The tail of the booking route, from the confirmation e-mail to
    the response. *)
Definition bookNotify (doctor : Doctor) (patient : Patient)
    (date : string) (appointment : Appointment)
    (googleEvent : CalendarEvent) : Prog Response :=
  let respond (emailStatus : EmailStatus) :=
    Ret (ok (BookedBody (appointmentId appointment) (status appointment)
               (summaryOf patient) emailStatus (htmlLink googleEvent))) in
  if Js.truthy (p_email patient)
  then
    bind (sendConfirmationEmail (p_email patient)
            ("Appointment Confirmed: " ++ d_name doctor ++ " on " ++ date))
         (fun sent =>
            match sent with
            | Returned emailStatus => respond emailStatus
            | Thrown m => respond (EmailError m)
            end)
  else respond EmailNull.

(** The booking route once doctor and patient are resolved: read the
    label, check for a conflict, create the calendar event, persist
    the appointment, notify.  A filter built from an invalid [Date]
    is rejected by the store driver, which the route's [catch] turns
    into a 500. *)
Definition bookSlot (req : BookRequest) (doctor : Doctor)
    (patient : Patient) : Prog Response :=
  let date := str (Http.date req) in
  match Label.bookingInterval date (str (timeSlot req)) with
  | None =>
      Ret (json 400
             (ErrorBody
                "Invalid time slot format. Use format: '09:00 AM - 09:30 AM'"))
  | Some (startDateTimeISO, endDateTimeISO) =>
      match getTime endDateTimeISO, getTime startDateTimeISO with
      | Some endT, Some startT =>
          let* conflictingAppointment :=
            AppointmentFindOverlap (d_doctorId doctor) startT endT in
          match conflictingAppointment with
          | Some _ =>
              Ret (json 409
                     (ConflictBody "This time slot is no longer available"
                                   "Please select a different time"))
          | None =>
              let eventObj :=
                {| summary := "Consultation - " ++ d_name doctor;
                   eventStart := startDateTimeISO;
                   eventEnd := endDateTimeISO;
                   attendees :=
                     ((if Js.truthy (d_email doctor)
                       then [str (d_email doctor)] else [])
                      ++ (if Js.truthy (p_email patient)
                          then [str (p_email patient)] else []))%list |} in
              let* now := DateNow in
              let* created := CreateEvent (d_calendarId doctor) eventObj in
              let googleEvent :=
                match created with
                | Returned ev => ev
                | Thrown _ =>
                    {| eventId := "manual-" ++ Js.toString now;
                       htmlLink := None |}
                end in
              let* u := Uuid in
              let appointment :=
                {| appointmentId := "A-" ++ slice8 u;
                   a_doctorId := d_doctorId doctor;
                   a_doctorName :=
                     str (Js.orElse (doctorName req) (Some (d_name doctor)));
                   a_doctorSpecialty :=
                     str (Js.orElse (doctorSpecialty req)
                                    (Some (d_specialty doctor)));
                   a_patientId := patientId patient;
                   a_patientName := str (patientName req);
                   a_patientEmail := patientEmail req;
                   a_patientPhone := patientPhone req;
                   a_date := date;
                   a_timeSlot := str (timeSlot req);
                   startDateTime := Some startT;
                   endDateTime := Some endT;
                   googleEventId := eventId googleEvent;
                   status := "confirmed";
                   paymentStatus := "pending" |} in
              let* saved := AppointmentSave None appointment in
              match saved with
              | Thrown m => Ret (json 500 (ErrorBody m))
              | Returned _ =>
                  bookNotify doctor patient date appointment googleEvent
              end
          end
      | _, _ => Ret (json 500 (ErrorBody "Cast to date failed"))
      end
  end.

(** The handler of [POST /appointments/book]. *)
Definition bookHandler (req : BookRequest) : Prog Response :=
  if negb (Js.truthy (doctorId req)) || negb (Js.truthy (patientName req))
     || negb (Js.truthy (Http.date req)) || negb (Js.truthy (timeSlot req))
  then Ret (json 400 (ErrorBody "Missing required fields"))
  else if negb (Js.truthy (patientEmail req))
          && negb (Js.truthy (patientPhone req))
  then Ret (json 400 (ErrorBody "Either email or phone is required"))
  else
    let* found := DoctorFindOne (str (doctorId req)) in
    match found with
    | None => Ret (json 404 (ErrorBody "Doctor not found"))
    | Some doctor =>
        let* existing :=
          PatientFindOne [ByEmail (patientEmail req);
                          ByPhone (patientPhone req)] in
        match existing with
        | None =>
            let* u := Uuid in
            let patient :=
              {| patientId := "P-" ++ slice8 u;
                 p_name := patientName req;
                 p_email := patientEmail req;
                 p_phone := patientPhone req |} in
            let* saved := PatientSave None patient in
            match saved with
            | Thrown m => Ret (json 500 (ErrorBody m))
            | Returned _ => bookSlot req doctor patient
            end
        | Some (doc, old) =>
            let patient :=
              {| patientId := patientId old;
                 p_name := patientName req;
                 p_email := if Js.truthy (patientEmail req)
                            then patientEmail req else p_email old;
                 p_phone := if Js.truthy (patientPhone req)
                            then patientPhone req else p_phone old |} in
            let* saved := PatientSave (Some doc) patient in
            match saved with
            | Thrown m => Ret (json 500 (ErrorBody m))
            | Returned _ => bookSlot req doctor patient
            end
        end
    end.

(** [POST /appointments/book]. *)
Definition bookRoute (req : BookRequest) : Prog Response :=
  requireApiKey (apiKey req) (bookHandler req).

End WithRuntime.

(** [POST /appointments/:appointmentId/cancel]: the status becomes
    ['cancelled'] and the document is kept. *)
Definition cancelRoute (key : option string) (idParam : string)
    : Prog Response :=
  requireApiKey key (
    let* found := AppointmentFindById idParam in
    match found with
    | None => Ret (json 404 (ErrorBody "Appointment not found"))
    | Some (doc, a) =>
        let cancelled :=
          {| appointmentId := appointmentId a;
             a_doctorId := a_doctorId a;
             a_doctorName := a_doctorName a;
             a_doctorSpecialty := a_doctorSpecialty a;
             a_patientId := a_patientId a;
             a_patientName := a_patientName a;
             a_patientEmail := a_patientEmail a;
             a_patientPhone := a_patientPhone a;
             a_date := a_date a;
             a_timeSlot := a_timeSlot a;
             startDateTime := startDateTime a;
             endDateTime := endDateTime a;
             googleEventId := googleEventId a;
             status := "cancelled";
             paymentStatus := paymentStatus a |} in
        let* saved := AppointmentSave (Some doc) cancelled in
        match saved with
        | Thrown m => Ret (json 500 (ErrorBody m))
        | Returned _ => Ret (ok (CancelledBody (appointmentId a)))
        end
    end).

(** [POST /appointments/:id/cancel], the later registration of the same
    path: the document is deleted.  Its calendar clean-up refers to a
    name the module never defines, so that step always lands in its own
    [catch] and calls nothing. *)
Definition cancelDeleteRoute (idParam : string) : Prog Response :=
  let* found := AppointmentFindById idParam in
  match found with
  | None => Ret (json 404 (ErrorBody "Appointment not found"))
  | Some _ =>
      let* _ := AppointmentDeleteOne idParam in
      Ret (ok (CancelledBody idParam))
  end.

(** The [$or] filter of the registration route: a clause for the e-mail
    when one is given, a clause for the phone when one is given. *)
Definition contactFilter (req : RegisterRequest) : list PatientClause :=
  ((if Js.truthy (r_email req) then [ByEmail (r_email req)] else [])
   ++ (if Js.truthy (r_phone req) then [ByPhone (r_phone req)] else []))%list.

(** [POST /patients/register]. *)
Definition registerRoute (req : RegisterRequest) : Prog Response :=
  requireApiKey (r_apiKey req) (
    if negb (Js.truthy (r_name req))
       || (negb (Js.truthy (r_email req)) && negb (Js.truthy (r_phone req)))
    then Ret (json 400 (ErrorBody "Missing required fields"))
    else
      let* existingPatient := PatientFindOne (contactFilter req) in
      match existingPatient with
      | Some (_, p) =>
          Ret (json 409 (AlreadyRegisteredBody "Patient already registered"
                                               (summaryOf p)))
      | None =>
          let* u := Uuid in
          let patient :=
            {| patientId := "P-" ++ slice8 u;
               p_name := r_name req;
               p_email := r_email req;
               p_phone := r_phone req |} in
          let* saved := PatientSave None patient in
          match saved with
          | Thrown m => Ret (json 500 (ErrorBody m))
          | Returned _ => Ret (ok (RegisteredBody (summaryOf patient)))
          end
      end).

(** [POST /patients] of the earlier router: create, or update name and
    phone of the patient found by e-mail or phone.  The route has no
    [catch] of its own; a refused write is shown as the 500 the framework's
    error path gives. *)
Definition patientsRoute (req : RegisterRequest) : Prog Response :=
  if negb (Js.truthy (r_email req)) && negb (Js.truthy (r_phone req))
  then Ret (json 400 (ErrorBody "email or phone required"))
  else
    let* found :=
      PatientFindOne [ByEmail (r_email req); ByPhone (r_phone req)] in
    match found with
    | None =>
        let* u := Uuid in
        let patient :=
          {| patientId := "P-" ++ slice8 u;
             p_name := r_name req;
             p_email := r_email req;
             p_phone := r_phone req |} in
        let* saved := PatientSave None patient in
        match saved with
        | Thrown m => Ret (json 500 (ErrorBody m))
        | Returned _ => Ret (ok (PatientBody patient))
        end
    | Some (doc, old) =>
        let patient :=
          {| patientId := patientId old;
             p_name := Js.orElse (r_name req) (p_name old);
             p_email := p_email old;
             p_phone := Js.orElse (r_phone req) (p_phone old) |} in
        let* saved := PatientSave (Some doc) patient in
        match saved with
        | Thrown m => Ret (json 500 (ErrorBody m))
        | Returned _ => Ret (ok (PatientBody patient))
        end
    end.

End Api.

(* ===================================================================== *)
(** * One-time passcodes ([otpService.js])                                *)
(* ===================================================================== *)
Module Otp.

(** What [otpStore] holds for a contact address. *)
Record Entry := {
  otp : string;
  expiryTime : Z;
  attempts : Z
}.

(** What [verifyOTP] returns. *)
Record Verdict := {
  valid : bool;
  message : string;
  remainingAttempts : option Z
}.

Definition OTP_EXPIRY_TIME : Z := 5 * 60 * 1000.

(** [generateOTP]: [crypto.randomInt(100000, 999999).toString()], for
    the integer [r] the generator draws from that range. *)
Definition generateOTP (r : Z) : string := Js.toString r.

(** [storeOTP(email, otp)] at time [now]: the entry replaces whatever
    was stored for the address.  The clean-up it schedules is
    [cleanup]. *)
Definition storeOTP (now : Z) (email code : string)
    (otpStore : gmap string Entry) : gmap string Entry :=
  <[email := {| otp := code; expiryTime := now + OTP_EXPIRY_TIME;
                attempts := 0 |}]> otpStore.

(** The timer callback of [storeOTP]: whatever is stored for the
    address when the timer fires is removed. *)
Definition cleanup (email : string) (otpStore : gmap string Entry)
    : gmap string Entry :=
  match otpStore !! email with
  | Some _ => delete email otpStore
  | None => otpStore
  end.

(** [verifyOTP(email, otp)] at time [now]; [code] is [otp.toString()].
    A wrong code updates the stored entry in place. *)
Definition verifyOTP (now : Z) (email code : string)
    (otpStore : gmap string Entry) : Verdict * gmap string Entry :=
  match otpStore !! email with
  | None =>
      ({| valid := false;
          message := "OTP not found or expired. Please request a new OTP.";
          remainingAttempts := Some 0 |}, otpStore)
  | Some storedData =>
      if expiryTime storedData <? now then
        ({| valid := false;
            message := "OTP has expired. Please request a new OTP.";
            remainingAttempts := Some 0 |}, delete email otpStore)
      else if 5 <=? attempts storedData then
        ({| valid := false;
            message := "Maximum OTP verification attempts exceeded. Please request a new OTP.";
            remainingAttempts := Some 0 |}, delete email otpStore)
      else if negb (String.eqb (otp storedData) code) then
        let updated :=
          {| otp := otp storedData; expiryTime := expiryTime storedData;
             attempts := attempts storedData + 1 |} in
        ({| valid := false;
            message := "Invalid OTP";
            remainingAttempts := Some (5 - attempts updated) |},
         <[email := updated]> otpStore)
      else
        ({| valid := true;
            message := "OTP verified successfully";
            remainingAttempts := None |}, delete email otpStore)
  end.

(** What can happen to the store, each at a time of the process clock:
    a code is issued, a code is submitted, or a clean-up timer fires. *)
Inductive Event :=
| Issue (email code : string)
| Submit (email code : string)
| TimerFires (email : string).

(** The store after one event, and the verdict of a submission. *)
Definition step (now : Z) (ev : Event) (otpStore : gmap string Entry)
    : option Verdict * gmap string Entry :=
  match ev with
  | Issue email code => (None, storeOTP now email code otpStore)
  | Submit email code =>
      let '(v, st) := verifyOTP now email code otpStore in (Some v, st)
  | TimerFires email => (None, cleanup email otpStore)
  end.

(** A run of timed events: for the submissions made for [email], oldest
    first, the time, the submitted code and the verdict. *)
Fixpoint verdictsFor (email : string) (evs : list (Z * Event))
    (otpStore : gmap string Entry) : list (Z * string * Verdict) :=
  match evs with
  | [] => []
  | (now, ev) :: rest =>
      let '(v, st) := step now ev otpStore in
      let later := verdictsFor email rest st in
      match ev, v with
      | Submit e code, Some verdict =>
          if String.eqb e email then (now, code, verdict) :: later else later
      | _, _ => later
      end
  end.

(** Whether a timed event issues a code for [email]. *)
Definition issues (email : string) (tev : Z * Event) : bool :=
  match snd tev with
  | Issue e _ => String.eqb e email
  | _ => false
  end.

End Otp.

(* ===================================================================== *)
(** * Notions used by the statements                                      *)
(* ===================================================================== *)
Module Notions.
Import Effects Http.

(** The request passes [requireApiKey]. *)
Definition authorized (env : Env) (key : option string) : bool :=
  negb (Js.truthy (processEnv env "API_KEY"))
  || (Js.truthy key && Js.strictEq key (processEnv env "API_KEY")).

(** The world after one call to collaborator [c] that leaves the store
    alone. *)
Definition advance (w : World) (c : Collaborator) : World :=
  {| store := store w; tick := S (tick w);
     calls := (calls w ++ [c])%list |}.

(** The store accepts every write. *)
Definition writesAccepted (env : Env) : Prop :=
  forall n, writeFaultAt env n = None.

(** The mail transport refuses every message. *)
Definition mailDown (env : Env) : Prop :=
  forall n, exists m, smtpAt env n = Thrown m.

(** The booking request carries the fields the handler insists on. *)
Definition hasRequiredFields (req : BookRequest) : bool :=
  Js.truthy (doctorId req) && Js.truthy (patientName req)
  && Js.truthy (date req) && Js.truthy (timeSlot req)
  && (Js.truthy (patientEmail req) || Js.truthy (patientPhone req)).

(** [Doctor.findOne({doctorId})] on a collection. *)
Definition doctorOf (s : Store) (id : string) : option Doctor :=
  List.find (fun d => String.eqb (d_doctorId d) id) (doctors s).

(** Two appointments may stand side by side: they are for different
    doctors, or one of them is cancelled, or their intervals do not
    overlap. *)
Definition compatible (a b : Appointment) : bool :=
  negb (String.eqb (a_doctorId a) (a_doctorId b)
        && notCancelled a && notCancelled b
        && Slots.overlaps (startDateTime a) (endDateTime a)
                          (startDateTime b) (endDateTime b)).

(** The invariant of the appointment collection: any two documents at
    different positions are compatible. *)
Definition NoOverlap (l : list Appointment) : Prop :=
  ForallOrdPairs (fun a b => compatible a b = true) l.

(** What a route may do to the appointment collection [old]: leave it,
    or add one appointment compatible with all of [old]. *)
Definition keptOrAdded (old new : list Appointment) : Prop :=
  new = old
  \/ exists a, new = (old ++ [a])%list
               /\ Forall (fun b => compatible b a = true) old.

(** The operations that write appointments. *)
Inductive Op :=
| Book (req : BookRequest)
| Cancel (key : option string) (id : string)
| CancelDelete (id : string).

Definition applyOp (getTime : string -> option Z) (env : Env) (op : Op)
    (w : World) : Response * World :=
  match op with
  | Book req => run env (Api.bookRoute getTime req) w
  | Cancel key id => run env (Api.cancelRoute key id) w
  | CancelDelete id => run env (Api.cancelDeleteRoute id) w
  end.

(** The world after a sequence of operations. *)
Fixpoint applyOps (getTime : string -> option Z) (env : Env)
    (ops : list Op) (w : World) : World :=
  match ops with
  | [] => w
  | op :: rest => applyOps getTime env rest (snd (applyOp getTime env op w))
  end.

(** The label format of the generator, "HH:MM AM - HH:MM PM": two
    digits, a colon, two digits, a blank and AM or PM, twice, joined by
    " - ". *)
Definition isClockText (s : string) : bool :=
  match s with
  | String h1 (String h2 (String c (String m1 (String m2
      (String sp (String p1 (String p2 ""))))))) =>
      Js.isDigit h1 && Js.isDigit h2 && Ascii.eqb c ":"
      && Js.isDigit m1 && Js.isDigit m2 && Ascii.eqb sp " "
      && (Ascii.eqb p1 "A" || Ascii.eqb p1 "P") && Ascii.eqb p2 "M"
  | _ => false
  end.

Definition isLabel (s : string) : bool :=
  (String.length s =? 19)%nat
  && isClockText (String.substring 0 8 s)
  && String.eqb (String.substring 8 3 s) " - "
  && isClockText (String.substring 11 8 s).

(** Whether the booking route reads the label of the candidate starting
    at minute [m] back to that candidate's start and end times. *)
Definition readsBack (m : Z) : bool :=
  match Label.timeMatch (time (Slots.slotAt "" m)) with
  | Some groups =>
      let '(startTime, endTime) := Label.timesOfMatch groups in
      String.eqb startTime (Slots.clockLabel m ++ ":00")
      && String.eqb endTime (Slots.clockLabel (m + 30) ++ ":00")
  | None => false
  end.

(** The patients of a collection that carry a given e-mail address. *)
Definition withEmail (email : option string) (ps : list Patient)
    : list Patient :=
  List.filter (fun p => Js.strictEq (p_email p) email) ps.

End Notions.

(* ===================================================================== *)
(** * A small clinic to run the routes on                                 *)
(* ===================================================================== *)
Module Sample.
Import Effects Http.

(** Lower-cased weekday name of a "YYYY-MM-DD" date; ["invalid date"]
    for anything else. *)
Definition weekdayOf (date : string) : string :=
  match RefClock.getTime (date ++ "T00:00:00Z") with
  | None => "invalid date"
  | Some ms =>
      match (ms / 86400000 + 4) mod 7 with
      | 0 => "sunday" | 1 => "monday" | 2 => "tuesday" | 3 => "wednesday"
      | 4 => "thursday" | 5 => "friday" | _ => "saturday"
      end
  end.

Definition closed : DayAvailability :=
  {| available := false; dayStart := None; dayEnd := None |}.

Definition hours (a b : string) : DayAvailability :=
  {| available := true; dayStart := Some a; dayEnd := Some b |}.

(** Dr. Rao works Monday 09:00-11:00 and Wednesday from a quarter past
    nine; Tuesday is marked unavailable. *)
Definition week : gmap string DayAvailability :=
  <["monday" := hours "09:00" "11:00"]>
  (<["tuesday" := closed]>
   (<["wednesday" := hours "09:15" "10:45"]> ∅)).

Definition rao : Doctor :=
  {| d_doctorId := "D-1"; d_name := "Dr. Rao"; d_email := None;
     d_specialty := "Cardiology"; d_consultationFee := 500;
     d_calendarId := Some "rao@calendar";
     d_availability := Some week |}.

Definition clinic : Store :=
  {| doctors := [rao]; patients := []; appointments := [] |}.

Definition start : World := {| store := clinic; tick := 0; calls := [] |}.

(** No shared secret; the store accepts every write; SMTP is configured
    but the transport refuses every message; the calendar is
    unreachable. *)
Definition env : Env :=
  {| processEnv := fun name =>
       if String.eqb name "API_KEY" then None else Some "configured";
     uuidAt := fun n => "0000" ++ Js.toString (Z.of_nat n + 1000) ++ "-ffff";
     nowAt := fun n => 1764550000000 + Z.of_nat n;
     writeFaultAt := fun _ => None;
     freeBusyAt := fun _ => Thrown "calendar unreachable";
     createEventAt := fun _ => Thrown "calendar unreachable";
     smtpAt := fun _ => Thrown "connection refused" |}.

Definition request (day slot : string) : BookRequest :=
  {| apiKey := None; doctorId := Some "D-1"; doctorName := None;
     doctorSpecialty := None; patientName := Some "Asha";
     patientEmail := Some "asha@example.org"; patientPhone := None;
     date := Some day; timeSlot := Some slot |}.

Definition registration (name : string) : RegisterRequest :=
  {| r_apiKey := None; r_name := Some name;
     r_email := Some "asha@example.org"; r_phone := Some "555-0100" |}.

(** Asha, and her appointment on Monday 09:30. *)
Definition asha : Patient :=
  {| patientId := "P-00001003"; p_name := Some "Asha";
     p_email := Some "asha@example.org"; p_phone := None |}.

Definition ashaMonday : Appointment :=
  {| appointmentId := "A-00001008"; a_doctorId := "D-1";
     a_doctorName := "Dr. Rao"; a_doctorSpecialty := "Cardiology";
     a_patientId := "P-00001003"; a_patientName := "Asha";
     a_patientEmail := Some "asha@example.org"; a_patientPhone := None;
     a_date := "2025-12-01"; a_timeSlot := "09:30 AM - 10:00 AM";
     startDateTime := Some 1764561600000;
     endDateTime := Some 1764563400000;
     googleEventId := "manual-1764550000006";
     status := "confirmed"; paymentStatus := "pending" |}.

(** The clinic after Asha has booked Monday 09:30. *)
Definition booked : World :=
  {| store := {| doctors := [rao]; patients := [asha];
                 appointments := [ashaMonday] |};
     tick := 15; calls := [] |}.

(** The calendar reports 09:00-09:30 local time as busy. *)
Definition busy : list BusyPeriod :=
  [{| busyStart := "2025-12-01T03:30:00Z";
      busyEnd := "2025-12-01T04:00:00Z" |}].

(** A code issued at time 1000 is first mistyped, then entered
    correctly, then entered once more. *)
Definition submissions : list (Z * Otp.Event) :=
  [(2000, Otp.Submit "asha@example.org" "000000");
   (2500, Otp.TimerFires "someone@example.org");
   (3000, Otp.Submit "asha@example.org" "123456");
   (4000, Otp.Submit "asha@example.org" "123456")].

End Sample.

(* ===================================================================== *)
(** * Further code of the same files                                      *)
(* ===================================================================== *)

(** [getOTPStatus] of [otpService.js]. *)
Module OtpStatus.

(** What [getOTPStatus] returns for a stored entry:
    [{exists, remainingTime, attempts, maxAttempts}], with [present] for
    [exists] and [attemptsMade] for [attempts]. *)
Record Status := {
  present : bool;
  remainingTime : Z;
  attemptsMade : Z;
  maxAttempts : Z
}.

(** [Math.ceil(a / 1000)] for an integer [a]. *)
Definition ceilSeconds (a : Z) : Z := - ((- a) / 1000).

(** [getOTPStatus(email)] at time [now]: [None] is [null]. *)
Definition getOTPStatus (now : Z) (email : string)
    (otpStore : gmap string Otp.Entry) : option Status :=
  match otpStore !! email with
  | None => None
  | Some data =>
      Some {| present := true;
              remainingTime :=
                Z.max 0 (ceilSeconds (Otp.expiryTime data - now));
              attemptsMade := Otp.attempts data;
              maxAttempts := 5 |}
  end.

End OtpStatus.

(** [GET /patients/search] of [api.js]. *)
Module Search.
Import Effects Http Api.

(** The handler: e-mail and phone come from the query string. *)
Definition searchRoute (email phone : option string) : Prog Response :=
  if negb (Js.truthy email) && negb (Js.truthy phone)
  then Ret (json 400 (ErrorBody "Email or phone required"))
  else
    let* patient :=
      PatientFindOne
        ((if Js.truthy email then [ByEmail email] else [])
         ++ (if Js.truthy phone then [ByPhone phone] else []))%list in
    match patient with
    | None => Ret (json 404 (ErrorBody "Patient not found"))
    | Some (_, p) => Ret (ok (PatientBody p))
    end.

End Search.

(** Notions used by the further statements. *)
Module Readings.
Import Effects Http.

(** Submissions of codes for one address, each at its time. *)
Definition submissionsOf (email : string) (tries : list (Z * string))
    : list (Z * Otp.Event) :=
  map (fun tc => (fst tc, Otp.Submit email (snd tc))) tries.

(** The verdict on a wrong code when [made] failed attempts are on
    record after it. *)
Definition refused (made : Z) : Otp.Verdict :=
  {| Otp.valid := false; Otp.message := "Invalid OTP";
     Otp.remainingAttempts := Some (5 - made) |}.

(** The verdicts a run of wrong codes gets, starting with [made] failed
    attempts on record. *)
Fixpoint refusals (made : Z) (tries : list (Z * string))
    : list (Z * string * Otp.Verdict) :=
  match tries with
  | [] => []
  | (t, c) :: rest => (t, c, refused (made + 1)) :: refusals (made + 1) rest
  end.

Definition accepted : Otp.Verdict :=
  {| Otp.valid := true; Otp.message := "OTP verified successfully";
     Otp.remainingAttempts := None |}.

Definition notFound : Otp.Verdict :=
  {| Otp.valid := false;
     Otp.message := "OTP not found or expired. Please request a new OTP.";
     Otp.remainingAttempts := Some 0 |}.

Definition expired : Otp.Verdict :=
  {| Otp.valid := false;
     Otp.message := "OTP has expired. Please request a new OTP.";
     Otp.remainingAttempts := Some 0 |}.

Definition exhausted : Otp.Verdict :=
  {| Otp.valid := false;
     Otp.message := "Maximum OTP verification attempts exceeded. Please request a new OTP.";
     Otp.remainingAttempts := Some 0 |}.

(** For the candidate starting at minute [m]: whether the booking route
    reads the start of its label back to the candidate's start, and
    whether the end it derives is the candidate's end.  The date-time
    strings are compared from the "T" on; [None] when the label is not
    read at all. *)
Definition readsOf (m : Z) : option (bool * bool) :=
  match Label.timeMatch (time (Slots.slotAt "" m)) with
  | Some groups =>
      let '(startTime, endTime) := Label.timesOfMatch groups in
      Some (String.eqb ("T" ++ startTime ++ "+05:30")
                       ("T" ++ Slots.clockLabel m ++ ":00+05:30"),
            String.eqb ("T" ++ endTime ++ "+05:30")
                       ("T" ++ Slots.clockLabel (m + 30) ++ ":00+05:30"))
  | None => None
  end.

(** [readsOf] is as expected at [m]: start read back, end read back
    exactly on the half hours. *)
Definition readsAsExpected (m : Z) : bool :=
  match readsOf m with
  | Some (true, endOk) => Bool.eqb endOk (m mod 30 =? 0)
  | _ => false
  end.

(** The end, in minutes of the day, that the booking route gives an
    interval starting at minute [m]: the next full hour when the start
    minute is 30, half past the start's hour otherwise. *)
Definition derivedEnd (m : Z) : Z :=
  if Z.rem m 60 =? 30 then (m / 60 + 1) * 60 else m / 60 * 60 + 30.

(** Whether the end the booking route derives from the label of the
    candidate starting at [m] is the clock time [derivedEnd m]. *)
Definition derivesEnd (m : Z) : bool :=
  match Label.timeMatch (time (Slots.slotAt "" m)) with
  | Some groups =>
      String.eqb ("T" ++ snd (Label.timesOfMatch groups) ++ "+05:30")
                 ("T" ++ Slots.clockLabel (derivedEnd m) ++ ":00+05:30")
  | None => false
  end.

(** The "HH:MM" fields of the candidate starting at [m] parse back to
    [m] and [m + 30]. *)
Definition clockParsesBack (m : Z) : bool :=
  match Slots.parseClock (Slots.clockLabel m) with
  | Some m' => m' =? m
  | None => false
  end.

End Readings.

(** Data the further statements are run on. *)
Module Cases.
Import Effects Http.

(** Four mistyped codes, one a minute, after an issue at time 1000. *)
Definition mistakes : list (Z * string) :=
  [(61000, "111111"); (121000, "222222"); (181000, "333333");
   (241000, "444444")].

(** A fifth one. *)
Definition fiveMistakes : list (Z * string) :=
  (mistakes ++ [(251000, "555555")])%list.

End Cases.

(** The calls a run makes. *)
Module Traces.
Import Effects.

(** The calls made between two worlds of one run. *)
Definition callsSince (w w' : World) : list Collaborator :=
  drop (length (calls w)) (calls w').

Definition isCall (c d : Collaborator) : bool :=
  match c, d with
  | ProcessEnv, ProcessEnv | UuidSource, UuidSource | Clock, Clock
  | DoctorStore, DoctorStore | PatientStore, PatientStore
  | AppointmentStore, AppointmentStore | BusySource, BusySource
  | CalendarInsert, CalendarInsert | MailTransport, MailTransport => true
  | _, _ => false
  end.

(** How often collaborator [c] occurs in a list of calls. *)
Definition callsTo (c : Collaborator) (l : list Collaborator) : nat :=
  length (List.filter (isCall c) l).

(** The calendar refuses every event. *)
Definition calendarDown (env : Env) : Prop :=
  forall n, exists m, createEventAt env n = Thrown m.

(** The recipient and the three SMTP settings are all present. *)
Definition mailConfigured (env : Env) (toEmail : option string) : bool :=
  Js.truthy toEmail && Js.truthy (processEnv env "SMTP_HOST")
  && Js.truthy (processEnv env "SMTP_USER")
  && Js.truthy (processEnv env "SMTP_PASS").

End Traces.

(** Changes the routes make to documents. *)
Module Changes.
Import Effects.

(** [appointment.status = 'cancelled'] on the document [a]. *)
Definition cancelled (a : Appointment) : Appointment :=
  {| appointmentId := appointmentId a;
     a_doctorId := a_doctorId a;
     a_doctorName := a_doctorName a;
     a_doctorSpecialty := a_doctorSpecialty a;
     a_patientId := a_patientId a;
     a_patientName := a_patientName a;
     a_patientEmail := a_patientEmail a;
     a_patientPhone := a_patientPhone a;
     a_date := a_date a;
     a_timeSlot := a_timeSlot a;
     startDateTime := startDateTime a;
     endDateTime := endDateTime a;
     googleEventId := googleEventId a;
     status := "cancelled";
     paymentStatus := paymentStatus a |}.

(** [Appointment.findOne({appointmentId: id})] on a collection. *)
Definition appointmentOf (s : Store) (id : string)
    : option (nat * Appointment) :=
  findOne (fun a => String.eqb (appointmentId a) id) (appointments s).

(** The patient identifiers of a store, in document order. *)
Definition patientIds (s : Store) : list string :=
  map patientId (patients s).

(** The [availableSlots] of a response; empty for a response that has
    none. *)
Definition slotsOf (r : Http.Response) : list Slot :=
  match Http.body r with
  | Http.AvailabilityBody _ _ _ availableSlots _ => availableSlots
  | _ => []
  end.

(** The result of [Appointment.find({doctorId, date, status: {$ne:
    'cancelled'}})] on a store. *)
Definition liveOn (s : Store) (doctorId date : string) : list Appointment :=
  List.filter (fun a => String.eqb (a_doctorId a) doctorId
                        && String.eqb (a_date a) date
                        && notCancelled a)
              (appointments s).

(** [env] with the calendar's busy-interval answers replaced. *)
Definition withFreeBusy (env : Env)
    (f : nat -> Outcome (option (list BusyPeriod))) : Env :=
  {| processEnv := processEnv env;
     uuidAt := uuidAt env;
     nowAt := nowAt env;
     writeFaultAt := writeFaultAt env;
     freeBusyAt := f;
     createEventAt := createEventAt env;
     smtpAt := smtpAt env |}.

End Changes.

(** Requests to the router, served one after the other. *)
Module Session.
Import Effects Http Notions Changes.

(** [Deletion] is the handler registered second on the cancellation
    path; the router answers that path with the first one,
    [Cancellation], so [Deletion] describes the second handler as it
    would run if it were reached. *)
Inductive Request :=
| Availability (doctorId : string) (date : option string)
| Booking (req : BookRequest)
| Cancellation (key : option string) (id : string)
| Deletion (id : string)
| Registration (req : RegisterRequest)
| PatientUpsert (req : RegisterRequest)
| PatientSearch (email phone : option string).

(** The requests for the three routes registered with [requireApiKey]
    (the booking, the cancellation and the registration), and the key
    each of them carries in its [x-api-key] header. *)
Inductive Guarded :=
| GuardedBooking (req : BookRequest)
| GuardedCancellation (key : option string) (id : string)
| GuardedRegistration (req : RegisterRequest).

Definition requestOf (g : Guarded) : Request :=
  match g with
  | GuardedBooking req => Booking req
  | GuardedCancellation key id => Cancellation key id
  | GuardedRegistration req => Registration req
  end.

Definition keyOf (g : Guarded) : option string :=
  match g with
  | GuardedBooking req => apiKey req
  | GuardedCancellation key _ => key
  | GuardedRegistration req => r_apiKey req
  end.

Section WithRuntime.
Variable getTime : string -> option Z.
Variable weekdayOf : string -> string.

Definition handler (rq : Request) : Prog Response :=
  match rq with
  | Availability doctorId date =>
      Api.availabilityRoute getTime weekdayOf doctorId date
  | Booking req => Api.bookRoute getTime req
  | Cancellation key id => Api.cancelRoute key id
  | Deletion id => Api.cancelDeleteRoute id
  | Registration req => Api.registerRoute req
  | PatientUpsert req => Api.patientsRoute req
  | PatientSearch email phone => Search.searchRoute email phone
  end.

Definition serve (env : Env) (rq : Request) (w : World)
    : Response * World :=
  run env (handler rq) w.

(** The world after a list of requests. *)
Fixpoint serveAll (env : Env) (rqs : list Request) (w : World) : World :=
  match rqs with
  | [] => w
  | rq :: rest => serveAll env rest (snd (serve env rq w))
  end.

End WithRuntime.

(** What every request leaves in place: the doctors, the patient
    identifiers already given out (in their order), and the invariant
    of the appointment collection. *)
Definition evolves (s s' : Store) : Prop :=
  doctors s' = doctors s
  /\ patientIds s `prefix_of` patientIds s'
  /\ (NoOverlap (appointments s) -> NoOverlap (appointments s')).

End Session.

(** More data for the further statements. *)
Module MoreCases.
Import Effects Http.

(** A request whose time slot is not a clock time. *)
Definition vague : BookRequest :=
  Sample.request "2025-12-01" "half past nine".

(** Asha asks for Monday 09:30, which she already holds, and for Monday
    10:00, which is free. *)
Definition again : BookRequest :=
  Sample.request "2025-12-01" "09:30 AM - 10:00 AM".

Definition tenOClock : BookRequest :=
  Sample.request "2025-12-01" "10:00 AM - 10:30 AM".

(** The status reported one second after a code was issued at time
    1000. *)
Definition fresh : OtpStatus.Status :=
  {| OtpStatus.present := true; OtpStatus.remainingTime := 299;
     OtpStatus.attemptsMade := 0; OtpStatus.maxAttempts := 5 |}.

(** A busy period whose end cannot be read, and an appointment stored
    without its dates. *)
Definition openEnded : BusyPeriod :=
  {| busyStart := "2025-12-01T03:30:00Z"; busyEnd := "later" |}.

Definition undated : Appointment :=
  {| appointmentId := "A-legacy01"; a_doctorId := "D-1";
     a_doctorName := "Dr. Rao"; a_doctorSpecialty := "Cardiology";
     a_patientId := "P-00001003"; a_patientName := "Asha";
     a_patientEmail := Some "asha@example.org"; a_patientPhone := None;
     a_date := "2025-12-01"; a_timeSlot := "09:00 AM - 09:30 AM";
     startDateTime := None; endDateTime := None;
     googleEventId := "manual-0";
     status := "confirmed"; paymentStatus := "pending" |}.

End MoreCases.

(** A session on the sample clinic. *)
Module SessionCases.
Import Effects Http Session.

(** Asha books Monday 09:30 and then Monday 10:00. *)
Definition twoBookings : list Request :=
  [Booking MoreCases.again; Booking MoreCases.tenOClock].

(** Her second appointment. *)
Definition ashaTen : Appointment :=
  {| appointmentId := "A-00001022"; a_doctorId := "D-1";
     a_doctorName := "Dr. Rao"; a_doctorSpecialty := "Cardiology";
     a_patientId := "P-00001003"; a_patientName := "Asha";
     a_patientEmail := Some "asha@example.org"; a_patientPhone := None;
     a_date := "2025-12-01"; a_timeSlot := "10:00 AM - 10:30 AM";
     startDateTime := Some 1764563400000;
     endDateTime := Some 1764565200000;
     googleEventId := "manual-1764550000020";
     status := "confirmed"; paymentStatus := "pending" |}.

End SessionCases.


(* ===================================================================== *)
(** * Properties of the conflict predicate                                *)
(* ===================================================================== *)

Lemma overlaps_sym (aStart aEnd bStart bEnd : option Z) :
  Slots.overlaps aStart aEnd bStart bEnd
  = Slots.overlaps bStart bEnd aStart aEnd.
Proof. unfold Slots.overlaps, Js.gt. apply andb_comm. Qed.

Lemma lt_irrefl (t : option Z) : Js.lt t t = false.
Proof. destruct t as [z|]; simpl; [apply Z.ltb_irrefl | reflexivity]. Qed.

Lemma overlaps_touching (aStart t bEnd : option Z) :
  Slots.overlaps aStart t t bEnd = false.
Proof.
  unfold Slots.overlaps, Js.gt. rewrite lt_irrefl. apply andb_false_r.
Qed.

Lemma isSlotConflicting_false getTime slotStart slotEnd busyPeriods appts :
  Slots.isSlotConflicting getTime slotStart slotEnd busyPeriods appts = false
  <-> (forall busy, In busy busyPeriods ->
         Slots.overlaps (getTime slotStart) (getTime slotEnd)
                        (getTime (busyStart busy)) (getTime (busyEnd busy))
         = false)
      /\ (forall a, In a appts ->
            Slots.overlaps (getTime slotStart) (getTime slotEnd)
                           (startDateTime a) (endDateTime a) = false).
Proof.
  unfold Slots.isSlotConflicting. rewrite orb_false_iff.
  split; intros [Hb Ha]; split.
  - intros busy Hin. destruct (Slots.overlaps _ _ _ _) eqn:E; [|reflexivity].
    rewrite <- Hb. symmetry. apply existsb_exists. eauto.
  - intros a Hin. destruct (Slots.overlaps _ _ _ _) eqn:E; [|reflexivity].
    rewrite <- Ha. symmetry. apply existsb_exists. eauto.
  - apply not_true_is_false. intros [busy [Hin E]]%existsb_exists.
    rewrite (Hb busy Hin) in E. discriminate.
  - apply not_true_is_false. intros [a [Hin E]]%existsb_exists.
    rewrite (Ha a Hin) in E. discriminate.
Qed.

Lemma conflictsWith_overlaps doctorId startT endT a :
  Effects.conflictsWith doctorId startT endT a
  = String.eqb (a_doctorId a) doctorId && Effects.notCancelled a
    && Slots.overlaps (Some startT) (Some endT)
                      (startDateTime a) (endDateTime a).
Proof.
  unfold Effects.conflictsWith, Slots.overlaps, Js.gt.
  rewrite <- !andb_assoc. do 2 f_equal. apply andb_comm.
Qed.

(** C5: the conflict test is [aStart < bEnd && aEnd > bStart] at both call
    sites (the slot scan and the booking query), it is symmetric in the two
    intervals, two intervals that touch at an endpoint never conflict, and
    09:00-09:30 conflicts with 09:15-09:45 but not with 09:30-10:00. *)
Theorem C5_overlap_half_open :
  (forall aStart aEnd bStart bEnd,
     Slots.overlaps aStart aEnd bStart bEnd
     = Js.lt aStart bEnd && Js.gt aEnd bStart)
  /\ (forall getTime slotStart slotEnd busyPeriods appts,
        Slots.isSlotConflicting getTime slotStart slotEnd busyPeriods appts
        = existsb (fun busy =>
                     Slots.overlaps (getTime slotStart) (getTime slotEnd)
                       (getTime (busyStart busy)) (getTime (busyEnd busy)))
                  busyPeriods
          || existsb (fun a =>
                        Slots.overlaps (getTime slotStart) (getTime slotEnd)
                          (startDateTime a) (endDateTime a))
                     appts)
  /\ (forall doctorId startT endT a,
        Effects.conflictsWith doctorId startT endT a
        = String.eqb (a_doctorId a) doctorId && Effects.notCancelled a
          && Slots.overlaps (Some startT) (Some endT)
                            (startDateTime a) (endDateTime a))
  /\ (forall aStart aEnd bStart bEnd,
        Slots.overlaps aStart aEnd bStart bEnd
        = Slots.overlaps bStart bEnd aStart aEnd)
  /\ (forall aStart t bEnd,
        Slots.overlaps aStart t t bEnd = false
        /\ Slots.overlaps t bEnd aStart t = false)
  /\ Slots.overlaps (RefClock.getTime "2025-12-01T09:00:00+05:30")
                    (RefClock.getTime "2025-12-01T09:30:00+05:30")
                    (RefClock.getTime "2025-12-01T09:30:00+05:30")
                    (RefClock.getTime "2025-12-01T10:00:00+05:30") = false
  /\ Slots.overlaps (RefClock.getTime "2025-12-01T09:00:00+05:30")
                    (RefClock.getTime "2025-12-01T09:30:00+05:30")
                    (RefClock.getTime "2025-12-01T09:15:00+05:30")
                    (RefClock.getTime "2025-12-01T09:45:00+05:30") = true.
Proof.
  split; [reflexivity|].
  split; [reflexivity|].
  split; [exact conflictsWith_overlaps|].
  split; [exact overlaps_sym|].
  split; [|split; vm_compute; reflexivity].
  intros aStart t bEnd. split; [apply overlaps_touching|].
  rewrite overlaps_sym. apply overlaps_touching.
Qed.

(* ===================================================================== *)
(** * Properties of slot generation                                       *)
(* ===================================================================== *)

(** Start minutes of the first [n] candidates of a window. *)
Lemma starts_cons (a : Z) (n : nat) :
  map (fun i => a + 30 * Z.of_nat i) (seq 0 (S n))
  = a :: map (fun i => (a + 30) + 30 * Z.of_nat i) (seq 0 n).
Proof.
  simpl. f_equal; [lia|].
  rewrite <- seq_shift, map_map. apply map_ext. intros i. lia.
Qed.

Lemma slotCount_step (cur endM : Z) :
  cur + 30 <= endM ->
  Slots.slotCount cur endM = S (Slots.slotCount (cur + 30) endM).
Proof.
  intros H. unfold Slots.slotCount.
  replace (endM - cur) with ((endM - (cur + 30)) + 1 * 30) by lia.
  rewrite Z.div_add by lia.
  rewrite Z2Nat.inj_add; [|apply Z.div_pos; lia|lia].
  rewrite Nat.add_comm. reflexivity.
Qed.

Lemma slotCount_zero (cur endM : Z) :
  endM < cur + 30 -> Slots.slotCount cur endM = O.
Proof.
  intros H. unfold Slots.slotCount.
  destruct (Z_lt_le_dec (endM - cur) 0) as [Hneg|Hpos].
  - assert ((endM - cur) / 30 < 0) by (apply Z.div_lt_upper_bound; lia).
    lia.
  - rewrite Z.div_small by lia. reflexivity.
Qed.

Section SlotLoop.
Variable getTime : string -> option Z.
Variable date : string.
Variables (busyPeriods : list BusyPeriod) (appts : list Appointment).


(** With enough fuel the loop leaves through its own test, and its
    result is the free candidates in order. *)
Lemma slotLoop_closed (endM : Z) (fuel : nat) :
  forall cur,
    (Slots.slotCount cur endM < fuel)%nat ->
    Slots.slotLoop getTime fuel date cur endM busyPeriods appts
    = map (Slots.slotAt date)
          (List.filter
             (fun m => Slots.isAvailable getTime date m busyPeriods appts)
             (map (fun i => cur + 30 * Z.of_nat i)
                  (seq 0 (Slots.slotCount cur endM)))).
Proof.
  induction fuel as [|fuel IH]; intros cur Hfuel; [lia|].
  cbn [Slots.slotLoop].
  destruct (Z.leb_spec (cur + 30) endM) as [Hle|Hgt].
  - rewrite (slotCount_step _ _ Hle) in *.
    rewrite starts_cons. cbn [List.filter map].
    rewrite IH by lia.
    destruct (Slots.isAvailable _ _ cur _ _); reflexivity.
  - rewrite slotCount_zero by lia. reflexivity.
Qed.

Lemma generateFromMinutes_closed (startM endM : Z) :
  Slots.generateFromMinutes getTime date startM endM busyPeriods appts
  = map (Slots.slotAt date)
        (List.filter
           (fun m => Slots.isAvailable getTime date m busyPeriods appts)
           (map (fun i => startM + 30 * Z.of_nat i)
                (seq 0 (Slots.slotCount startM endM)))).
Proof. unfold Slots.generateFromMinutes. apply slotLoop_closed. lia. Qed.

(** The loop equation of the source: one test, one candidate, and the
    loop again from thirty minutes later. *)
Lemma generateFromMinutes_unfold (startM endM : Z) :
  Slots.generateFromMinutes getTime date startM endM busyPeriods appts
  = if startM + 30 <=? endM
    then ((if Slots.isAvailable getTime date startM busyPeriods appts
           then [Slots.slotAt date startM] else [])
          ++ Slots.generateFromMinutes getTime date (startM + 30) endM
               busyPeriods appts)%list
    else [].
Proof.
  rewrite !generateFromMinutes_closed.
  destruct (Z.leb_spec (startM + 30) endM) as [Hle|Hgt].
  - rewrite (slotCount_step _ _ Hle), starts_cons. cbn [List.filter map].
    destruct (Slots.isAvailable _ _ startM _ _); reflexivity.
  - rewrite slotCount_zero by lia. reflexivity.
Qed.

End SlotLoop.

Lemma isAvailable_unconstrained getTime date m :
  Slots.isAvailable getTime date m [] [] = true.
Proof. reflexivity. Qed.

Lemma filter_all {A : Type} (f : A -> bool) (l : list A) :
  (forall x, f x = true) -> List.filter f l = l.
Proof.
  intros Hf. induction l as [|x l IH]; simpl; [reflexivity|].
  rewrite Hf, IH. reflexivity.
Qed.

Lemma filter_map_comm {A B : Type} (g : A -> B) (f : B -> bool) (l : list A) :
  List.filter f (map g l) = map g (List.filter (fun x => f (g x)) l).
Proof.
  induction l as [|x l IH]; simpl; [reflexivity|].
  rewrite IH. destruct (f (g x)); reflexivity.
Qed.

Lemma filter_sublist {A : Type} (f : A -> bool) (l : list A) :
  sublist (List.filter f l) l.
Proof.
  induction l as [|x l IH]; simpl; [constructor|].
  destruct (f x); constructor; exact IH.
Qed.

Lemma starts_filter_sorted (f : Z -> bool) (n : nat) :
  forall a,
    StronglySorted Z.lt
      (List.filter f (map (fun i => a + 30 * Z.of_nat i) (seq 0 n)))
    /\ Forall (fun m => a <= m)
         (List.filter f (map (fun i => a + 30 * Z.of_nat i) (seq 0 n))).
Proof.
  induction n as [|n IH]; intros a.
  - split; constructor.
  - rewrite starts_cons. cbn [List.filter].
    destruct (IH (a + 30)) as [Hs Hb].
    assert (Hb' : Forall (fun m => a < m)
              (List.filter f
                 (map (fun i => a + 30 + 30 * Z.of_nat i) (seq 0 n)))).
    { eapply List.Forall_impl; [|exact Hb]. simpl. intros; lia. }
    destruct (f a).
    + split; constructor; try assumption; try lia.
      eapply List.Forall_impl; [|exact Hb']. simpl. intros; lia.
    + split; [assumption|].
      eapply List.Forall_impl; [|exact Hb']. simpl. intros; lia.
Qed.

Lemma slotCount_bounds (dayStart dayEnd : Z) :
  dayStart < dayEnd ->
  dayStart + 30 * Z.of_nat (Slots.slotCount dayStart dayEnd) <= dayEnd
  /\ dayEnd < dayStart + 30 * Z.of_nat (Slots.slotCount dayStart dayEnd) + 30.
Proof.
  intros H. unfold Slots.slotCount.
  rewrite Z2Nat.id by (apply Z.div_pos; lia).
  pose proof (Z.div_mod (dayEnd - dayStart) 30 ltac:(lia)).
  pose proof (Z.mod_pos_bound (dayEnd - dayStart) 30 ltac:(lia)).
  lia.
Qed.

Lemma in_day_listed (m : Z) (n : nat) :
  0 <= m < Z.of_nat n -> In m (map Z.of_nat (seq 0 n)).
Proof.
  intros H. apply in_map_iff. exists (Z.to_nat m).
  split; [lia|]. apply in_seq. lia.
Qed.

Lemma clocks_in_day :
  forallb Readings.clockParsesBack (map Z.of_nat (seq 0 1441)) = true.
Proof. vm_compute. reflexivity. Qed.






(** C10: every slot the generator returns passes the conflict check
    against every supplied busy period and every supplied appointment;
    the output is exactly the candidates that pass it, in the order of
    the candidate tiling, so a conflicting candidate is not returned at
    all. *)
Theorem C10_output_is_free_sublist
    getTime (date workStart workEnd : string)
    (busyPeriods : list BusyPeriod) (appts : list Appointment) :
  let out :=
    Slots.generateAvailableSlots getTime date workStart workEnd
                                 busyPeriods appts in
  let candidates :=
    Slots.generateAvailableSlots getTime date workStart workEnd [] [] in
  (forall slot, In slot out ->
     Slots.isSlotConflicting getTime (startISO slot) (endISO slot)
                             busyPeriods appts = false
     /\ (forall busy, In busy busyPeriods ->
           Slots.overlaps (getTime (startISO slot)) (getTime (endISO slot))
             (getTime (busyStart busy)) (getTime (busyEnd busy)) = false)
     /\ (forall a, In a appts ->
           Slots.overlaps (getTime (startISO slot)) (getTime (endISO slot))
             (startDateTime a) (endDateTime a) = false))
  /\ out = List.filter
             (fun slot =>
                negb (Slots.isSlotConflicting getTime (startISO slot)
                        (endISO slot) busyPeriods appts))
             candidates
  /\ sublist out candidates
  /\ exists starts,
       out = map (Slots.slotAt date) starts /\ StronglySorted Z.lt starts.
Proof.
  intros out candidates.
  assert (Hfilter : out = List.filter
             (fun slot =>
                negb (Slots.isSlotConflicting getTime (startISO slot)
                        (endISO slot) busyPeriods appts))
             candidates).
  { subst out candidates. unfold Slots.generateAvailableSlots.
    destruct (Slots.parseClock workStart) as [a|]; [|reflexivity].
    destruct (Slots.parseClock workEnd) as [b|]; [|reflexivity].
    rewrite !generateFromMinutes_closed.
    rewrite (filter_all (fun m => Slots.isAvailable getTime date m [] []))
      by (intros; apply isAvailable_unconstrained).
    symmetry. apply (filter_map_comm (Slots.slotAt date)). }
  split; [|split; [exact Hfilter|split]].
  - intros slot Hin. rewrite Hfilter in Hin.
    apply filter_In in Hin as [_ Hfree].
    apply negb_true_iff in Hfree.
    split; [exact Hfree|].
    apply isSlotConflicting_false. exact Hfree.
  - rewrite Hfilter. apply filter_sublist.
  - subst out. unfold Slots.generateAvailableSlots.
    destruct (Slots.parseClock workStart) as [a|];
      [|exists []; split; [reflexivity|constructor]].
    destruct (Slots.parseClock workEnd) as [b|];
      [|exists []; split; [reflexivity|constructor]].
    rewrite generateFromMinutes_closed.
    eexists. split; [reflexivity|]. apply starts_filter_sorted.
Qed.

(* ===================================================================== *)
(** * Running routes                                                      *)
(* ===================================================================== *)
Section Running.
Import Effects Http Notions Api.

Lemma run_bind {A B : Type} env (p : Prog A) (f : A -> Prog B) w :
  run env (bind p f) w
  = let '(a, w') := run env p w in run env (f a) w'.
Proof.
  revert w. induction p as [a|X e k IH]; intros w; simpl; [reflexivity|].
  destruct (handle env e w) as [x w']. apply IH.
Qed.

Lemma run_requireApiKey env key next w :
  run env (requireApiKey key next) w
  = if authorized env key then run env next (advance w ProcessEnv)
    else (json 401 (ErrorBody "Unauthorized"), advance w ProcessEnv).
Proof.
  unfold requireApiKey, authorized. cbn [run handle answer].
  fold (advance w ProcessEnv).
  destruct (Js.truthy (processEnv env "API_KEY")); cbn [negb orb];
    [|reflexivity].
  destruct (Js.truthy key); cbn [negb orb andb]; [|reflexivity].
  destruct (Js.strictEq key (processEnv env "API_KEY")); reflexivity.
Qed.

Lemma run_sendConfirmationEmail env toEmail subject w :
  exists r w',
    run env (sendConfirmationEmail toEmail subject) w = (r, w')
    /\ store w' = store w
    /\ (Js.truthy toEmail = true ->
        Js.truthy (processEnv env "SMTP_HOST") = true ->
        mailDown env -> exists m, r = Thrown m).
Proof.
  unfold sendConfirmationEmail.
  destruct (Js.truthy toEmail) eqn:Hto; cbn [negb].
  2: { eexists _, _. split; [reflexivity|]. split; [reflexivity|].
       discriminate. }
  cbn [run handle answer].
  destruct (Js.truthy (processEnv env "SMTP_HOST")) eqn:Hhost; cbn [negb].
  2: { eexists _, _. split; [reflexivity|]. split; [reflexivity|].
       discriminate. }
  rewrite run_bind. unfold getTransporter. cbn [run handle answer tick store].
  rewrite Hhost. cbn [negb orb].
  destruct (Js.truthy (processEnv env "SMTP_USER")); cbn [negb orb].
  2: { eexists _, _. split; [reflexivity|]. split; [reflexivity|]. eauto. }
  destruct (Js.truthy (processEnv env "SMTP_PASS")); cbn [negb orb].
  2: { eexists _, _. split; [reflexivity|]. split; [reflexivity|]. eauto. }
  cbn [run handle answer tick store].
  destruct (smtpAt env _) as [messageId|m] eqn:Hsmtp.
  - eexists _, _. split; [reflexivity|]. split; [reflexivity|].
    intros _ _ Hdown. destruct (Hdown (S (S (S (S (tick w)))))) as [m Hm].
    rewrite Hm in Hsmtp. discriminate.
  - eexists _, _. split; [reflexivity|]. split; [reflexivity|]. eauto.
Qed.

Lemma run_bookNotify env doctor patient date a ev w :
  exists st w',
    run env (bookNotify doctor patient date a ev) w
    = (ok (BookedBody (appointmentId a) (status a) (summaryOf patient) st
             (htmlLink ev)), w')
    /\ store w' = store w
    /\ (Js.truthy (p_email patient) = true ->
        Js.truthy (processEnv env "SMTP_HOST") = true ->
        mailDown env -> exists m, st = EmailError m).
Proof.
  unfold bookNotify.
  destruct (Js.truthy (p_email patient)) eqn:Hmail.
  2: { eexists _, _. split; [reflexivity|]. split; [reflexivity|].
       discriminate. }
  rewrite run_bind.
  destruct (run_sendConfirmationEmail env (p_email patient)
              ("Appointment Confirmed: " ++ d_name doctor ++ " on " ++ date) w)
    as (r & w' & Hrun & Hstore & Hfail).
  rewrite Hrun. destruct r as [st|m]; cbn [run].
  - eexists _, _. split; [reflexivity|]. split; [exact Hstore|].
    intros _ Hhost Hdown. destruct (Hfail Hmail Hhost Hdown). discriminate.
  - eexists _, _. split; [reflexivity|]. split; [exact Hstore|]. eauto.
Qed.

Section Booking.
Variable getTime : string -> option Z.
Variable env : Env.

Lemma run_bookSlot_unreadable req doctor patient w :
  Label.bookingInterval (Api.str (date req)) (Api.str (timeSlot req)) = None ->
  run env (bookSlot getTime req doctor patient) w
  = (json 400
       (ErrorBody "Invalid time slot format. Use format: '09:00 AM - 09:30 AM'"),
     w).
Proof. intros H. unfold bookSlot. rewrite H. reflexivity. Qed.

Lemma run_bookSlot_conflict req doctor patient w startISO endISO startT endT a :
  Label.bookingInterval (Api.str (date req)) (Api.str (timeSlot req))
  = Some (startISO, endISO) ->
  getTime startISO = Some startT ->
  getTime endISO = Some endT ->
  List.find (conflictsWith (d_doctorId doctor) startT endT)
            (appointments (store w)) = Some a ->
  run env (bookSlot getTime req doctor patient) w
  = (json 409 (ConflictBody "This time slot is no longer available"
                            "Please select a different time"),
     advance w AppointmentStore).
Proof.
  intros Hi Hs He Hfind. unfold bookSlot. rewrite Hi, Hs, He.
  cbn [run handle answer]. rewrite Hfind. reflexivity.
Qed.

Lemma run_bookSlot_free req doctor patient w startISO endISO startT endT :
  Label.bookingInterval (Api.str (date req)) (Api.str (timeSlot req))
  = Some (startISO, endISO) ->
  getTime startISO = Some startT ->
  getTime endISO = Some endT ->
  List.find (conflictsWith (d_doctorId doctor) startT endT)
            (appointments (store w)) = None ->
  (exists m w',
     run env (bookSlot getTime req doctor patient) w
     = (json 500 (ErrorBody m), w')
     /\ store w' = store w
     /\ exists n, writeFaultAt env n = Some m)
  \/ (exists a st link w',
        run env (bookSlot getTime req doctor patient) w
        = (ok (BookedBody (appointmentId a) "confirmed" (summaryOf patient)
                 st link), w')
        /\ appointments (store w') = (appointments (store w) ++ [a])%list
        /\ patients (store w') = patients (store w)
        /\ doctors (store w') = doctors (store w)
        /\ a_doctorId a = d_doctorId doctor
        /\ status a = "confirmed"
        /\ paymentStatus a = "pending"
        /\ startDateTime a = Some startT
        /\ endDateTime a = Some endT
        /\ (Js.truthy (p_email patient) = true ->
            Js.truthy (processEnv env "SMTP_HOST") = true ->
            mailDown env -> exists m, st = EmailError m)).
Proof.
  intros Hi Hs He Hfind. unfold bookSlot. rewrite Hi, Hs, He.
  cbn [run handle answer]. rewrite Hfind.
  cbn [run handle answer tick store calls].
  unfold handle. cbn [answer tick store calls].
  destruct (writeFaultAt env (S (S (S (S (tick w)))))) as [m|] eqn:Hfault;
    cbn [run].
  - left. eexists _, _. split; [reflexivity|]. split; [reflexivity|]. eauto.
  - right.
    match goal with
    | |- context [run env (bookNotify ?d ?p ?dt ?a ?ev) ?w1] =>
        destruct (run_bookNotify env d p dt a ev w1)
          as (st & w' & Hrun & Hstore & Hfail);
        rewrite Hrun; exists a, st, (htmlLink ev), w'
    end.
    rewrite Hstore. cbn.
    repeat (split; [reflexivity|]). exact Hfail.
Qed.

Lemma run_bookHandler_resolved req doctor w :
  hasRequiredFields req = true ->
  doctorOf (store w) (Api.str (doctorId req)) = Some doctor ->
  (exists m w1,
     run env (bookHandler getTime req) w = (json 500 (ErrorBody m), w1)
     /\ appointments (store w1) = appointments (store w)
     /\ exists n, writeFaultAt env n = Some m)
  \/ (exists patient w1,
        run env (bookHandler getTime req) w
        = run env (bookSlot getTime req doctor patient) w1
        /\ appointments (store w1) = appointments (store w)
        /\ doctors (store w1) = doctors (store w)
        /\ (Js.truthy (patientEmail req) = true ->
            p_email patient = patientEmail req)).
Proof.
  unfold hasRequiredFields, doctorOf. intros Hreq Hdoc.
  repeat (apply andb_prop in Hreq as [Hreq ?]).
  unfold bookHandler.
  repeat match goal with H : Js.truthy _ = true |- _ => rewrite H; clear H
         end.
  cbn [negb orb].
  match goal with H : (_ || _)%bool = true |- _ =>
    apply orb_prop in H;
    replace (negb (Js.truthy (patientEmail req))
             && negb (Js.truthy (patientPhone req)))%bool with false
      by (destruct H as [-> | ->]; cbn; rewrite ?andb_false_r; reflexivity)
  end.
  cbn [run handle answer]. rewrite Hdoc.
  cbn [run handle answer tick store calls].
  destruct (findOne _ (patients (store w))) as [[doc old]|];
    cbn [run handle answer tick store calls];
    unfold handle; cbn [answer tick store calls];
    match goal with
    | |- context [writeFaultAt env ?n] =>
        destruct (writeFaultAt env n) as [m|] eqn:Hfault
    end;
    cbn [run];
    try (left; eexists _, _; split; [reflexivity|];
         split; [reflexivity|]; eauto; fail);
    right; eexists _, _; (split; [reflexivity|]); cbn;
    (split; [reflexivity|]); (split; [reflexivity|]).
  - intros ->. reflexivity.
  - reflexivity.
Qed.

(** With every write accepted, the two lemmas above leave one case. *)
Lemma run_bookHandler_accepted req doctor w :
  writesAccepted env ->
  hasRequiredFields req = true ->
  doctorOf (store w) (Api.str (doctorId req)) = Some doctor ->
  exists patient w1,
    run env (bookHandler getTime req) w
    = run env (bookSlot getTime req doctor patient) w1
    /\ appointments (store w1) = appointments (store w)
    /\ doctors (store w1) = doctors (store w)
    /\ (Js.truthy (patientEmail req) = true ->
        p_email patient = patientEmail req).
Proof.
  intros Hw Hreq Hdoc.
  destruct (run_bookHandler_resolved req doctor w Hreq Hdoc)
    as [(m & w1 & _ & _ & n & Hn) | H]; [|exact H].
  rewrite (Hw n) in Hn. discriminate.
Qed.

Lemma run_bookSlot_accepted req doctor patient w startISO endISO startT endT :
  writesAccepted env ->
  Label.bookingInterval (Api.str (date req)) (Api.str (timeSlot req))
  = Some (startISO, endISO) ->
  getTime startISO = Some startT ->
  getTime endISO = Some endT ->
  List.find (conflictsWith (d_doctorId doctor) startT endT)
            (appointments (store w)) = None ->
  exists a st link w',
    run env (bookSlot getTime req doctor patient) w
    = (ok (BookedBody (appointmentId a) "confirmed" (summaryOf patient)
             st link), w')
    /\ appointments (store w') = (appointments (store w) ++ [a])%list
    /\ a_doctorId a = d_doctorId doctor
    /\ status a = "confirmed"
    /\ startDateTime a = Some startT
    /\ endDateTime a = Some endT
    /\ (Js.truthy (p_email patient) = true ->
        Js.truthy (processEnv env "SMTP_HOST") = true ->
        mailDown env -> exists m, st = EmailError m).
Proof.
  intros Hw Hi Hs He Hfind.
  destruct (run_bookSlot_free req doctor patient w _ _ _ _ Hi Hs He Hfind)
    as [(m & w' & _ & _ & n & Hn)
       | (a & st & link & w' & Hrun & Happ & _ & _ & Hd & Hst & _
          & Hsa & Hea & Hfail)].
  - rewrite (Hw n) in Hn. discriminate.
  - exists a, st, link, w'. auto 10.
Qed.

Lemma find_none_compatible doctorId startT endT a l :
  List.find (conflictsWith doctorId startT endT) l = None ->
  a_doctorId a = doctorId ->
  startDateTime a = Some startT ->
  endDateTime a = Some endT ->
  Forall (fun b => compatible b a = true) l.
Proof.
  intros Hfind Hd Hs He. apply List.Forall_forall. intros b Hin.
  pose proof (find_none _ _ Hfind b Hin) as Hb.
  rewrite conflictsWith_overlaps in Hb.
  unfold compatible. rewrite Hd, Hs, He.
  rewrite (overlaps_sym (startDateTime b)).
  destruct (String.eqb (a_doctorId b) doctorId), (notCancelled b),
    (notCancelled a), (Slots.overlaps _ _ _ _);
    try reflexivity; discriminate.
Qed.

Lemma bookSlot_writes req doctor patient w :
  let w' := snd (run env (bookSlot getTime req doctor patient) w) in
  keptOrAdded (appointments (store w)) (appointments (store w')).
Proof.
  unfold bookSlot.
  destruct (Label.bookingInterval _ _) as [[startISO endISO]|] eqn:Hi;
    [|left; reflexivity].
  destruct (getTime endISO) as [endT|] eqn:He; [|left; reflexivity].
  destruct (getTime startISO) as [startT|] eqn:Hs; [|left; reflexivity].
  destruct (List.find (conflictsWith (d_doctorId doctor) startT endT)
              (appointments (store w))) as [c|] eqn:Hfind.
  - pose proof (run_bookSlot_conflict req doctor patient w _ _ _ _ c
                  Hi Hs He Hfind) as Hrun.
    unfold bookSlot in Hrun. rewrite Hi, He, Hs in Hrun. rewrite Hrun.
    left. reflexivity.
  - destruct (run_bookSlot_free req doctor patient w _ _ _ _ Hi Hs He Hfind)
      as [(m & w' & Hrun & Hstore & _)
         | (a & st & link & w' & Hrun & Happ & _ & _ & Hd & _ & _
            & Hsa & Hea & _)];
      unfold bookSlot in Hrun; rewrite Hi, He, Hs in Hrun; rewrite Hrun.
    + left. cbn. rewrite Hstore. reflexivity.
    + right. exists a. split; [exact Happ|].
      eapply find_none_compatible; eassumption.
Qed.

Lemma bookHandler_writes req w :
  let w' := snd (run env (bookHandler getTime req) w) in
  keptOrAdded (appointments (store w)) (appointments (store w')).
Proof.
  destruct (hasRequiredFields req) eqn:Hreq.
  - destruct (doctorOf (store w) (Api.str (doctorId req))) as [doctor|] eqn:Hd.
    + destruct (run_bookHandler_resolved req doctor w Hreq Hd)
        as [(m & w1 & Hrun & Happ & _) | (patient & w1 & Hrun & Happ & _)];
        cbv zeta; rewrite Hrun.
      * left. exact Happ.
      * rewrite <- Happ. apply bookSlot_writes.
    + unfold bookHandler. unfold doctorOf in Hd.
      destruct (_ || _ || _ || _)%bool; [left; reflexivity|].
      destruct (_ && _)%bool; [left; reflexivity|].
      cbn [run handle answer]. rewrite Hd. left. reflexivity.
  - unfold bookHandler, hasRequiredFields in *.
    destruct (Js.truthy (doctorId req)), (Js.truthy (patientName req)),
      (Js.truthy (date req)), (Js.truthy (timeSlot req));
      cbn in Hreq |- *; try (left; reflexivity).
    destruct (Js.truthy (patientEmail req)), (Js.truthy (patientPhone req));
      cbn in Hreq |- *; try discriminate. left. reflexivity.
Qed.

Lemma bookRoute_writes req w :
  let w' := snd (run env (bookRoute getTime req) w) in
  keptOrAdded (appointments (store w)) (appointments (store w')).
Proof.
  unfold bookRoute. rewrite run_requireApiKey.
  destruct (authorized env (apiKey req)); [|left; reflexivity].
  apply (bookHandler_writes req (advance w ProcessEnv)).
Qed.

End Booking.



(** ** The appointment invariant *)

Lemma compatible_cancelled_l a b :
  status a = "cancelled" -> compatible a b = true.
Proof.
  intros H. unfold compatible, notCancelled. rewrite H. cbn.
  rewrite andb_false_r. reflexivity.
Qed.

Lemma compatible_cancelled_r a b :
  status b = "cancelled" -> compatible a b = true.
Proof.
  intros H. unfold compatible, notCancelled. rewrite H. cbn.
  rewrite andb_false_r. reflexivity.
Qed.

Lemma NoOverlap_added l a :
  NoOverlap l -> Forall (fun b => compatible b a = true) l ->
  NoOverlap (l ++ [a]).
Proof.
  unfold NoOverlap. intros Hl Ha.
  induction Hl as [|b l Hb Hl IH]; cbn.
  - constructor; constructor.
  - inversion Ha as [|? ? Hba Ha']; subst.
    constructor; [|exact (IH Ha')].
    apply List.Forall_app. split; [exact Hb|]. constructor; [exact Hba|constructor].
Qed.

Lemma NoOverlap_cancelled l i x :
  NoOverlap l -> status x = "cancelled" -> NoOverlap (<[i := x]> l).
Proof.
  unfold NoOverlap. intros Hl Hx. revert i.
  induction Hl as [|b l Hb Hl IH]; intros i; [constructor|].
  destruct i as [|i]; cbn.
  - constructor; [|exact Hl].
    apply List.Forall_forall. intros c _. apply compatible_cancelled_l, Hx.
  - constructor; [|apply IH].
    clear IH Hl. revert i.
    induction Hb as [|c l Hc Hb IH]; intros i; [constructor|].
    destruct i as [|i]; cbn; constructor; auto.
    apply compatible_cancelled_r, Hx.
Qed.

Lemma Forall_deleteFirst {A : Type} (P : A -> Prop) f (l : list A) :
  Forall P l -> Forall P (deleteFirst f l).
Proof.
  induction 1 as [|x l Hx Hl IH]; cbn; [constructor|].
  destruct (f x); [exact Hl | constructor; assumption].
Qed.

Lemma NoOverlap_deleted f l :
  NoOverlap l -> NoOverlap (deleteFirst f l).
Proof.
  unfold NoOverlap. induction 1 as [|b l Hb Hl IH]; cbn; [constructor|].
  destruct (f b); [exact Hl|].
  constructor; [apply Forall_deleteFirst, Hb | exact IH].
Qed.

Lemma NoOverlap_keptOrAdded old new :
  NoOverlap old -> keptOrAdded old new -> NoOverlap new.
Proof.
  intros Hold [-> | (a & -> & Ha)]; [exact Hold|].
  apply NoOverlap_added; assumption.
Qed.

Lemma cancelRoute_preserves env key id w :
  NoOverlap (appointments (store w)) ->
  NoOverlap (appointments (store (snd (run env (cancelRoute key id) w)))).
Proof.
  intros Hinv. unfold cancelRoute. rewrite run_requireApiKey.
  destruct (authorized env key); [|exact Hinv].
  cbn [run handle answer store advance].
  destruct (findOne _ _) as [[doc a]|]; [|exact Hinv].
  cbn [run]. unfold handle. cbn [answer store tick].
  match goal with
  | |- context [writeFaultAt env ?n] => destruct (writeFaultAt env n)
  end; [exact Hinv|].
  cbn [run handle answer store snd withAppointments appointments save].
  apply NoOverlap_cancelled; [exact Hinv | reflexivity].
Qed.

Lemma cancelDeleteRoute_preserves env id w :
  NoOverlap (appointments (store w)) ->
  NoOverlap
    (appointments (store (snd (run env (cancelDeleteRoute id) w)))).
Proof.
  intros Hinv. unfold cancelDeleteRoute.
  cbn [run handle answer store].
  destruct (findOne _ _) as [[doc a]|]; [|exact Hinv].
  cbn [run handle answer store snd withAppointments appointments].
  apply NoOverlap_deleted, Hinv.
Qed.

(** Every state reached from a store that satisfies the invariant, by any
    sequence of bookings and cancellations made one after the other,
    satisfies it: no doctor has two appointments that are not cancelled
    and whose stored intervals overlap. *)
Theorem reachable_NoOverlap getTime env ops w :
  NoOverlap (appointments (store w)) ->
  NoOverlap (appointments (store (applyOps getTime env ops w))).
Proof.
  revert w. induction ops as [|op ops IH]; intros w Hinv; [exact Hinv|].
  cbn [applyOps]. apply IH. destruct op as [req|key id|id]; cbn [applyOp].
  - eapply NoOverlap_keptOrAdded; [exact Hinv|]. apply bookRoute_writes.
  - apply cancelRoute_preserves, Hinv.
  - apply cancelDeleteRoute_preserves, Hinv.
Qed.

(** ** Claims about the booking route *)

(** C3, on the failing input: Dr. Rao's Monday 09:30 to 10:00 has just
    been booked.  The slot that starts at 09:15 is labelled
    "09:15 AM - 09:45 AM" and runs to 09:45, into that appointment; a
    request for it is read by the booking route as 09:15 to 09:30, no
    conflict is found, the request is answered 200 and a second
    confirmed appointment of the same doctor is stored. *)
Theorem C3_overlapping_request_is_booked :
  let taken := Sample.request "2025-12-01" "09:30 AM - 10:00 AM" in
  let slot := Slots.slotAt "2025-12-01" 555 in
  let req := Sample.request "2025-12-01" (time slot) in
  let first := run Sample.env (bookRoute RefClock.getTime taken) Sample.start in
  let second := run Sample.env (bookRoute RefClock.getTime req) (snd first) in
  code (fst first) = 200
  /\ appointments (store (snd first)) = [Sample.ashaMonday]
  /\ time slot = "09:15 AM - 09:45 AM"
  /\ RefClock.getTime (startISO slot) = Some 1764560700000
  /\ RefClock.getTime (endISO slot) = Some 1764562500000
  /\ Slots.overlaps (RefClock.getTime (startISO slot))
                    (RefClock.getTime (endISO slot))
                    (startDateTime Sample.ashaMonday)
                    (endDateTime Sample.ashaMonday) = true
  /\ code (fst second) = 200
  /\ map (fun a => (a_doctorId a, status a, a_timeSlot a,
                    startDateTime a, endDateTime a))
         (appointments (store (snd second)))
     = [("D-1", "confirmed", "09:30 AM - 10:00 AM",
         Some 1764561600000, Some 1764563400000);
        ("D-1", "confirmed", "09:15 AM - 09:45 AM",
         Some 1764560700000, Some 1764561600000)].
Proof. vm_compute. repeat split; reflexivity. Qed.

(** X29: when the interval the handler derives from the request
    overlaps an appointment of the same doctor that is not cancelled,
    the booking route answers 409 with the conflict body and the
    appointment collection is exactly what it was.  (The request is one
    that reaches the conflict check: it carries the shared secret and
    the required fields, names a known doctor and a readable time slot,
    and the patient record is written.) *)
Theorem conflict_on_derived_interval_answers_409
    getTime env w req doctor startISO endISO startT endT :
  writesAccepted env ->
  authorized env (apiKey req) = true ->
  hasRequiredFields req = true ->
  doctorOf (store w) (Api.str (doctorId req)) = Some doctor ->
  Label.bookingInterval (Api.str (date req)) (Api.str (timeSlot req))
  = Some (startISO, endISO) ->
  getTime startISO = Some startT ->
  getTime endISO = Some endT ->
  (exists a, In a (appointments (store w))
             /\ a_doctorId a = d_doctorId doctor
             /\ status a <> "cancelled"
             /\ Slots.overlaps (Some startT) (Some endT)
                  (startDateTime a) (endDateTime a) = true) ->
  fst (run env (bookRoute getTime req) w)
  = json 409 (ConflictBody "This time slot is no longer available"
                           "Please select a different time")
  /\ appointments (store (snd (run env (bookRoute getTime req) w)))
     = appointments (store w).
Proof.
  intros Hw Hauth Hreq Hdoc Hi Hs He (a & Hin & Hd & Hst & Hov).
  unfold bookRoute. rewrite run_requireApiKey, Hauth.
  destruct (run_bookHandler_accepted getTime env req doctor
              (advance w ProcessEnv) Hw Hreq Hdoc)
    as (patient & w1 & Hrun & Happ & _).
  rewrite Hrun.
  destruct (List.find (conflictsWith (d_doctorId doctor) startT endT)
              (appointments (store w1))) as [c|] eqn:Hfind.
  - rewrite (run_bookSlot_conflict getTime env req doctor patient w1
               _ _ _ _ c Hi Hs He Hfind).
    split; [reflexivity | exact Happ].
  - exfalso. rewrite Happ in Hfind.
    pose proof (find_none _ _ Hfind a Hin) as Ha.
    rewrite conflictsWith_overlaps, Hd, String.eqb_refl, Hov in Ha.
    unfold notCancelled in Ha.
    destruct (String.eqb_spec (status a) "cancelled"); [contradiction|].
    discriminate.
Qed.

(** C7: a booking that passes the conflict check and whose appointment
    the store accepts is answered with status 200 and persisted with
    status ['confirmed'], whatever the mail transport does; when the
    patient has an e-mail address and the transport fails, the failure
    appears only as the [emailStatus] field of that 200 response. *)
Theorem C7_mail_failure_is_soft
    getTime env w req doctor startISO endISO startT endT :
  writesAccepted env ->
  authorized env (apiKey req) = true ->
  hasRequiredFields req = true ->
  doctorOf (store w) (Api.str (doctorId req)) = Some doctor ->
  Label.bookingInterval (Api.str (date req)) (Api.str (timeSlot req))
  = Some (startISO, endISO) ->
  getTime startISO = Some startT ->
  getTime endISO = Some endT ->
  List.find (conflictsWith (d_doctorId doctor) startT endT)
            (appointments (store w)) = None ->
  exists a patient emailStatus link,
    fst (run env (bookRoute getTime req) w)
    = json 200 (BookedBody (appointmentId a) "confirmed" patient
                  emailStatus link)
    /\ appointments (store (snd (run env (bookRoute getTime req) w)))
       = (appointments (store w) ++ [a])%list
    /\ status a = "confirmed"
    /\ a_doctorId a = d_doctorId doctor
    /\ startDateTime a = Some startT
    /\ endDateTime a = Some endT
    /\ (Js.truthy (patientEmail req) = true ->
        Js.truthy (processEnv env "SMTP_HOST") = true ->
        mailDown env ->
        exists m, emailStatus = EmailError m).
Proof.
  intros Hw Hauth Hreq Hdoc Hi Hs He Hfind.
  unfold bookRoute. rewrite run_requireApiKey, Hauth.
  destruct (run_bookHandler_accepted getTime env req doctor
              (advance w ProcessEnv) Hw Hreq Hdoc)
    as (patient & w1 & Hrun & Happ & _ & Hmail).
  rewrite Hrun.
  change (appointments (store (advance w ProcessEnv)))
    with (appointments (store w)) in Happ.
  rewrite <- Happ in Hfind.
  destruct (run_bookSlot_accepted getTime env req doctor patient w1
              _ _ _ _ Hw Hi Hs He Hfind)
    as (a & st & link & w' & Hrun' & Happ' & Hd & Hst & Hsa & Hea & Hfail).
  rewrite Hrun'. exists a, (summaryOf patient), st, link. cbn [fst snd].
  rewrite Happ', Happ.
  repeat (split; [first [reflexivity | assumption]|]).
  intros Hto Hhost Hdown. apply Hfail; [|exact Hhost|exact Hdown].
  rewrite (Hmail Hto). exact Hto.
Qed.

(** C2, on the failing input: for a doctor whose Wednesday starts at
    09:15 the generator offers "09:45 AM - 10:15 AM"; the booking route
    reads that label as 09:45 to 09:30, finds no conflict, and two
    requests for it made one after the other are both answered 200 and
    both persisted as confirmed appointments with the same interval;
    after the first booking the slot is still offered. *)
Theorem C2_same_slot_booked_twice :
  let req := Sample.request "2025-12-03" "09:45 AM - 10:15 AM" in
  let first := run Sample.env (bookRoute RefClock.getTime req) Sample.start in
  let second := run Sample.env (bookRoute RefClock.getTime req) (snd first) in
  code (fst first) = 200
  /\ code (fst second) = 200
  /\ map (fun a => (a_doctorId a, status a, a_timeSlot a,
                    startDateTime a, endDateTime a))
         (appointments (store (snd second)))
     = [("D-1", "confirmed", "09:45 AM - 10:15 AM",
         Some 1764735300000, Some 1764734400000);
        ("D-1", "confirmed", "09:45 AM - 10:15 AM",
         Some 1764735300000, Some 1764734400000)]
  /\ map time
         (Slots.generateAvailableSlots RefClock.getTime "2025-12-03"
            "09:15" "10:45" [] (appointments (store (snd first))))
     = ["09:15 AM - 09:45 AM"; "09:45 AM - 10:15 AM"; "10:15 AM - 10:45 AM"].
Proof. vm_compute. repeat split; reflexivity. Qed.

(** ** The availability route *)

(** C6: when the weekday of the requested date is marked
    [available: false] in the doctor's template, the availability route
    answers with an empty slot list, and the only collaborator it calls is
    the doctor store: neither the busy-interval source nor the appointment
    store is called, and the store is untouched. *)
Theorem C6_unavailable_day_short_circuits
    getTime weekdayOf env w doctorIdParam day doctor availability template :
  dateRegexTest day = true ->
  doctorOf (store w) doctorIdParam = Some doctor ->
  d_availability doctor = Some availability ->
  availability !! weekdayOf day = Some template ->
  available template = false ->
  let result :=
    run env (availabilityRoute getTime weekdayOf doctorIdParam (Some day)) w in
  fst result
  = json 200 (AvailabilityBody day (weekdayOf day) (d_doctorId doctor) []
                (Some "Doctor not available on this day"))
  /\ calls (snd result) = (calls w ++ [DoctorStore])%list
  /\ ~ In BusySource (skipn (length (calls w)) (calls (snd result)))
  /\ ~ In AppointmentStore (skipn (length (calls w)) (calls (snd result)))
  /\ store (snd result) = store w.
Proof.
  intros Hdate Hdoc Hav Hday Hoff result. subst result.
  unfold availabilityRoute, doctorOf in *.
  assert (Htruthy : Js.truthy (Some day) = true).
  { destruct day; [discriminate | reflexivity]. }
  rewrite Htruthy. change (Api.str (Some day)) with day.
  cbn [negb]. rewrite Hdate. cbn [negb].
  cbn [run handle answer]. rewrite Hdoc, Hav, Hday, Hoff.
  cbn [negb run fst snd calls store].
  split; [reflexivity|]. split; [reflexivity|].
  rewrite skipn_app, skipn_all, Nat.sub_diag. cbn.
  repeat split; intros [H|[]]; discriminate.
Qed.

(** ** Reading labels back *)

Lemma append_assoc (a b c : string) : (a ++ b) ++ c = a ++ b ++ c.
Proof.
  induction a as [|x a IH]; [reflexivity|].
  change (String x ((a ++ b) ++ c) = String x (a ++ b ++ c)).
  f_equal. exact IH.
Qed.

Lemma readsBack_half_hours :
  forallb readsBack (map (fun k => 30 * Z.of_nat k) (seq 0 48)) = true.
Proof. vm_compute. reflexivity. Qed.

Lemma readsBack_aligned (m : Z) :
  0 <= m -> m + 30 <= 1440 -> m mod 30 = 0 -> readsBack m = true.
Proof.
  intros H0 H1 Hmod.
  pose proof readsBack_half_hours as Hall.
  rewrite forallb_forall in Hall. apply Hall.
  apply in_map_iff. exists (Z.to_nat (m / 30)). split.
  - rewrite Z2Nat.id by (apply Z.div_pos; lia).
    pose proof (Z.div_mod m 30 ltac:(lia)). lia.
  - apply in_seq.
    assert (m / 30 < 48) by (apply Z.div_lt_upper_bound; lia).
    assert (0 <= m / 30) by (apply Z.div_pos; lia). lia.
Qed.

Lemma bookingInterval_readsBack (day : string) (m : Z) :
  readsBack m = true ->
  Label.bookingInterval day (time (Slots.slotAt day m))
  = Some (startISO (Slots.slotAt day m), endISO (Slots.slotAt day m)).
Proof.
  unfold readsBack, Label.bookingInterval.
  change (time (Slots.slotAt day m)) with (time (Slots.slotAt "" m)).
  destruct (Label.timeMatch _) as [groups|]; [|discriminate].
  destruct (Label.timesOfMatch groups) as [s e].
  intros [Hs He]%andb_prop.
  apply String.eqb_eq in Hs, He. subst s e.
  cbn [Slots.slotAt startISO endISO].
  rewrite !append_assoc. reflexivity.
Qed.

Lemma generated_slot_shape getTime day startM endM busyPeriods appts slot :
  In slot (Slots.generateFromMinutes getTime day startM endM
             busyPeriods appts) ->
  exists i : nat,
    slot = Slots.slotAt day (startM + 30 * Z.of_nat i)
    /\ startM + 30 * Z.of_nat i + 30 <= endM.
Proof.
  rewrite generateFromMinutes_closed.
  intros (m & <- & Hm)%in_map_iff.
  apply filter_In in Hm as [Hm _].
  apply in_map_iff in Hm as (i & <- & Hi). apply in_seq in Hi.
  exists i. split; [reflexivity|].
  destruct (Z_lt_le_dec startM endM) as [Hlt|Hge].
  - pose proof (slotCount_bounds _ _ Hlt). lia.
  - rewrite slotCount_zero in Hi by lia. lia.
Qed.

Lemma bookRoute_unreadable getTime env req w :
  Label.timeMatch (Api.str (timeSlot req)) = None ->
  appointments (store (snd (run env (bookRoute getTime req) w)))
  = appointments (store w)
  /\ code (fst (run env (bookRoute getTime req) w)) <> 200
  /\ (writesAccepted env ->
      authorized env (apiKey req) = true ->
      hasRequiredFields req = true ->
      (exists doctor,
         doctorOf (store w) (Api.str (doctorId req)) = Some doctor) ->
      fst (run env (bookRoute getTime req) w)
      = json 400
          (ErrorBody
             "Invalid time slot format. Use format: '09:00 AM - 09:30 AM'")).
Proof.
  intros Hmatch.
  assert (Hi : Label.bookingInterval (Api.str (date req))
                 (Api.str (timeSlot req)) = None).
  { unfold Label.bookingInterval. rewrite Hmatch. reflexivity. }
  unfold bookRoute. rewrite run_requireApiKey.
  destruct (authorized env (apiKey req)).
  2: { split; [reflexivity|]. split; [discriminate|]. discriminate. }
  destruct (hasRequiredFields req) eqn:Hreq.
  - destruct (doctorOf (store (advance w ProcessEnv)) (Api.str (doctorId req)))
      as [doctor|] eqn:Hd.
    + destruct (run_bookHandler_resolved getTime env req doctor _ Hreq Hd)
        as [(m & w1 & Hrun & Happ & n & Hn)
           | (patient & w1 & Hrun & Happ & _)]; rewrite Hrun.
      * split; [exact Happ|]. split; [discriminate|].
        intros Hw. rewrite (Hw n) in Hn. discriminate.
      * rewrite run_bookSlot_unreadable by exact Hi.
        split; [exact Happ|]. split; [discriminate|]. reflexivity.
    + assert (Hrun : run env (bookHandler getTime req) (advance w ProcessEnv)
                = (json 404 (ErrorBody "Doctor not found"),
                   advance (advance w ProcessEnv) DoctorStore)).
      { unfold hasRequiredFields in Hreq.
        repeat (apply andb_prop in Hreq as [Hreq ?]).
        unfold bookHandler, doctorOf in *.
        repeat match goal with
               | H : Js.truthy _ = true |- _ => rewrite H; clear H
               end.
        cbn [negb orb].
        match goal with H : (_ || _)%bool = true |- _ =>
          apply orb_prop in H;
          replace (negb (Js.truthy (patientEmail req))
                   && negb (Js.truthy (patientPhone req)))%bool with false
            by (destruct H as [-> | ->]; cbn; rewrite ?andb_false_r;
                reflexivity)
        end.
        cbn [run handle answer]. rewrite Hd. reflexivity. }
      rewrite Hrun. split; [reflexivity|]. split; [discriminate|].
      intros _ _ _ [doctor Hdoc]. unfold doctorOf in *. cbn in Hd.
      congruence.
  - assert (Hrun : exists msg,
              run env (bookHandler getTime req) (advance w ProcessEnv)
              = (json 400 (ErrorBody msg), advance w ProcessEnv)).
    { unfold bookHandler, hasRequiredFields in *.
      destruct (Js.truthy (doctorId req)), (Js.truthy (patientName req)),
        (Js.truthy (date req)), (Js.truthy (timeSlot req));
        cbn in Hreq |- *; try (eexists; reflexivity).
      destruct (Js.truthy (patientEmail req)),
        (Js.truthy (patientPhone req));
        cbn in Hreq |- *; try discriminate. eexists; reflexivity. }
    destruct Hrun as [msg Hrun]. rewrite Hrun.
    split; [reflexivity|]. split; [discriminate|]. discriminate.
Qed.

(** C4, as amended: for a working window that starts on a half hour and
    lies within the day, the booking route reads the label of every
    generated slot back to exactly the slot's start and end date-time
    strings, hence to the same instants; and a [timeSlot] in which the
    pattern "two digits, colon, two digits, optional blanks, AM or PM"
    occurs nowhere is never booked: the route leaves the appointments
    alone, does not answer 200, and answers 400 once the earlier checks
    have passed. *)
Theorem C4_round_trip_on_half_hours getTime env :
  (forall day workStart workEnd busyPeriods appts dayStart dayEnd slot,
     Slots.parseClock workStart = Some dayStart ->
     Slots.parseClock workEnd = Some dayEnd ->
     0 <= dayStart -> dayEnd <= 1440 -> dayStart mod 30 = 0 ->
     In slot (Slots.generateAvailableSlots getTime day workStart workEnd
                busyPeriods appts) ->
     Label.bookingInterval day (time slot)
     = Some (startISO slot, endISO slot)
     /\ exists startRead endRead,
          Label.bookingInterval day (time slot) = Some (startRead, endRead)
          /\ getTime startRead = getTime (startISO slot)
          /\ getTime endRead = getTime (endISO slot))
  /\ (forall w req,
        Label.timeMatch (Api.str (timeSlot req)) = None ->
        appointments (store (snd (run env (bookRoute getTime req) w)))
        = appointments (store w)
        /\ code (fst (run env (bookRoute getTime req) w)) <> 200
        /\ (writesAccepted env ->
            authorized env (apiKey req) = true ->
            hasRequiredFields req = true ->
            (exists doctor,
               doctorOf (store w) (Api.str (doctorId req)) = Some doctor) ->
            fst (run env (bookRoute getTime req) w)
            = json 400
                (ErrorBody
                   "Invalid time slot format. Use format: '09:00 AM - 09:30 AM'"))).
Proof.
  split; [|intros w req; apply bookRoute_unreadable].
  intros day workStart workEnd busyPeriods appts dayStart dayEnd slot
    Hs He H0 H1 Hmod Hin.
  unfold Slots.generateAvailableSlots in Hin. rewrite Hs, He in Hin.
  apply generated_slot_shape in Hin as (i & -> & Hfit).
  assert (Hread : Label.bookingInterval day
                    (time (Slots.slotAt day (dayStart + 30 * Z.of_nat i)))
                  = Some (startISO (Slots.slotAt day (dayStart + 30 * Z.of_nat i)),
                          endISO (Slots.slotAt day (dayStart + 30 * Z.of_nat i)))).
  { apply bookingInterval_readsBack, readsBack_aligned; try lia.
    replace (dayStart + 30 * Z.of_nat i) with (dayStart + Z.of_nat i * 30)
      by lia.
    rewrite Z.mod_add by lia. exact Hmod. }
  split; [exact Hread|]. eexists _, _. split; [exact Hread|]. split; reflexivity.
Qed.

(** C4 fails as stated: the slot 09:15-09:45 of a window that starts at
    09:15 is read back as 09:15-09:30, a different end instant; and
    "09:00 AM", which is not of the label format, is booked with a 200
    rather than refused. *)
Lemma C4_counterexample :
  (let slot := Slots.slotAt "2025-12-03" 555 in
   In slot (Slots.generateAvailableSlots RefClock.getTime "2025-12-03"
              "09:15" "10:45" [] [])
   /\ time slot = "09:15 AM - 09:45 AM"
   /\ endISO slot = "2025-12-03T09:45:00+05:30"
   /\ Label.bookingInterval "2025-12-03" (time slot)
      = Some ("2025-12-03T09:15:00+05:30", "2025-12-03T09:30:00+05:30")
   /\ Label.bookingInterval "2025-12-03" (time slot)
      <> Some (startISO slot, endISO slot)
   /\ RefClock.getTime "2025-12-03T09:30:00+05:30"
      <> RefClock.getTime (endISO slot))
  /\ (let result :=
        run Sample.env
            (bookRoute RefClock.getTime (Sample.request "2025-12-01" "09:00 AM"))
            Sample.start in
      isLabel "09:00 AM" = false
      /\ code (fst result) = 200
      /\ map a_timeSlot (appointments (store (snd result))) = ["09:00 AM"]).
Proof.
  split.
  - cbv zeta. split; [vm_compute; auto|].
    repeat split; try (vm_compute; reflexivity); vm_compute; discriminate.
  - vm_compute. repeat split; reflexivity.
Qed.

(** ** Patient registration *)

Lemma strictEq_refl v : Js.strictEq v v = true.
Proof. destruct v; cbn; [apply String.eqb_refl | reflexivity]. Qed.

Lemma findFrom_None {A : Type} (f : A -> bool) i l :
  findFrom f i l = None <-> Forall (fun x => f x = false) l.
Proof.
  revert i. induction l as [|x l IH]; intros i; cbn.
  - split; [constructor | reflexivity].
  - destruct (f x) eqn:Hx.
    + split; [discriminate|]. intros H. inversion H; congruence.
    + rewrite IH. split; [constructor; assumption|].
      intros H. inversion H; assumption.
Qed.

Lemma findFrom_Some {A : Type} (f : A -> bool) i l j x :
  findFrom f i l = Some (j, x) ->
  exists k, j = (i + k)%nat /\ l !! k = Some x /\ f x = true.
Proof.
  revert i. induction l as [|y l IH]; intros i; cbn; [discriminate|].
  destruct (f y) eqn:Hy.
  - intros [= <- <-]. exists O. rewrite Nat.add_0_r. auto.
  - intros H. destruct (IH _ H) as (k & -> & Hk & Hx).
    exists (S k). split; [lia|]. auto.
Qed.

Lemma findFrom_found {A : Type} (f : A -> bool) i l x :
  In x l -> f x = true -> exists j y, findFrom f i l = Some (j, y).
Proof.
  intros Hin Hx. destruct (findFrom f i l) as [[j y]|] eqn:H; [eauto|].
  apply findFrom_None in H. rewrite List.Forall_forall in H.
  rewrite (H x Hin) in Hx. discriminate.
Qed.

Lemma findFrom_last {A : Type} (f : A -> bool) i l x :
  Forall (fun y => f y = false) l -> f x = true ->
  findFrom f i (l ++ [x]) = Some ((i + length l)%nat, x).
Proof.
  intros Hl Hx. revert i.
  induction Hl as [|y l Hy Hl IH]; intros i; cbn.
  - rewrite Hx, Nat.add_0_r. reflexivity.
  - rewrite Hy, IH. f_equal. f_equal. lia.
Qed.

Lemma withEmail_none email clauses ps :
  In (ByEmail email) clauses ->
  Forall (fun p => matchesAny clauses p = false) ps ->
  withEmail email ps = [].
Proof.
  intros Hin Hps. unfold withEmail.
  induction Hps as [|p ps Hp Hps IH]; cbn; [reflexivity|].
  rewrite IH.
  destruct (Js.strictEq (p_email p) email) eqn:He; [|reflexivity].
  exfalso. unfold matchesAny in Hp.
  assert (existsb (matchesClause p) clauses = true)
    by (apply existsb_exists; exists (ByEmail email); auto).
  congruence.
Qed.

Lemma withEmail_app email ps qs :
  withEmail email (ps ++ qs) = (withEmail email ps ++ withEmail email qs)%list.
Proof. apply List.filter_app. Qed.

(** Writing back a document with the same identifier and e-mail leaves
    the identifiers found under any e-mail address as they were. *)
Lemma withEmail_insert email ps i old new :
  ps !! i = Some old ->
  patientId new = patientId old ->
  p_email new = p_email old ->
  map patientId (withEmail email (<[i := new]> ps))
  = map patientId (withEmail email ps).
Proof.
  unfold withEmail.
  revert i. induction ps as [|p ps IH]; intros i Hi Hid He; [discriminate|].
  destruct i as [|i]; cbn in Hi; cbn [list_insert insert List.filter].
  - injection Hi as ->. rewrite He.
    destruct (Js.strictEq (p_email old) email); cbn [map];
      rewrite ?Hid; reflexivity.
  - specialize (IH i Hi Hid He).
    destruct (Js.strictEq (p_email p) email); cbn [map];
      [f_equal|]; exact IH.
Qed.

Section Registration.
Variable env : Env.

Lemma run_register_creates req w :
  writesAccepted env ->
  authorized env (r_apiKey req) = true ->
  Js.truthy (r_name req) = true ->
  Js.truthy (r_email req) = true ->
  findOne (matchesAny (contactFilter req)) (patients (store w)) = None ->
  exists p w',
    run env (registerRoute req) w = (json 200 (RegisteredBody (summaryOf p)), w')
    /\ patients (store w') = (patients (store w) ++ [p])%list
    /\ p_email p = r_email req
    /\ p_phone p = r_phone req.
Proof.
  intros Hw Hauth Hname Hmail Hnone.
  unfold registerRoute. rewrite run_requireApiKey, Hauth, Hname, Hmail.
  cbn [negb orb andb run handle answer advance store]. rewrite Hnone.
  cbn [run handle answer tick store calls].
  unfold handle. cbn [answer tick store calls]. rewrite Hw. cbn [run].
  eexists _, _. split; [reflexivity|]. cbn. auto.
Qed.

Lemma run_register_rejects req w doc q :
  authorized env (r_apiKey req) = true ->
  Js.truthy (r_name req) = true ->
  Js.truthy (r_email req) = true ->
  findOne (matchesAny (contactFilter req)) (patients (store w))
  = Some (doc, q) ->
  run env (registerRoute req) w
  = (json 409 (AlreadyRegisteredBody "Patient already registered"
                 (summaryOf q)),
     advance (advance w ProcessEnv) PatientStore).
Proof.
  intros Hauth Hname Hmail Hfound.
  unfold registerRoute. rewrite run_requireApiKey, Hauth, Hname, Hmail.
  cbn [negb orb andb run handle answer advance store]. rewrite Hfound.
  reflexivity.
Qed.

Lemma run_patients_creates req w :
  writesAccepted env ->
  Js.truthy (r_email req) = true ->
  findOne (matchesAny [ByEmail (r_email req); ByPhone (r_phone req)])
          (patients (store w)) = None ->
  exists p w',
    run env (patientsRoute req) w = (json 200 (PatientBody p), w')
    /\ patients (store w') = (patients (store w) ++ [p])%list
    /\ p_email p = r_email req
    /\ p_phone p = r_phone req.
Proof.
  intros Hw Hmail Hnone. unfold patientsRoute. rewrite Hmail.
  cbn [negb andb run handle answer]. rewrite Hnone.
  cbn [run handle answer tick store calls].
  unfold handle. cbn [answer tick store calls]. rewrite Hw. cbn [run].
  eexists _, _. split; [reflexivity|]. cbn. auto.
Qed.

Lemma run_patients_updates req w doc old :
  writesAccepted env ->
  Js.truthy (r_email req) = true ->
  findOne (matchesAny [ByEmail (r_email req); ByPhone (r_phone req)])
          (patients (store w)) = Some (doc, old) ->
  exists p w',
    run env (patientsRoute req) w = (json 200 (PatientBody p), w')
    /\ patients (store w') = <[doc := p]> (patients (store w))
    /\ patientId p = patientId old
    /\ p_email p = p_email old.
Proof.
  intros Hw Hmail Hfound. unfold patientsRoute. rewrite Hmail.
  cbn [negb andb run handle answer]. rewrite Hfound.
  cbn [run]. unfold handle. cbn [answer tick store calls]. rewrite Hw.
  cbn [run].
  eexists _, _. split; [reflexivity|]. cbn. auto.
Qed.

Lemma matchesAny_in clauses p c :
  In c clauses -> matchesClause p c = true -> matchesAny clauses p = true.
Proof. intros Hin Hc. apply existsb_exists. eauto. Qed.

Lemma matchesAny_false_in clauses p c :
  matchesAny clauses p = false -> In c clauses -> matchesClause p c = false.
Proof.
  intros Hp Hin. destruct (matchesClause p c) eqn:Hc; [|reflexivity].
  rewrite (matchesAny_in clauses p c Hin Hc) in Hp. discriminate.
Qed.

Lemma contactFilter_email req :
  Js.truthy (r_email req) = true -> In (ByEmail (r_email req)) (contactFilter req).
Proof. intros H. unfold contactFilter. rewrite H. left. reflexivity. Qed.

Lemma lookup_In {A : Type} (l : list A) k x : l !! k = Some x -> In x l.
Proof. intros H. apply list_elem_of_In. eapply list_elem_of_lookup_2, H. Qed.

(** C8, on the failing input: Asha is registered on [/patients] with an
    e-mail address and no phone.  Bala then registers twice on the same
    route, with another e-mail address and no phone either.  The
    route's query asks for that address or for the absent phone, finds
    Asha, and both times overwrites her name and answers 200 with her
    record, whose address is still hers: after the second registration
    the collection holds no patient with Bala's address, and the one
    patient it holds is Asha's record under Bala's name. *)
Theorem C8_second_registration_leaves_no_patient :
  let asha := {| r_apiKey := None; r_name := Some "Asha";
                 r_email := Some "asha@example.org"; r_phone := None |} in
  let bala := {| r_apiKey := None; r_name := Some "Bala";
                 r_email := Some "bala@example.org"; r_phone := None |} in
  let overwritten := {| patientId := "P-00001001"; p_name := Some "Bala";
                        p_email := Some "asha@example.org";
                        p_phone := None |} in
  let before := run Sample.env (patientsRoute asha) Sample.start in
  let first := run Sample.env (patientsRoute bala) (snd before) in
  let second := run Sample.env (patientsRoute bala) (snd first) in
  fst before
  = json 200 (PatientBody {| patientId := "P-00001001";
                             p_name := Some "Asha";
                             p_email := Some "asha@example.org";
                             p_phone := None |})
  /\ fst first = json 200 (PatientBody overwritten)
  /\ fst second = json 200 (PatientBody overwritten)
  /\ patients (store (snd second)) = [overwritten]
  /\ withEmail (Some "bala@example.org") (patients (store (snd second)))
     = [].
Proof. vm_compute. repeat split; reflexivity. Qed.

(** Where the first registration finds nobody.  With every write
    accepted, once a first registration with an e-mail address has
    created a patient, registering again with the same address creates
    no second patient: the collection still holds exactly one patient
    with that address, under the identifier the first registration
    returned, and the response carries the record of an existing
    patient - that very patient when the phone is the same (or, on
    [/patients/register], absent).  [/patients/register] sends the
    record in a 409 body and changes nothing; [/patients] updates name
    and phone in place and sends the updated record. *)
Theorem second_registration_after_creation :
  writesAccepted env ->
  (forall w r1 r2,
     authorized env (r_apiKey r1) = true ->
     authorized env (r_apiKey r2) = true ->
     Js.truthy (r_name r1) = true ->
     Js.truthy (r_name r2) = true ->
     Js.truthy (r_email r1) = true ->
     r_email r2 = r_email r1 ->
     findOne (matchesAny (contactFilter r1)) (patients (store w)) = None ->
     let first := run env (registerRoute r1) w in
     let second := run env (registerRoute r2) (snd first) in
     exists p,
       fst first = json 200 (RegisteredBody (summaryOf p))
       /\ withEmail (r_email r1) (patients (store (snd first))) = [p]
       /\ patients (store (snd second)) = patients (store (snd first))
       /\ withEmail (r_email r1) (patients (store (snd second))) = [p]
       /\ (exists q,
             In q (patients (store (snd first)))
             /\ fst second
                = json 409 (AlreadyRegisteredBody "Patient already registered"
                              (summaryOf q)))
       /\ (Js.truthy (r_phone r2) = false \/ r_phone r2 = r_phone r1 ->
           fst second
           = json 409 (AlreadyRegisteredBody "Patient already registered"
                         (summaryOf p))))
  /\ (forall w r1 r2,
        Js.truthy (r_email r1) = true ->
        r_email r2 = r_email r1 ->
        findOne (matchesAny [ByEmail (r_email r1); ByPhone (r_phone r1)])
                (patients (store w)) = None ->
        let first := run env (patientsRoute r1) w in
        let second := run env (patientsRoute r2) (snd first) in
        exists p,
          fst first = json 200 (PatientBody p)
          /\ withEmail (r_email r1) (patients (store (snd first))) = [p]
          /\ length (patients (store (snd second)))
             = length (patients (store (snd first)))
          /\ map patientId
                 (withEmail (r_email r1) (patients (store (snd second))))
             = [patientId p]
          /\ (exists q,
                In q (patients (store (snd second)))
                /\ fst second = json 200 (PatientBody q))
          /\ (r_phone r2 = r_phone r1 ->
              exists q,
                fst second = json 200 (PatientBody q)
                /\ patientId q = patientId p
                /\ p_email q = r_email r1)).
Proof.
  intros Hw. split.
  - intros w r1 r2 Hauth1 Hauth2 Hname1 Hname2 Hmail Hsame Hnone first second.
    destruct (run_register_creates r1 w Hw Hauth1 Hname1 Hmail Hnone)
      as (p & w1 & Hrun1 & Hpat & Hpe & Hpp).
    apply findFrom_None in Hnone.
    assert (Hone : withEmail (r_email r1) (patients (store w1)) = [p]).
    { rewrite Hpat, withEmail_app.
      rewrite (withEmail_none _ _ _ (contactFilter_email r1 Hmail) Hnone).
      unfold withEmail. cbn. rewrite Hpe, strictEq_refl. reflexivity. }
    assert (Hmail2 : Js.truthy (r_email r2) = true) by (rewrite Hsame; exact Hmail).
    assert (Hp2 : matchesAny (contactFilter r2) p = true).
    { eapply matchesAny_in; [apply contactFilter_email, Hmail2|].
      cbn. rewrite Hpe, Hsame. apply strictEq_refl. }
    assert (Hlast : In p (patients (store w1)))
      by (rewrite Hpat; apply in_or_app; right; left; reflexivity).
    destruct (findFrom_found (matchesAny (contactFilter r2)) O _ p Hlast Hp2)
      as (j & y & Hfound).
    pose proof (run_register_rejects r2 w1 j y Hauth2 Hname2 Hmail2 Hfound)
      as Hrun2.
    subst first second. rewrite Hrun1. cbn [fst snd]. rewrite Hrun2.
    cbn [fst snd advance store].
    exists p. split; [reflexivity|]. split; [exact Hone|].
    split; [reflexivity|]. split; [exact Hone|]. split.
    + exists y. split; [|reflexivity].
      apply findFrom_Some in Hfound as (k & _ & Hk & _).
      eapply lookup_In, Hk.
    + intros Hphone.
      assert (Hold : Forall (fun x => matchesAny (contactFilter r2) x = false)
                       (patients (store w))).
      { destruct Hphone as [Hno | Heq].
        - eapply List.Forall_impl; [|exact Hnone]. intros x Hx.
          unfold contactFilter. rewrite Hmail2, Hno, Hsame.
          cbn. rewrite orb_false_r.
          apply (matchesAny_false_in _ _ _ Hx (contactFilter_email r1 Hmail)).
        - replace (contactFilter r2) with (contactFilter r1); [exact Hnone|].
          unfold contactFilter. rewrite Hsame, Heq. reflexivity. }
      unfold findOne in Hfound. rewrite Hpat in Hfound.
      rewrite (findFrom_last _ _ _ _ Hold Hp2) in Hfound.
      injection Hfound as _ <-. reflexivity.
  - intros w r1 r2 Hmail Hsame Hnone first second.
    destruct (run_patients_creates r1 w Hw Hmail Hnone)
      as (p & w1 & Hrun1 & Hpat & Hpe & Hpp).
    apply findFrom_None in Hnone.
    assert (Hone : withEmail (r_email r1) (patients (store w1)) = [p]).
    { rewrite Hpat, withEmail_app.
      rewrite (withEmail_none (r_email r1)
                 [ByEmail (r_email r1); ByPhone (r_phone r1)] _
                 ltac:(left; reflexivity) Hnone).
      unfold withEmail. cbn. rewrite Hpe, strictEq_refl. reflexivity. }
    assert (Hmail2 : Js.truthy (r_email r2) = true) by (rewrite Hsame; exact Hmail).
    assert (Hp2 : matchesAny [ByEmail (r_email r2); ByPhone (r_phone r2)] p
                  = true).
    { cbn. rewrite Hpe, Hsame, strictEq_refl. reflexivity. }
    assert (Hlast : In p (patients (store w1)))
      by (rewrite Hpat; apply in_or_app; right; left; reflexivity).
    destruct (findFrom_found
                (matchesAny [ByEmail (r_email r2); ByPhone (r_phone r2)])
                O _ p Hlast Hp2) as (j & y & Hfound).
    destruct (run_patients_updates r2 w1 j y Hw Hmail2 Hfound)
      as (q & w2 & Hrun2 & Hpat2 & Hqid & Hqe).
    pose proof Hfound as Hwhere.
    apply findFrom_Some in Hwhere as (k & Hjk & Hk & _).
    cbn in Hjk. subst k.
    subst first second. rewrite Hrun1. cbn [fst snd]. rewrite Hrun2.
    cbn [fst snd].
    exists p. split; [reflexivity|]. split; [exact Hone|].
    split; [rewrite Hpat2; apply length_insert|].
    split; [rewrite Hpat2, (withEmail_insert _ _ _ y q Hk Hqid Hqe), Hone;
            reflexivity|].
    split.
    + exists q. split; [|reflexivity]. rewrite Hpat2.
      eapply lookup_In. apply list_lookup_insert_eq.
      eapply lookup_lt_Some, Hk.
    + intros Heq. exists q. split; [reflexivity|].
      unfold findOne in Hfound. rewrite Hpat in Hfound.
      rewrite Hsame, Heq in Hfound, Hp2.
      rewrite (findFrom_last _ _ _ _ Hnone Hp2) in Hfound.
      injection Hfound as _ <-. split; [exact Hqid|].
      rewrite Hqe. exact Hpe.
Qed.

End Registration.


End Running.






(* ===================================================================== *)
(** * One-time passcodes                                                  *)
(* ===================================================================== *)
Section Passcodes.
Import Otp.

Lemma verifyOTP_valid now email code (st : gmap string Entry) :
  valid (fst (verifyOTP now email code st)) = true
  <-> exists e, st !! email = Some e
                /\ now <= expiryTime e
                /\ attempts e < 5
                /\ otp e = code.
Proof.
  unfold verifyOTP. destruct (st !! email) as [e|] eqn:He.
  - destruct (Z.ltb_spec (expiryTime e) now) as [Hexp|Hexp].
    { cbn. split; [discriminate|]. intros (e' & [= <-] & ? & _). lia. }
    destruct (Z.leb_spec 5 (attempts e)) as [Hatt|Hatt].
    { cbn. split; [discriminate|]. intros (e' & [= <-] & _ & ? & _). lia. }
    destruct (String.eqb_spec (otp e) code) as [Heq|Hne]; cbn.
    + split; [|reflexivity]. intros _. exists e. auto.
    + split; [discriminate|]. intros (e' & [= <-] & _ & _ & ?). contradiction.
  - cbn. split; [discriminate|]. intros (e & [=] & _).
Qed.

Lemma verifyOTP_evicts now email code (st : gmap string Entry) e :
  st !! email = Some e ->
  (valid (fst (verifyOTP now email code st)) = true
   \/ expiryTime e < now \/ 5 <= attempts e) ->
  snd (verifyOTP now email code st) = delete email st.
Proof.
  intros He Hcase. unfold verifyOTP in *. rewrite He in *.
  destruct (Z.ltb_spec (expiryTime e) now); [reflexivity|].
  destruct (Z.leb_spec 5 (attempts e)); [reflexivity|].
  destruct (String.eqb (otp e) code); cbn in *; [reflexivity|].
  destruct Hcase as [|[|]]; [discriminate|lia|lia].
Qed.

Lemma verifyOTP_wrong now email code (st : gmap string Entry) e :
  st !! email = Some e ->
  now <= expiryTime e -> attempts e < 5 -> otp e <> code ->
  verifyOTP now email code st
  = ({| valid := false; message := "Invalid OTP";
        remainingAttempts := Some (5 - (attempts e + 1)) |},
     <[email := {| otp := otp e; expiryTime := expiryTime e;
                   attempts := attempts e + 1 |}]> st).
Proof.
  intros He Hexp Hatt Hne. unfold verifyOTP. rewrite He.
  destruct (Z.ltb_spec (expiryTime e) now); [lia|].
  destruct (Z.leb_spec 5 (attempts e)); [lia|].
  destruct (String.eqb_spec (otp e) code); [contradiction|]. reflexivity.
Qed.

Lemma verifyOTP_other now email other code (st : gmap string Entry) :
  other <> email ->
  snd (verifyOTP now other code st) !! email = st !! email.
Proof.
  intros Hne. unfold verifyOTP.
  destruct (st !! other) as [e|]; [|reflexivity].
  destruct (expiryTime e <? now); [apply lookup_delete_ne, Hne|].
  destruct (5 <=? attempts e); [apply lookup_delete_ne, Hne|].
  destruct (String.eqb (otp e) code); cbn;
    [apply lookup_delete_ne | apply lookup_insert_ne]; exact Hne.
Qed.

Lemma cleanup_lookup email other (st : gmap string Entry) :
  cleanup other st !! email
  = if decide (other = email) then None else st !! email.
Proof.
  unfold cleanup. destruct (st !! other) as [e|] eqn:He.
  - apply lookup_delete.
  - case_decide; [subst; exact He | reflexivity].
Qed.

(** Once nothing is stored for an address, and until a code is issued
    for it again, every submission for it is refused. *)
Lemma absent_all_refused email evs :
  forall st : gmap string Entry,
    st !! email = None ->
    forallb (fun tev => negb (issues email tev)) evs = true ->
    Forall (fun r => valid (snd r) = false) (verdictsFor email evs st).
Proof.
  induction evs as [|[now ev] evs IH]; intros st Hst Hno; [constructor|].
  cbn in Hno. apply andb_prop in Hno as [Hev Hno].
  cbn [verdictsFor]. destruct ev as [e c|e c|e]; cbn [step].
  - apply IH; [|exact Hno]. unfold issues in Hev. cbn in Hev.
    destruct (String.eqb_spec e email); [discriminate|].
    unfold storeOTP. rewrite lookup_insert_ne by assumption. exact Hst.
  - destruct (verifyOTP now e c st) as [v st'] eqn:Hv.
    destruct (String.eqb_spec e email) as [->|Hne].
    + unfold verifyOTP in Hv. rewrite Hst in Hv. injection Hv as <- <-.
      constructor; [reflexivity|]. apply IH; assumption.
    + apply IH; [|exact Hno].
      replace st' with (snd (verifyOTP now e c st)) by (rewrite Hv; reflexivity).
      rewrite verifyOTP_other by exact Hne. exact Hst.
  - apply IH; [|exact Hno]. rewrite cleanup_lookup.
    case_decide; [reflexivity | exact Hst].
Qed.

(** While an entry is stored for an address and no new code is issued
    for it: a submission that is accepted submitted the stored code, came
    no later than the stored expiry, came after fewer failed submissions
    than the budget leaves, and is the only accepted one. *)
Lemma stored_accepts_once email evs :
  forall (st : gmap string Entry) e,
    st !! email = Some e ->
    forallb (fun tev => negb (issues email tev)) evs = true ->
    forall i now code v,
      verdictsFor email evs st !! i = Some (now, code, v) ->
      valid v = true ->
      code = otp e
      /\ now <= expiryTime e
      /\ attempts e + Z.of_nat i < 5
      /\ forall j r, j <> i -> verdictsFor email evs st !! j = Some r ->
                     valid (snd r) = false.
Proof.
  induction evs as [|[t ev] evs IH]; intros st e Hst Hno i now code v Hi Hv;
    [discriminate|].
  cbn in Hno. apply andb_prop in Hno as [Hev Hno].
  cbn [verdictsFor] in *. destruct ev as [a c|a c|a]; cbn [step] in *.
  - unfold issues in Hev. cbn in Hev.
    destruct (String.eqb_spec a email); [discriminate|].
    eapply IH; try eassumption.
    unfold storeOTP. rewrite lookup_insert_ne by assumption. exact Hst.
  - destruct (verifyOTP t a c st) as [v0 st'] eqn:Hrun.
    destruct (String.eqb_spec a email) as [->|Hne].
    2: { eapply IH; try eassumption.
         replace st' with (snd (verifyOTP t a c st))
           by (rewrite Hrun; reflexivity).
         rewrite verifyOTP_other by exact Hne. exact Hst. }
    destruct (valid v0) eqn:Hv0.
    + (* accepted now: the entry is gone afterwards *)
      assert (Hacc : valid (fst (verifyOTP t email c st)) = true)
        by (rewrite Hrun; exact Hv0).
      pose proof (verifyOTP_evicts t email c st e Hst (or_introl Hacc)) as Hgone.
      rewrite Hrun in Hgone. cbn in Hgone. subst st'.
      pose proof (absent_all_refused email evs (delete email st)
                    (lookup_delete_eq st email) Hno) as Hrest.
      rewrite List.Forall_forall in Hrest.
      apply verifyOTP_valid in Hacc as (e' & He' & Hexp & Hatt & Hcode).
      rewrite Hst in He'. injection He' as <-.
      destruct i as [|i]; cbn in Hi.
      * injection Hi as <- <- <-.
        split; [symmetry; exact Hcode|]. split; [exact Hexp|].
        split; [lia|].
        intros [|j] r Hj Hr; [contradiction|]. cbn in Hr.
        apply Hrest. eapply lookup_In, Hr.
      * exfalso. apply lookup_In in Hi. apply Hrest in Hi. cbn in Hi.
        congruence.
    + (* refused now *)
      destruct i as [|i]; cbn in Hi; [injection Hi as <- <- <-; congruence|].
      destruct (Z.ltb_spec (expiryTime e) t) as [Hexp|Hexp].
      { pose proof (verifyOTP_evicts t email c st e Hst
                      (or_intror (or_introl Hexp))) as Hgone.
        rewrite Hrun in Hgone. cbn in Hgone. subst st'.
        pose proof (absent_all_refused email evs (delete email st)
                      (lookup_delete_eq st email) Hno) as Hrest.
        rewrite List.Forall_forall in Hrest.
        apply lookup_In in Hi. apply Hrest in Hi. cbn in Hi. congruence. }
      destruct (Z.leb_spec 5 (attempts e)) as [Hatt|Hatt].
      { pose proof (verifyOTP_evicts t email c st e Hst
                      (or_intror (or_intror Hatt))) as Hgone.
        rewrite Hrun in Hgone. cbn in Hgone. subst st'.
        pose proof (absent_all_refused email evs (delete email st)
                      (lookup_delete_eq st email) Hno) as Hrest.
        rewrite List.Forall_forall in Hrest.
        apply lookup_In in Hi. apply Hrest in Hi. cbn in Hi. congruence. }
      assert (Hcode : otp e <> c).
      { intros Heq.
        assert (valid (fst (verifyOTP t email c st)) = true)
          by (apply verifyOTP_valid; exists e; auto).
        rewrite Hrun in *. cbn in *. congruence. }
      rewrite (verifyOTP_wrong t email c st e Hst Hexp Hatt Hcode) in Hrun.
      injection Hrun as <- <-.
      destruct (IH _ _ (lookup_insert_eq st email _) Hno i now code v Hi Hv)
        as (Hc & Ht & Hbudget & Hothers).
      cbn in Hc, Ht, Hbudget.
      split; [exact Hc|]. split; [exact Ht|]. split; [lia|].
      intros [|j] r Hj Hr; cbn in Hr.
      * injection Hr as <-. reflexivity.
      * apply (Hothers j r); [congruence | exact Hr].
  - destruct (decide (a = email)) as [->|Hne].
    + exfalso.
      assert (Hnone : cleanup email st !! email = None).
      { rewrite cleanup_lookup. case_decide; [reflexivity|contradiction]. }
      pose proof (absent_all_refused email evs _ Hnone Hno) as Hrest.
      rewrite List.Forall_forall in Hrest.
      apply lookup_In in Hi. apply Hrest in Hi. cbn in Hi. congruence.
    + eapply IH; try eassumption.
      rewrite cleanup_lookup. case_decide; [contradiction | exact Hst].
Qed.

(** C9: [verifyOTP] accepts exactly when an entry is stored for the
    address, the submitted code equals the stored one, the time is not
    after the stored expiry and fewer than 5 failed attempts are recorded;
    on acceptance, on expiry and on an exhausted budget the entry is
    removed.  Hence, after a code is issued and until another one is
    issued for the same address, whatever other calls and timers come in
    between: an accepted submission carries the issued code, comes within
    five minutes of the issue and after fewer than 5 submissions, and no
    other submission is accepted. *)
Theorem C9_passcode_single_use :
  (forall now email code (st : gmap string Entry),
     valid (fst (verifyOTP now email code st)) = true
     <-> exists e, st !! email = Some e
                   /\ otp e = code
                   /\ now <= expiryTime e
                   /\ attempts e < 5)
  /\ (forall now email code (st : gmap string Entry) e,
        st !! email = Some e ->
        valid (fst (verifyOTP now email code st)) = true
        \/ expiryTime e < now \/ 5 <= attempts e ->
        snd (verifyOTP now email code st) !! email = None
        /\ snd (verifyOTP now email code st) = delete email st)
  /\ (forall issuedAt email issued (st : gmap string Entry) evs,
        forallb (fun tev => negb (issues email tev)) evs = true ->
        let verdicts :=
          verdictsFor email evs (storeOTP issuedAt email issued st) in
        forall i now code v,
          verdicts !! i = Some (now, code, v) ->
          valid v = true ->
          code = issued
          /\ now <= issuedAt + 5 * 60 * 1000
          /\ (i < 5)%nat
          /\ forall j r, j <> i -> verdicts !! j = Some r ->
                         valid (snd r) = false).
Proof.
  split; [|split].
  - intros now email code st. rewrite verifyOTP_valid.
    split; intros (e & ? & ? & ? & ?); exists e; auto.
  - intros now email code st e He Hcase.
    rewrite (verifyOTP_evicts now email code st e He Hcase).
    split; [apply lookup_delete_eq | reflexivity].
  - intros issuedAt email issued st evs Hno verdicts i now code v Hi Hv.
    destruct (stored_accepts_once email evs
                (storeOTP issuedAt email issued st) _
                (lookup_insert_eq st email _) Hno i now code v Hi Hv)
      as (Hc & Ht & Hbudget & Hothers).
    cbn in Hc, Ht, Hbudget.
    split; [exact Hc|]. split; [exact Ht|]. split; [lia|]. exact Hothers.
Qed.

End Passcodes.

(* ===================================================================== *)
(** * The statements at work on the sample clinic                         *)
(* ===================================================================== *)
Section Instances.
Import Effects Http Notions Api.


(** C10 on the same window with 09:00-09:30 busy in the calendar and
    09:30-10:00 booked: the two later slots remain, and each passes the
    conflict check. *)
Lemma C10_witness :
  map time (Slots.generateAvailableSlots RefClock.getTime "2025-12-01"
              "09:00" "11:00" Sample.busy [Sample.ashaMonday])
  = ["10:00 AM - 10:30 AM"; "10:30 AM - 11:00 AM"]
  /\ forall slot,
       In slot (Slots.generateAvailableSlots RefClock.getTime "2025-12-01"
                  "09:00" "11:00" Sample.busy [Sample.ashaMonday]) ->
       Slots.isSlotConflicting RefClock.getTime (startISO slot) (endISO slot)
         Sample.busy [Sample.ashaMonday] = false.
Proof.
  split; [vm_compute; reflexivity|].
  intros slot Hin.
  destruct (C10_output_is_free_sublist RefClock.getTime "2025-12-01"
              "09:00" "11:00" Sample.busy [Sample.ashaMonday])
    as [Hfree _].
  exact (proj1 (Hfree slot Hin)).
Defined.

(** X29 on the clinic where Monday 09:30 is taken: asking for it again
    is answered 409 and adds nothing. *)
Lemma conflict_on_derived_interval_answers_409_witness :
  fst (run Sample.env
           (bookRoute RefClock.getTime
              (Sample.request "2025-12-01" "09:30 AM - 10:00 AM"))
           Sample.booked)
  = json 409 (ConflictBody "This time slot is no longer available"
                           "Please select a different time")
  /\ appointments
       (store (snd (run Sample.env
                        (bookRoute RefClock.getTime
                           (Sample.request "2025-12-01" "09:30 AM - 10:00 AM"))
                        Sample.booked)))
     = appointments (store Sample.booked).
Proof.
  assert (Hdoc : doctorOf (store Sample.booked) "D-1" = Some Sample.rao)
    by (vm_compute; reflexivity).
  assert (Hread : Label.bookingInterval "2025-12-01" "09:30 AM - 10:00 AM"
                  = Some ("2025-12-01T09:30:00+05:30",
                          "2025-12-01T10:00:00+05:30"))
    by (vm_compute; reflexivity).
  assert (Hstart : RefClock.getTime "2025-12-01T09:30:00+05:30"
                   = Some 1764561600000) by (vm_compute; reflexivity).
  assert (Hend : RefClock.getTime "2025-12-01T10:00:00+05:30"
                 = Some 1764563400000) by (vm_compute; reflexivity).
  assert (Htaken : exists a,
            In a (appointments (store Sample.booked))
            /\ a_doctorId a = d_doctorId Sample.rao
            /\ status a <> "cancelled"
            /\ Slots.overlaps (Some 1764561600000) (Some 1764563400000)
                 (startDateTime a) (endDateTime a) = true).
  { exists Sample.ashaMonday. split; [left; reflexivity|].
    split; [reflexivity|]. split; [discriminate|]. vm_compute. reflexivity. }
  exact (conflict_on_derived_interval_answers_409 RefClock.getTime Sample.env
           Sample.booked (Sample.request "2025-12-01" "09:30 AM - 10:00 AM")
           Sample.rao "2025-12-01T09:30:00+05:30" "2025-12-01T10:00:00+05:30"
           1764561600000 1764563400000 (fun n => eq_refl) eq_refl eq_refl
           Hdoc Hread Hstart Hend Htaken).
Defined.

(** C7 on the sample clinic, whose mail transport refuses every message:
    the booking is answered 200 with the refusal in [emailStatus], and
    persisted as confirmed. *)
Lemma C7_witness :
  exists a patient m link,
    fst (run Sample.env
             (bookRoute RefClock.getTime
                (Sample.request "2025-12-01" "09:30 AM - 10:00 AM"))
             Sample.start)
    = json 200 (BookedBody (appointmentId a) "confirmed" patient
                  (EmailError m) link)
    /\ appointments
         (store (snd (run Sample.env
                          (bookRoute RefClock.getTime
                             (Sample.request "2025-12-01" "09:30 AM - 10:00 AM"))
                          Sample.start)))
       = (appointments (store Sample.start) ++ [a])%list
    /\ status a = "confirmed".
Proof.
  assert (Hdoc : doctorOf (store Sample.start) "D-1" = Some Sample.rao)
    by (vm_compute; reflexivity).
  assert (Hread : Label.bookingInterval "2025-12-01" "09:30 AM - 10:00 AM"
                  = Some ("2025-12-01T09:30:00+05:30",
                          "2025-12-01T10:00:00+05:30"))
    by (vm_compute; reflexivity).
  assert (Hstart : RefClock.getTime "2025-12-01T09:30:00+05:30"
                   = Some 1764561600000) by (vm_compute; reflexivity).
  assert (Hend : RefClock.getTime "2025-12-01T10:00:00+05:30"
                 = Some 1764563400000) by (vm_compute; reflexivity).
  destruct (C7_mail_failure_is_soft RefClock.getTime Sample.env Sample.start
              (Sample.request "2025-12-01" "09:30 AM - 10:00 AM")
              Sample.rao "2025-12-01T09:30:00+05:30"
              "2025-12-01T10:00:00+05:30" 1764561600000 1764563400000
              (fun n => eq_refl) eq_refl eq_refl Hdoc Hread Hstart Hend
              eq_refl)
    as (a & patient & st & link & Hresp & Happ & Hst & _ & _ & _ & Hsoft).
  destruct (Hsoft eq_refl eq_refl
              (fun n => ex_intro _ "connection refused" eq_refl)) as [m ->].
  exists a, patient, m, link. auto.
Defined.

(** C6 on Tuesday, which Dr. Rao's template marks unavailable. *)
Lemma C6_witness :
  fst (run Sample.env
           (availabilityRoute RefClock.getTime Sample.weekdayOf "D-1"
                              (Some "2025-12-02")) Sample.start)
  = json 200 (AvailabilityBody "2025-12-02" (Sample.weekdayOf "2025-12-02")
                "D-1" [] (Some "Doctor not available on this day"))
  /\ calls (snd (run Sample.env
                     (availabilityRoute RefClock.getTime Sample.weekdayOf
                        "D-1" (Some "2025-12-02")) Sample.start))
     = [DoctorStore]
  /\ Sample.weekdayOf "2025-12-02" = "tuesday".
Proof.
  assert (Hdate : dateRegexTest "2025-12-02" = true)
    by (vm_compute; reflexivity).
  assert (Hdoc : doctorOf (store Sample.start) "D-1" = Some Sample.rao)
    by (vm_compute; reflexivity).
  assert (Hday : Sample.week !! Sample.weekdayOf "2025-12-02"
                 = Some Sample.closed) by (vm_compute; reflexivity).
  destruct (C6_unavailable_day_short_circuits RefClock.getTime
              Sample.weekdayOf Sample.env Sample.start "D-1" "2025-12-02"
              Sample.rao Sample.week Sample.closed
              Hdate Hdoc eq_refl Hday eq_refl)
    as (Hresp & Hcalls & _).
  split; [exact Hresp|]. split; [exact Hcalls|]. vm_compute. reflexivity.
Defined.

(** C4, as amended, on a slot of Monday's window and on a request whose
    time slot holds no clock time at all. *)
Lemma C4_witness :
  Label.bookingInterval "2025-12-01"
    (time (Slots.slotAt "2025-12-01" 570))
  = Some (startISO (Slots.slotAt "2025-12-01" 570),
          endISO (Slots.slotAt "2025-12-01" 570))
  /\ fst (run Sample.env
              (bookRoute RefClock.getTime (Sample.request "2025-12-01" "soon"))
              Sample.start)
     = json 400
         (ErrorBody
            "Invalid time slot format. Use format: '09:00 AM - 09:30 AM'").
Proof.
  assert (Hs : Slots.parseClock "09:00" = Some 540)
    by (vm_compute; reflexivity).
  assert (He : Slots.parseClock "11:00" = Some 660)
    by (vm_compute; reflexivity).
  assert (Hin : In (Slots.slotAt "2025-12-01" 570)
                   (Slots.generateAvailableSlots RefClock.getTime
                      "2025-12-01" "09:00" "11:00" [] [])).
  { vm_compute. right. left. reflexivity. }
  assert (Hnone : Label.timeMatch
                    (Api.str (timeSlot (Sample.request "2025-12-01" "soon")))
                  = None) by (vm_compute; reflexivity).
  assert (Hdoc : exists doctor,
             doctorOf (store Sample.start)
               (Api.str (doctorId (Sample.request "2025-12-01" "soon")))
             = Some doctor).
  { exists Sample.rao. vm_compute. reflexivity. }
  destruct (C4_round_trip_on_half_hours RefClock.getTime Sample.env)
    as [Hround Hrefuse].
  split.
  - exact (proj1 (Hround "2025-12-01" "09:00" "11:00" [] [] 540 660
                    (Slots.slotAt "2025-12-01" 570)
                    Hs He ltac:(lia) ltac:(lia) eq_refl Hin)).
  - exact (proj2 (proj2 (Hrefuse Sample.start
                           (Sample.request "2025-12-01" "soon") Hnone))
                 (fun n => eq_refl) eq_refl eq_refl Hdoc).
Defined.

(** On the sample clinic: Asha registers twice on each route, the
    second time under a longer name. *)
Lemma second_registration_after_creation_example :
  (exists p,
     fst (run Sample.env (registerRoute (Sample.registration "Asha"))
              Sample.start)
     = json 200 (RegisteredBody (summaryOf p))
     /\ fst (run Sample.env (registerRoute (Sample.registration "Asha K"))
                 (snd (run Sample.env
                           (registerRoute (Sample.registration "Asha"))
                           Sample.start)))
        = json 409 (AlreadyRegisteredBody "Patient already registered"
                      (summaryOf p)))
  /\ (exists p,
        fst (run Sample.env (patientsRoute (Sample.registration "Asha"))
                 Sample.start)
        = json 200 (PatientBody p)
        /\ map patientId
             (withEmail (Some "asha@example.org")
                (patients
                   (store
                      (snd (run Sample.env
                              (patientsRoute (Sample.registration "Asha K"))
                              (snd (run Sample.env
                                      (patientsRoute
                                         (Sample.registration "Asha"))
                                      Sample.start)))))))
           = [patientId p]).
Proof.
  destruct (second_registration_after_creation Sample.env
              (fun n => eq_refl)) as [Hreg Hpat].
  split.
  - destruct (Hreg Sample.start (Sample.registration "Asha")
                (Sample.registration "Asha K")
                eq_refl eq_refl eq_refl eq_refl eq_refl eq_refl eq_refl)
      as (p & Hfirst & _ & _ & _ & _ & Hsecond).
    exists p. split; [exact Hfirst|]. exact (Hsecond (or_intror eq_refl)).
  - destruct (Hpat Sample.start (Sample.registration "Asha")
                (Sample.registration "Asha K") eq_refl eq_refl eq_refl)
      as (p & Hfirst & _ & _ & Hids & _).
    exists p. split; [exact Hfirst | exact Hids].
Defined.

(** C9 on a code issued at time 1000: the mistyped submission is
    refused, the correct one accepted, the repeat refused. *)
Lemma C9_witness :
  map (fun r => Otp.valid (snd r))
      (Otp.verdictsFor "asha@example.org" Sample.submissions
         (Otp.storeOTP 1000 "asha@example.org" "123456" ∅))
  = [false; true; false]
  /\ forall j r,
       j <> 1%nat ->
       Otp.verdictsFor "asha@example.org" Sample.submissions
         (Otp.storeOTP 1000 "asha@example.org" "123456" ∅) !! j = Some r ->
       Otp.valid (snd r) = false.
Proof.
  split; [vm_compute; reflexivity|].
  assert (Hno : forallb (fun tev => negb (Otp.issues "asha@example.org" tev))
                        Sample.submissions = true)
    by (vm_compute; reflexivity).
  assert (Hsecond :
            Otp.verdictsFor "asha@example.org" Sample.submissions
              (Otp.storeOTP 1000 "asha@example.org" "123456" ∅) !! 1%nat
            = Some (3000, "123456",
                    {| Otp.valid := true;
                       Otp.message := "OTP verified successfully";
                       Otp.remainingAttempts := None |}))
    by (vm_compute; reflexivity).
  destruct C9_passcode_single_use as (_ & _ & Hrun).
  exact (proj2 (proj2 (proj2
           (Hrun 1000 "asha@example.org" "123456" ∅ Sample.submissions
              Hno 1%nat 3000 "123456" _ Hsecond eq_refl)))).
Defined.

End Instances.

(* ===================================================================== *)
(** * Further properties: one-time passcodes                              *)
(* ===================================================================== *)
Section PasscodeBudget.
Import Otp Readings.

Lemma verdictsFor_submit email now code rest (st : gmap string Entry) :
  verdictsFor email ((now, Submit email code) :: rest) st
  = (now, code, fst (verifyOTP now email code st))
    :: verdictsFor email rest (snd (verifyOTP now email code st)).
Proof.
  cbn [verdictsFor step].
  destruct (verifyOTP now email code st) as [v st'].
  rewrite String.eqb_refl. reflexivity.
Qed.

(** A run of wrong codes against a stored entry with budget left: each is
    refused with the count of attempts left, and the entry stays. *)
Lemma wrong_codes_refused email tries :
  forall (st : gmap string Entry) e rest,
    st !! email = Some e ->
    attempts e + Z.of_nat (length tries) <= 5 ->
    Forall (fun tc => fst tc <= expiryTime e /\ snd tc <> otp e) tries ->
    exists st',
      verdictsFor email (submissionsOf email tries ++ rest) st
      = (refusals (attempts e) tries ++ verdictsFor email rest st')%list
      /\ st' !! email
         = Some {| otp := otp e; expiryTime := expiryTime e;
                   attempts := attempts e + Z.of_nat (length tries) |}.
Proof.
  induction tries as [|[t c] tries IH]; intros st e rest Hst Hbudget Hall.
  - exists st. split; [reflexivity|]. rewrite Hst. destruct e; cbn.
    do 2 f_equal. lia.
  - inversion Hall as [|? ? [Ht Hc] Hall']; subst. cbn in Ht, Hc.
    cbn [length] in Hbudget.
    cbn [submissionsOf map app fst snd]. rewrite verdictsFor_submit.
    rewrite (verifyOTP_wrong t email c st e Hst Ht ltac:(lia)
               ltac:(congruence)).
    cbn [fst snd].
    edestruct (IH (<[email := {| otp := otp e; expiryTime := expiryTime e;
                                 attempts := attempts e + 1 |}]> st)
                  _ rest (lookup_insert_eq st email _))
      as (st' & Hrun & Hst'); [cbn; lia | exact Hall' |].
    fold (submissionsOf email tries). rewrite Hrun. cbn in Hst' |- *.
    exists st'. split; [reflexivity|]. rewrite Hst'. do 2 f_equal. lia.
Qed.

(** X1: a code issued for an address, whatever was stored for it before,
    tolerates up to four wrong submissions made before it expires: each
    is refused with "Invalid OTP" and the count of attempts left (4, 3,
    2, 1), and the issued code is still accepted afterwards, up to and
    including the instant of expiry. *)
Theorem otp_four_mistakes_allowed
    (st : gmap string Entry) issuedAt email issued tries now :
  (length tries <= 4)%nat ->
  Forall (fun tc => fst tc <= issuedAt + OTP_EXPIRY_TIME
                    /\ snd tc <> issued) tries ->
  now <= issuedAt + OTP_EXPIRY_TIME ->
  verdictsFor email
    (submissionsOf email tries ++ [(now, Submit email issued)])
    (storeOTP issuedAt email issued st)
  = (refusals 0 tries ++ [(now, issued, accepted)])%list.
Proof.
  intros Hlen Hall Hnow.
  destruct (wrong_codes_refused email tries
              (storeOTP issuedAt email issued st) _
              [(now, Submit email issued)]
              (lookup_insert_eq st email _)
              ltac:(cbn; lia) Hall) as (st' & Hrun & Hst').
  rewrite Hrun. cbn [attempts]. f_equal.
  rewrite verdictsFor_submit. cbn [verdictsFor]. do 2 f_equal.
  unfold verifyOTP. rewrite Hst'. cbn [expiryTime attempts otp].
  destruct (Z.ltb_spec (issuedAt + OTP_EXPIRY_TIME) now); [lia|].
  destruct (Z.leb_spec 5 (0 + Z.of_nat (length tries))); [lia|].
  rewrite String.eqb_refl. reflexivity.
Qed.

(** X2: the fifth wrong submission uses the budget up: the next
    submission made before expiry is refused with "Maximum OTP
    verification attempts exceeded" even when it carries the issued code,
    the entry is removed, and a further submission finds nothing. *)
Theorem otp_fifth_mistake_locks_out
    (st : gmap string Entry) issuedAt email issued tries now code
    later code' :
  length tries = 5%nat ->
  Forall (fun tc => fst tc <= issuedAt + OTP_EXPIRY_TIME
                    /\ snd tc <> issued) tries ->
  now <= issuedAt + OTP_EXPIRY_TIME ->
  verdictsFor email
    (submissionsOf email tries
     ++ [(now, Submit email code); (later, Submit email code')])
    (storeOTP issuedAt email issued st)
  = (refusals 0 tries
     ++ [(now, code, exhausted); (later, code', notFound)])%list.
Proof.
  intros Hlen Hall Hnow.
  destruct (wrong_codes_refused email tries
              (storeOTP issuedAt email issued st) _
              [(now, Submit email code); (later, Submit email code')]
              (lookup_insert_eq st email _)
              ltac:(cbn; lia) Hall) as (st' & Hrun & Hst').
  rewrite Hrun. cbn [attempts]. f_equal.
  rewrite verdictsFor_submit.
  assert (Hfirst : verifyOTP now email code st'
                   = (exhausted, delete email st')).
  { unfold verifyOTP. rewrite Hst'. cbn [expiryTime attempts otp].
    destruct (Z.ltb_spec (issuedAt + OTP_EXPIRY_TIME) now); [lia|].
    destruct (Z.leb_spec 5 (0 + Z.of_nat (length tries))); [|lia].
    reflexivity. }
  rewrite Hfirst. cbn [fst snd]. rewrite verdictsFor_submit.
  unfold verifyOTP at 1 2. rewrite lookup_delete_eq. reflexivity.
Qed.

(** X3: a submission made after the five minutes is refused with "OTP
    has expired" even when it carries the issued code, the entry is
    removed, and a further submission finds nothing. *)
Theorem otp_expired_code_refused
    (st : gmap string Entry) issuedAt email issued now code later code' :
  issuedAt + OTP_EXPIRY_TIME < now ->
  verdictsFor email
    [(now, Submit email code); (later, Submit email code')]
    (storeOTP issuedAt email issued st)
  = [(now, code, expired); (later, code', notFound)].
Proof.
  intros Hnow. rewrite verdictsFor_submit.
  assert (Hfirst : verifyOTP now email code
                     (storeOTP issuedAt email issued st)
                   = (expired, delete email
                                 (storeOTP issuedAt email issued st))).
  { unfold verifyOTP, storeOTP. rewrite lookup_insert_eq.
    cbn [expiryTime].
    destruct (Z.ltb_spec (issuedAt + OTP_EXPIRY_TIME) now); [|lia].
    reflexivity. }
  rewrite Hfirst. cbn [fst snd]. rewrite verdictsFor_submit.
  unfold verifyOTP at 1 2. rewrite lookup_delete_eq. reflexivity.
Qed.

(** X4: the clean-up timer removes whatever is stored for its address
    when it fires.  A code issued again before the timer of an earlier
    issue fires is therefore lost when that timer fires: the newer code,
    however fresh, is then refused as not found. *)
Theorem otp_old_timer_removes_new_code
    (st : gmap string Entry) email reissuedAt reissued firedAt now :
  verdictsFor email
    [(reissuedAt, Issue email reissued); (firedAt, TimerFires email);
     (now, Submit email reissued)] st
  = [(now, reissued, notFound)]
  /\ cleanup email (storeOTP reissuedAt email reissued st) !! email = None.
Proof.
  assert (Hgone : cleanup email (storeOTP reissuedAt email reissued st)
                  !! email = None).
  { rewrite cleanup_lookup. case_decide; [reflexivity|contradiction]. }
  split; [|exact Hgone].
  cbn [verdictsFor step]. fold (verdictsFor email).
  change (verdictsFor email [(now, Submit email reissued)]
            (cleanup email (storeOTP reissuedAt email reissued st))
          = [(now, reissued, notFound)]).
  rewrite verdictsFor_submit. unfold verifyOTP. rewrite Hgone. reflexivity.
Qed.

End PasscodeBudget.

Section PasscodeStatus.
Import Otp OtpStatus Readings.

Lemma ceilSeconds_pos a : 0 < ceilSeconds a <-> 0 < a.
Proof.
  unfold ceilSeconds.
  pose proof (Z.div_mod (- a) 1000 ltac:(lia)).
  pose proof (Z.mod_pos_bound (- a) 1000 ltac:(lia)). lia.
Qed.

Lemma ceilSeconds_le a b : a <= 1000 * b -> ceilSeconds a <= b.
Proof.
  unfold ceilSeconds. intros H.
  pose proof (Z.div_mod (- a) 1000 ltac:(lia)).
  pose proof (Z.mod_pos_bound (- a) 1000 ltac:(lia)). lia.
Qed.

(** X5: [getOTPStatus] reports on an entry without touching it: [null]
    exactly when nothing is stored; for a code issued at [issuedAt] and
    looked at later, between 0 and 300 seconds left, 0 exactly from the
    instant of expiry on (the entry is still reported then); and whenever
    it reports time left and fewer than 5 attempts, submitting the stored
    code at that moment is accepted. *)
Theorem otp_status_agrees_with_verify :
  (forall now email (st : gmap string Entry),
     getOTPStatus now email st = None <-> st !! email = None)
  /\ (forall (st : gmap string Entry) issuedAt email code now,
        issuedAt <= now ->
        exists s,
          getOTPStatus now email (storeOTP issuedAt email code st) = Some s
          /\ attemptsMade s = 0
          /\ 0 <= remainingTime s <= 300
          /\ (remainingTime s = 0 <-> issuedAt + OTP_EXPIRY_TIME <= now))
  /\ (forall now email (st : gmap string Entry) s,
        getOTPStatus now email st = Some s ->
        0 < remainingTime s ->
        attemptsMade s < maxAttempts s ->
        exists e,
          st !! email = Some e
          /\ verifyOTP now email (otp e) st = (accepted, delete email st)).
Proof.
  split; [|split].
  - intros now email st. unfold getOTPStatus.
    destruct (st !! email); split; intros; congruence.
  - intros st issuedAt email code now Hnow. unfold getOTPStatus, storeOTP.
    rewrite lookup_insert_eq. eexists. split; [reflexivity|].
    cbn [attemptsMade remainingTime expiryTime attempts].
    split; [reflexivity|].
    pose proof (ceilSeconds_pos (issuedAt + OTP_EXPIRY_TIME - now)).
    pose proof (ceilSeconds_le (issuedAt + OTP_EXPIRY_TIME - now) 300
                  ltac:(unfold OTP_EXPIRY_TIME; lia)).
    unfold OTP_EXPIRY_TIME in *. lia.
  - intros now email st s Hs Hleft Hbudget. unfold getOTPStatus in Hs.
    destruct (st !! email) as [e|] eqn:He; [|discriminate].
    injection Hs as <-. cbn in Hleft, Hbudget.
    exists e. split; [reflexivity|].
    assert (Hceil : 0 < ceilSeconds (expiryTime e - now)) by lia.
    pose proof (proj1 (ceilSeconds_pos _) Hceil).
    unfold verifyOTP. rewrite He.
    destruct (Z.ltb_spec (expiryTime e) now); [lia|].
    destruct (Z.leb_spec 5 (attempts e)); [lia|].
    rewrite String.eqb_refl. reflexivity.
Qed.

End PasscodeStatus.

(* ===================================================================== *)
(** * Further properties: the digits of a generated passcode              *)
(* ===================================================================== *)
From Stdlib Require DecimalPos.

Section PasscodeDigits.

Lemma isDigit_bounds c : Js.isDigit c = true -> 0 <= Js.digitVal c <= 9.
Proof.
  unfold Js.isDigit, Js.digitVal. intros [H1 H2]%andb_prop.
  apply Z.leb_le in H1, H2. lia.
Qed.

(** A string of digits read after [acc] gives a number between
    [acc] followed by zeros and [acc] followed by nines. *)
Lemma digitsFrom_bounds s :
  forall acc v,
    0 <= acc -> Js.digitsFrom acc s = Some v ->
    acc * 10 ^ Z.of_nat (String.length s) <= v
    < (acc + 1) * 10 ^ Z.of_nat (String.length s).
Proof.
  induction s as [|c s IH]; intros acc v Hacc H.
  - cbn in H. injection H as <-. cbn. lia.
  - cbn [Js.digitsFrom] in H.
    destruct (Js.isDigit c) eqn:Hc; [|discriminate].
    pose proof (isDigit_bounds c Hc) as Hd.
    assert (Hacc' : 0 <= 10 * acc + Js.digitVal c) by lia.
    specialize (IH _ _ Hacc' H).
    cbn [String.length]. rewrite Nat2Z.inj_succ, Z.pow_succ_r by lia.
    assert (0 < 10 ^ Z.of_nat (String.length s))
      by (apply Z.pow_pos_nonneg; lia).
    nia.
Qed.

Lemma digitsFrom_of_uint_acc d :
  forall acc,
    Js.digitsFrom (Z.pos acc) (NilEmpty.string_of_uint d)
    = Some (Z.pos (Pos.of_uint_acc d acc)).
Proof.
  induction d; intros acc; cbn [NilEmpty.string_of_uint Pos.of_uint_acc];
    [reflexivity|..];
    cbn [Js.digitsFrom];
    match goal with
    | |- context [Js.isDigit ?c] => change (Js.isDigit c) with true
    end;
    cbv iota; rewrite <- IHd; f_equal; unfold Js.digitVal, Js.codeOf;
    cbn [N_of_ascii N_of_digits Z.of_N]; lia.
Qed.

Lemma digitsFrom_of_uint d :
  Js.digitsFrom 0 (NilEmpty.string_of_uint d)
  = Some (Z.of_N (Pos.of_uint d)).
Proof.
  induction d; cbn [NilEmpty.string_of_uint Pos.of_uint];
    [reflexivity|..];
    cbn [Js.digitsFrom];
    match goal with
    | |- context [Js.isDigit ?c] => change (Js.isDigit c) with true
    end;
    cbv iota;
    first [ exact IHd | apply digitsFrom_of_uint_acc ].
Qed.

Lemma toString_pos p :
  Js.toString (Z.pos p) = NilEmpty.string_of_uint (Pos.to_uint p).
Proof.
  unfold Js.toString. cbn [Z.to_int NilZero.string_of_int].
  pose proof (DecimalPos.Unsigned.to_uint_nonnil p) as Hnil.
  destruct (Pos.to_uint p); [contradiction|..]; reflexivity.
Qed.

(** [Number(n.toString())] is [n] for a natural number [n]. *)
Lemma Number_toString r : 0 <= r -> Js.Number (Js.toString r) = Some r.
Proof.
  intros Hr. destruct r as [|p|p]; [reflexivity| |lia].
  rewrite toString_pos. unfold Js.Number. rewrite digitsFrom_of_uint.
  rewrite DecimalPos.Unsigned.of_to. reflexivity.
Qed.

Lemma nzhead_not_D0 d d' : Decimal.nzhead d <> Decimal.D0 d'.
Proof. induction d; cbn; try discriminate. exact IHd. Qed.

(** The numeral of a positive number does not start with a zero. *)
Lemma to_uint_head p :
  exists c rest,
    NilEmpty.string_of_uint (Pos.to_uint p) = String c rest
    /\ Js.isDigit c = true /\ 1 <= Js.digitVal c.
Proof.
  pose proof (DecimalPos.Unsigned.to_uint_nonnil p) as Hnil.
  pose proof (DecimalPos.Unsigned.to_uint_nonzero p) as Hzero.
  pose proof (DecimalPos.Unsigned.to_of (Pos.to_uint p)) as Hnorm.
  rewrite DecimalPos.Unsigned.of_to in Hnorm. cbn [N.to_uint] in Hnorm.
  destruct (Pos.to_uint p) as [|d|d|d|d|d|d|d|d|d|d];
    [contradiction| |
     eexists _, _; split; [reflexivity|]; split; [reflexivity|];
     vm_compute; discriminate ..].
  exfalso. unfold Decimal.unorm in Hnorm. cbn [Decimal.nzhead] in Hnorm.
  destruct (Decimal.nzhead d) eqn:Hd.
  - injection Hnorm as Hn. apply Hzero. f_equal. exact Hn.
  - exact (nzhead_not_D0 d _ Hd).
  - discriminate.
  - discriminate.
  - discriminate.
  - discriminate.
  - discriminate.
  - discriminate.
  - discriminate.
  - discriminate.
  - discriminate.
Qed.

(** X27: a generated passcode has six digits.  For every number the
    generator can draw (100000 up to, but not including, 999999),
    [generateOTP] gives a string of exactly six characters, all decimal
    digits, that reads back as the number drawn; so different draws give
    different codes. *)
Theorem generated_otp_has_six_digits (r : Z) :
  100000 <= r < 999999 ->
  String.length (Otp.generateOTP r) = 6%nat
  /\ Js.Number (Otp.generateOTP r) = Some r
  /\ (forall r', 100000 <= r' < 999999 ->
        Otp.generateOTP r' = Otp.generateOTP r -> r' = r).
Proof.
  intros Hr. unfold Otp.generateOTP.
  assert (Hback : forall x, 0 <= x -> Js.Number (Js.toString x) = Some x)
    by exact Number_toString.
  split; [|split; [apply Hback; lia|]].
  - destruct r as [|p|p]; try lia.
    pose proof (Hback (Z.pos p) ltac:(lia)) as Hnum.
    rewrite toString_pos in *.
    destruct (to_uint_head p) as (c & rest & Hs & Hc & Hlead).
    rewrite Hs in *. unfold Js.Number in Hnum.
    cbn [Js.digitsFrom] in Hnum. rewrite Hc in Hnum.
    pose proof (isDigit_bounds c Hc) as Hd.
    assert (Hacc : 0 <= 10 * 0 + Js.digitVal c) by lia.
    pose proof (digitsFrom_bounds _ _ _ Hacc Hnum) as Hrest.
    cbn [String.length] in *.
    set (n := String.length rest) in *.
    assert (Hpow : forall k : nat, 0 < 10 ^ Z.of_nat k)
      by (intros; apply Z.pow_pos_nonneg; lia).
    destruct (Nat.lt_trichotomy n 5) as [Hlt | [Heq | Hgt]].
    + exfalso.
      assert (Hsmall : 10 ^ Z.of_nat (S n) <= 10 ^ 5)
        by (apply Z.pow_le_mono_r; lia).
      rewrite Nat2Z.inj_succ, Z.pow_succ_r in Hsmall by lia.
      change (10 ^ 5) with 100000 in Hsmall.
      pose proof (Hpow n). nia.
    + rewrite Heq. reflexivity.
    + exfalso.
      assert (10 ^ 6 <= 10 ^ Z.of_nat n) by (apply Z.pow_le_mono_r; lia).
      change (10 ^ 6) with 1000000 in *.
      pose proof (Hpow n). nia.
  - intros r' Hr' Heq.
    pose proof (Hback r' ltac:(lia)) as H1.
    pose proof (Hback r ltac:(lia)) as H2.
    rewrite Heq in H1. congruence.
Qed.

End PasscodeDigits.

(* ===================================================================== *)
(** * Further properties: slots and labels                                *)
(* ===================================================================== *)
Section SlotsAndLabels.
Import Readings.

Lemma isSlotConflicting_app getTime s e busy busy' appts appts' :
  Slots.isSlotConflicting getTime s e (busy ++ busy') (appts ++ appts')
  = Slots.isSlotConflicting getTime s e busy appts
    || Slots.isSlotConflicting getTime s e busy' appts'.
Proof.
  unfold Slots.isSlotConflicting. rewrite !existsb_app.
  repeat match goal with |- context [existsb ?f ?l] =>
    generalize (existsb f l); intro end.
  repeat match goal with b : bool |- _ => destruct b end; reflexivity.
Qed.

Lemma filter_weaker_sublist {A : Type} (f g : A -> bool) (l : list A) :
  (forall x, f x = true -> g x = true) ->
  sublist (List.filter f l) (List.filter g l).
Proof.
  intros Hfg. induction l as [|x l IH]; cbn; [constructor|].
  destruct (f x) eqn:Hf.
  - rewrite (Hfg x Hf). constructor. exact IH.
  - destruct (g x); [constructor|]; exact IH.
Qed.

Lemma sublist_map {A B : Type} (h : A -> B) (l1 l2 : list A) :
  sublist l1 l2 -> sublist (map h l1) (map h l2).
Proof. induction 1; cbn; constructor; assumption. Qed.

(** X6: more busy periods or more appointments can only take slots
    away: the slots returned with further periods and appointments
    supplied are a sublist, in order, of those returned without them. *)
Theorem more_conflicts_fewer_slots
    getTime (day workStart workEnd : string)
    (busy busy' : list BusyPeriod) (appts appts' : list Appointment) :
  sublist
    (Slots.generateAvailableSlots getTime day workStart workEnd
       (busy ++ busy') (appts ++ appts'))
    (Slots.generateAvailableSlots getTime day workStart workEnd busy appts)
  /\ (length (Slots.generateAvailableSlots getTime day workStart workEnd
                (busy ++ busy') (appts ++ appts'))
      <= length (Slots.generateAvailableSlots getTime day workStart workEnd
                   busy appts))%nat.
Proof.
  assert (Hsub : sublist
    (Slots.generateAvailableSlots getTime day workStart workEnd
       (busy ++ busy') (appts ++ appts'))
    (Slots.generateAvailableSlots getTime day workStart workEnd busy appts)).
  { unfold Slots.generateAvailableSlots.
    destruct (Slots.parseClock workStart) as [a|]; [|constructor].
    destruct (Slots.parseClock workEnd) as [b|]; [|constructor].
    rewrite !generateFromMinutes_closed.
    apply sublist_map, filter_weaker_sublist.
    intros m. unfold Slots.isAvailable.
    rewrite isSlotConflicting_app, negb_orb.
    intros [H _]%andb_prop. exact H. }
  split; [exact Hsub|]. apply sublist_length, Hsub.
Qed.

Lemma overlaps_unreadable aStart aEnd bStart bEnd :
  bStart = None \/ bEnd = None ->
  Slots.overlaps aStart aEnd bStart bEnd = false.
Proof.
  unfold Slots.overlaps, Js.gt, Js.lt.
  intros [-> | ->]; destruct aStart, aEnd; try destruct bStart;
    try destruct bEnd; cbn; rewrite ?andb_false_r; reflexivity.
Qed.

Lemma existsb_all_false {A : Type} (f : A -> bool) (l : list A) :
  (forall x, In x l -> f x = false) -> existsb f l = false.
Proof.
  intros H. apply not_true_is_false. intros (x & Hin & Hx)%existsb_exists.
  rewrite (H x Hin) in Hx. discriminate.
Qed.

(** X28: what cannot be read as a time never blocks a slot.  Busy
    periods whose start or end the runtime cannot read, and appointments
    stored without a start or an end, are ignored by the slot scan:
    with them or without them [generateAvailableSlots] returns the same
    slots; and such an appointment matches no conflict query of the
    booking route. *)
Theorem unreadable_times_never_block
    getTime (day workStart workEnd : string)
    (busy unreadable : list BusyPeriod) (appts undated : list Appointment) :
  (forall b, In b unreadable ->
     getTime (busyStart b) = None \/ getTime (busyEnd b) = None) ->
  (forall a, In a undated ->
     startDateTime a = None \/ endDateTime a = None) ->
  Slots.generateAvailableSlots getTime day workStart workEnd
    (busy ++ unreadable) (appts ++ undated)
  = Slots.generateAvailableSlots getTime day workStart workEnd busy appts
  /\ (forall a doctorId startT endT,
        In a undated ->
        Effects.conflictsWith doctorId startT endT a = false).
Proof.
  intros Hbusy Happts. split.
  - unfold Slots.generateAvailableSlots.
    destruct (Slots.parseClock workStart) as [m0|]; [|reflexivity].
    destruct (Slots.parseClock workEnd) as [m1|]; [|reflexivity].
    rewrite !generateFromMinutes_closed. f_equal.
    apply filter_ext. intros m. unfold Slots.isAvailable. f_equal.
    rewrite isSlotConflicting_app.
    replace (Slots.isSlotConflicting getTime _ _ unreadable undated)
      with false; [apply orb_false_r|].
    symmetry. unfold Slots.isSlotConflicting. apply orb_false_iff. split.
    + apply existsb_all_false. intros b Hb.
      apply overlaps_unreadable, Hbusy, Hb.
    + apply existsb_all_false. intros a Ha.
      apply overlaps_unreadable, Happts, Ha.
  - intros a doctorId startT endT Ha. rewrite conflictsWith_overlaps.
    rewrite (overlaps_unreadable _ _ _ _ (Happts a Ha)).
    apply andb_false_r.
Qed.

Lemma append_cancel_l (a x y : string) : a ++ x = a ++ y -> x = y.
Proof.
  induction a as [|c a IH]; cbn; [auto|].
  intros [= H]. exact (IH H).
Qed.

Lemma reads_in_day :
  forallb readsAsExpected (map Z.of_nat (seq 0 1411)) = true.
Proof. vm_compute. reflexivity. Qed.

(** X7: for every candidate of a day, whatever minute it starts at, the
    booking route reads its label and recovers the candidate's start; the
    end it derives is the candidate's end exactly when the candidate
    starts on a half hour. *)
Theorem label_end_read_back_iff_half_hour (day : string) (m : Z) :
  0 <= m -> m + 30 <= 1440 ->
  exists startRead endRead,
    Label.bookingInterval day (time (Slots.slotAt day m))
    = Some (startRead, endRead)
    /\ startRead = startISO (Slots.slotAt day m)
    /\ (endRead = endISO (Slots.slotAt day m) <-> m mod 30 = 0).
Proof.
  intros H0 H1.
  pose proof reads_in_day as Hall. rewrite forallb_forall in Hall.
  specialize (Hall m (in_day_listed m 1411 ltac:(lia))).
  unfold readsAsExpected, readsOf in Hall.
  unfold Label.bookingInterval.
  change (time (Slots.slotAt day m)) with (time (Slots.slotAt "" m)).
  destruct (Label.timeMatch _) as [groups|]; [|discriminate].
  destruct (Label.timesOfMatch groups) as [s e].
  destruct (String.eqb_spec ("T" ++ s ++ "+05:30")
              ("T" ++ Slots.clockLabel m ++ ":00+05:30")) as [Hs|];
    [|discriminate].
  eexists _, _. split; [reflexivity|]. split.
  - cbn [Slots.slotAt startISO]. f_equal. exact Hs.
  - cbn [Slots.slotAt endISO].
    destruct (String.eqb_spec ("T" ++ e ++ "+05:30")
                ("T" ++ Slots.clockLabel (m + 30) ++ ":00+05:30"))
      as [He|He];
      destruct (Z.eqb_spec (m mod 30) 0) as [Hm|Hm]; try discriminate.
    + split; [intros _; exact Hm | intros _; f_equal; exact He].
    + split; [|contradiction].
      intros Heq. apply append_cancel_l in Heq. contradiction.
Qed.

(** X8: the "HH:MM" fields of a slot of the day parse back to the
    slot's minute offsets, so the generator run on a slot's own
    [startTime] and [endTime] returns that slot alone. *)
Theorem slot_times_parse_back getTime (day : string) (m : Z) :
  0 <= m -> m + 30 <= 1440 ->
  Slots.parseClock (startTime (Slots.slotAt day m)) = Some m
  /\ Slots.parseClock (endTime (Slots.slotAt day m)) = Some (m + 30)
  /\ Slots.generateAvailableSlots getTime day
       (startTime (Slots.slotAt day m)) (endTime (Slots.slotAt day m)) [] []
     = [Slots.slotAt day m].
Proof.
  intros H0 H1.
  pose proof clocks_in_day as Hall. rewrite forallb_forall in Hall.
  assert (Hclock : forall k, 0 <= k <= 1440 ->
            Slots.parseClock (Slots.clockLabel k) = Some k).
  { intros k Hk. specialize (Hall k (in_day_listed k 1441 ltac:(lia))).
    unfold clockParsesBack in Hall.
    destruct (Slots.parseClock (Slots.clockLabel k)) as [k'|];
      [|discriminate].
    apply Z.eqb_eq in Hall. congruence. }
  assert (Hs : Slots.parseClock (startTime (Slots.slotAt day m)) = Some m)
    by (apply Hclock; lia).
  assert (He : Slots.parseClock (endTime (Slots.slotAt day m))
               = Some (m + 30)) by (apply Hclock; lia).
  split; [exact Hs|]. split; [exact He|].
  unfold Slots.generateAvailableSlots. rewrite Hs, He.
  rewrite generateFromMinutes_unfold.
  destruct (Z.leb_spec (m + 30) (m + 30)); [|lia].
  rewrite isAvailable_unconstrained.
  rewrite generateFromMinutes_unfold.
  destruct (Z.leb_spec (m + 30 + 30) (m + 30)); [lia|]. reflexivity.
Qed.

Lemma ends_in_day :
  forallb derivesEnd (map Z.of_nat (seq 0 1411)) = true.
Proof. vm_compute. reflexivity. Qed.

(** X24: the interval the booking route derives from a slot's label.
    For every candidate of a day starting at minute [m], the derived
    start is the slot's start and the derived end is the clock time
    [derivedEnd m]: the next full hour when the start minute is 30,
    half past the start's hour otherwise.  So the derived interval is
    the slot's own 30 minutes exactly on the half hours, is shorter
    than 30 minutes for a start minute under 30, and ends before it
    starts for a start minute over 30. *)
Theorem derived_interval_of_label (day : string) (m : Z) :
  0 <= m -> m + 30 <= 1440 ->
  Label.bookingInterval day (time (Slots.slotAt day m))
  = Some (startISO (Slots.slotAt day m),
          day ++ "T" ++ Slots.clockLabel (derivedEnd m) ++ ":00+05:30")
  /\ (derivedEnd m = m + 30 <-> m mod 30 = 0)
  /\ (m mod 60 < 30 -> m < derivedEnd m <= m + 30)
  /\ (30 < m mod 60 -> derivedEnd m < m).
Proof.
  intros H0 H1. split.
  - pose proof reads_in_day as Hstart. rewrite forallb_forall in Hstart.
    specialize (Hstart m (in_day_listed m 1411 ltac:(lia))).
    pose proof ends_in_day as Hend. rewrite forallb_forall in Hend.
    specialize (Hend m (in_day_listed m 1411 ltac:(lia))).
    unfold readsAsExpected, readsOf in Hstart. unfold derivesEnd in Hend.
    unfold Label.bookingInterval.
    change (time (Slots.slotAt day m)) with (time (Slots.slotAt "" m)).
    destruct (Label.timeMatch _) as [groups|]; [|discriminate].
    destruct (Label.timesOfMatch groups) as [s e]. cbn [snd] in Hend.
    destruct (String.eqb_spec ("T" ++ s ++ "+05:30")
                ("T" ++ Slots.clockLabel m ++ ":00+05:30")) as [Hs|];
      [|discriminate].
    apply String.eqb_eq in Hend.
    cbn [Slots.slotAt startISO]. do 2 f_equal.
    + f_equal. exact Hs.
    + f_equal. exact Hend.
  - unfold derivedEnd. rewrite Z.rem_mod_nonneg by lia.
    pose proof (Z.div_mod m 60 ltac:(lia)).
    pose proof (Z.mod_pos_bound m 60 ltac:(lia)).
    pose proof (Z.div_mod m 30 ltac:(lia)).
    pose proof (Z.mod_pos_bound m 30 ltac:(lia)).
    assert (Hmm : m mod 30 = (m mod 60) mod 30).
    { replace m with (m mod 60 + (2 * (m / 60)) * 30) at 1 by lia.
      apply Z.mod_add. lia. }
    pose proof (Z.div_mod (m mod 60) 30 ltac:(lia)).
    pose proof (Z.mod_pos_bound (m mod 60) 30 ltac:(lia)).
    destruct (Z.eqb_spec (m mod 60) 30) as [He|He]; repeat split; lia.
Qed.

Lemma labels_in_day :
  forallb (fun m => Notions.isLabel (time (Slots.slotAt "" m)))
          (map Z.of_nat (seq 0 1411)) = true.
Proof. vm_compute. reflexivity. Qed.

(** X23: every label the generator builds for a slot of the day has
    the shape "HH:MM AM - HH:MM PM": nineteen characters, two clock
    times of two digits, a colon, two digits, a blank and AM or PM,
    joined by " - ". *)
Theorem slot_labels_are_well_formed (day : string) (m : Z) :
  0 <= m -> m + 30 <= 1440 ->
  Notions.isLabel (time (Slots.slotAt day m)) = true
  /\ String.length (time (Slots.slotAt day m)) = 19%nat.
Proof.
  intros H0 H1.
  pose proof labels_in_day as Hall. rewrite forallb_forall in Hall.
  specialize (Hall m (in_day_listed m 1411 ltac:(lia))).
  change (time (Slots.slotAt "" m)) with (time (Slots.slotAt day m)) in Hall.
  split; [exact Hall|].
  unfold Notions.isLabel in Hall.
  repeat (apply andb_prop in Hall as [Hall _]).
  apply Nat.eqb_eq in Hall. exact Hall.
Qed.

End SlotsAndLabels.

(* ===================================================================== *)
(** * Further properties: what the routes call and write                  *)
(* ===================================================================== *)
Section RouteOutcomes.
Import Effects Http Notions Api Search Traces Changes Session.

Lemma callsSince_app w w' new :
  calls w' = (calls w ++ new)%list -> callsSince w w' = new.
Proof. intros H. unfold callsSince. rewrite H. apply drop_app_length. Qed.

(** The four ways [sendConfirmationEmail] can go. *)
Lemma run_sendConfirmationEmail_paths env toEmail subject w :
  exists r w' new,
    run env (sendConfirmationEmail toEmail subject) w = (r, w')
    /\ store w' = store w
    /\ calls w' = (calls w ++ new)%list
    /\ ((Js.truthy toEmail = false
         /\ r = Returned (EmailSkipped "No recipient email") /\ new = [])
        \/ (Js.truthy toEmail = true
            /\ Js.truthy (processEnv env "SMTP_HOST") = false
            /\ r = Returned (EmailSkipped "SMTP not configured")
            /\ new = [ProcessEnv])
        \/ (Js.truthy toEmail = true
            /\ Js.truthy (processEnv env "SMTP_HOST") = true
            /\ Js.truthy (processEnv env "SMTP_USER")
               && Js.truthy (processEnv env "SMTP_PASS") = false
            /\ r = Thrown ("SMTP configuration incomplete. Missing: "
                           ++ String.concat ", "
                                (missingSettings
                                   (processEnv env "SMTP_HOST")
                                   (processEnv env "SMTP_USER")
                                   (processEnv env "SMTP_PASS")))
            /\ new = [ProcessEnv; ProcessEnv; ProcessEnv; ProcessEnv])
        \/ (mailConfigured env toEmail = true
            /\ r = match smtpAt env (4 + tick w) with
                   | Returned messageId => Returned (EmailSent messageId)
                   | Thrown m => Thrown m
                   end
            /\ new = [ProcessEnv; ProcessEnv; ProcessEnv; ProcessEnv;
                      MailTransport])).
Proof.
  unfold sendConfirmationEmail, mailConfigured.
  destruct (Js.truthy toEmail) eqn:Hto; cbn [negb].
  2: { eexists _, _, []. split; [reflexivity|]. split; [reflexivity|].
       split; [symmetry; apply app_nil_r|]. left. auto. }
  cbn [run handle answer].
  destruct (Js.truthy (processEnv env "SMTP_HOST")) eqn:Hhost; cbn [negb].
  2: { eexists _, _, _. split; [reflexivity|]. split; [reflexivity|].
       split; [reflexivity|]. right; left. auto. }
  rewrite run_bind. unfold getTransporter. cbn [run handle answer tick store].
  rewrite Hhost. cbn [negb orb andb].
  destruct (Js.truthy (processEnv env "SMTP_USER")); cbn [negb orb andb].
  2: { eexists _, _, _. split; [reflexivity|]. split; [reflexivity|].
       split; [cbn [calls]; rewrite <- !app_assoc; reflexivity|].
       right; right; left. auto. }
  destruct (Js.truthy (processEnv env "SMTP_PASS")); cbn [negb orb andb].
  2: { eexists _, _, _. split; [reflexivity|]. split; [reflexivity|].
       split; [cbn [calls]; rewrite <- !app_assoc; reflexivity|].
       right; right; left. auto. }
  cbn [run handle answer tick store calls].
  change (4 + tick w)%nat with (S (S (S (S (tick w))))).
  destruct (smtpAt env _) as [messageId|m];
    (eexists _, _, _; split; [reflexivity|]; split; [reflexivity|];
     split; [cbn [calls]; rewrite <- !app_assoc; reflexivity|];
     right; right; right; auto).
Qed.

Lemma run_bookNotify_paths env doctor patient date a ev w :
  exists st w' mail,
    run env (bookNotify doctor patient date a ev) w
    = (ok (BookedBody (appointmentId a) (status a) (summaryOf patient) st
             (htmlLink ev)), w')
    /\ store w' = store w
    /\ calls w' = (calls w ++ mail)%list
    /\ callsTo CalendarInsert mail = O
    /\ callsTo MailTransport mail
       = if mailConfigured env (p_email patient) then 1%nat else O.
Proof.
  unfold bookNotify.
  destruct (Js.truthy (p_email patient)) eqn:Hmail.
  2: { eexists _, _, []. split; [reflexivity|]. split; [reflexivity|].
       split; [symmetry; apply app_nil_r|]. split; [reflexivity|].
       unfold mailConfigured. rewrite Hmail. reflexivity. }
  rewrite run_bind.
  destruct (run_sendConfirmationEmail_paths env (p_email patient)
              ("Appointment Confirmed: " ++ d_name doctor ++ " on " ++ date) w)
    as (r & w' & mail & Hrun & Hstore & Hcalls & Hpath).
  rewrite Hrun.
  assert (Hmailcalls : callsTo CalendarInsert mail = O
            /\ callsTo MailTransport mail
               = if mailConfigured env (p_email patient) then 1%nat else O).
  { unfold mailConfigured in *. rewrite Hmail in *.
    destruct Hpath as [(Hto & _) | [(_ & Hh & _ & ->)
                        | [(_ & Hh & Hup & _ & ->) | (Hc & _ & ->)]]].
    - discriminate.
    - rewrite Hh. split; reflexivity.
    - rewrite Hh. cbn [andb]. rewrite Hup. split; reflexivity.
    - rewrite Hc. split; reflexivity. }
  destruct r as [st|m]; cbn [run];
    (eexists _, _, mail; split; [reflexivity|]; split; [exact Hstore|];
     split; [exact Hcalls|]; exact Hmailcalls).
Qed.

Section BookingPaths.
Variable getTime : string -> option Z.
Variable env : Env.

(** The ways the booking route can go once doctor and patient are
    known. *)
Lemma run_bookSlot_paths req doctor patient w :
  exists r w' new,
    run env (bookSlot getTime req doctor patient) w = (r, w')
    /\ calls w' = (calls w ++ new)%list
    /\ patients (store w') = patients (store w)
    /\ doctors (store w') = doctors (store w)
    /\ (((code r = 400 \/ code r = 500) /\ new = []
         /\ appointments (store w') = appointments (store w))
        \/ (code r = 409 /\ new = [AppointmentStore]
            /\ appointments (store w') = appointments (store w))
        \/ (code r = 500
            /\ new = [AppointmentStore; Clock; CalendarInsert; UuidSource;
                      AppointmentStore]
            /\ appointments (store w') = appointments (store w))
        \/ (exists a st link mail,
              r = ok (BookedBody (appointmentId a) "confirmed"
                        (summaryOf patient) st link)
              /\ appointments (store w') = (appointments (store w) ++ [a])%list
              /\ a_patientId a = patientId patient
              /\ a_doctorId a = d_doctorId doctor
              /\ a_date a = Api.str (date req)
              /\ status a = "confirmed"
              /\ new = ([AppointmentStore; Clock; CalendarInsert; UuidSource;
                         AppointmentStore] ++ mail)%list
              /\ callsTo CalendarInsert mail = O
              /\ callsTo MailTransport mail
                 = if mailConfigured env (p_email patient)
                   then 1%nat else O)).
Proof.
  unfold bookSlot.
  destruct (Label.bookingInterval _ _) as [[startISO endISO]|].
  2: { eexists _, _, []. split; [reflexivity|].
       split; [symmetry; apply app_nil_r|]. do 2 (split; [reflexivity|]).
       left. cbn. auto. }
  destruct (getTime endISO) as [endT|].
  2: { eexists _, _, []. split; [reflexivity|].
       split; [symmetry; apply app_nil_r|]. do 2 (split; [reflexivity|]).
       left. cbn. auto. }
  destruct (getTime startISO) as [startT|].
  2: { eexists _, _, []. split; [reflexivity|].
       split; [symmetry; apply app_nil_r|]. do 2 (split; [reflexivity|]).
       left. cbn. auto. }
  cbn [run handle answer].
  destruct (List.find _ (appointments (store w))) as [c|].
  { eexists _, _, _. split; [reflexivity|]. split; [reflexivity|].
    do 2 (split; [reflexivity|]). right; left. cbn. auto. }
  cbn [run handle answer tick store calls].
  unfold handle. cbn [answer tick store calls].
  destruct (writeFaultAt env (S (S (S (S (tick w)))))) as [m|]; cbn [run].
  { eexists _, _, _. split; [reflexivity|].
    split; [cbn [calls]; rewrite <- !app_assoc; reflexivity|].
    do 2 (split; [reflexivity|]). right; right; left. cbn. auto. }
  match goal with
  | |- context [run env (bookNotify ?d ?p ?dt ?a ?ev) ?w1] =>
      destruct (run_bookNotify_paths env d p dt a ev w1)
        as (st & w' & mail & Hrun & Hstore & Hcalls & Hcal & Hsent);
      rewrite Hrun; exists (ok (BookedBody (appointmentId a) (status a)
                                  (summaryOf p) st (htmlLink ev))), w',
        ([AppointmentStore; Clock; CalendarInsert; UuidSource;
          AppointmentStore] ++ mail)%list
  end.
  split; [reflexivity|].
  split; [rewrite Hcalls; cbn [calls]; rewrite <- !app_assoc; reflexivity|].
  rewrite Hstore. do 2 (split; [reflexivity|]).
  right; right; right. eexists _, st, _, mail.
  split; [reflexivity|]. cbn. auto 10.
Qed.

(** The first half of the booking handler: the checks on the request,
    the doctor, and the patient record written before anything is known
    about the time slot. *)
Lemma run_bookHandler_upsert req w :
  (exists r new,
     run env (bookHandler getTime req) w
     = (r, {| store := store w; tick := (tick w + length new)%nat;
              calls := (calls w ++ new)%list |})
     /\ ((code r = 400 /\ new = [] /\ hasRequiredFields req = false)
         \/ (code r = 404 /\ new = [DoctorStore]
             /\ hasRequiredFields req = true
             /\ doctorOf (store w) (Api.str (doctorId req)) = None)
         \/ (code r = 500 /\ hasRequiredFields req = true
             /\ (new = [DoctorStore; PatientStore; UuidSource; PatientStore]
                 \/ new = [DoctorStore; PatientStore; PatientStore])
             /\ exists n m, writeFaultAt env n = Some m)))
  \/ (exists doctor patient w1 pre,
        run env (bookHandler getTime req) w
        = run env (bookSlot getTime req doctor patient) w1
        /\ hasRequiredFields req = true
        /\ doctorOf (store w) (Api.str (doctorId req)) = Some doctor
        /\ calls w1 = (calls w ++ pre)%list
        /\ (pre = [DoctorStore; PatientStore; UuidSource; PatientStore]
            \/ pre = [DoctorStore; PatientStore; PatientStore])
        /\ appointments (store w1) = appointments (store w)
        /\ doctors (store w1) = doctors (store w)
        /\ p_name patient = patientName req
        /\ ((findOne (matchesAny [ByEmail (patientEmail req);
                                  ByPhone (patientPhone req)])
                     (patients (store w)) = None
             /\ patients (store w1) = (patients (store w) ++ [patient])%list
             /\ p_email patient = patientEmail req
             /\ p_phone patient = patientPhone req)
            \/ (exists doc old,
                  findOne (matchesAny [ByEmail (patientEmail req);
                                       ByPhone (patientPhone req)])
                          (patients (store w)) = Some (doc, old)
                  /\ patients (store w1) = <[doc := patient]> (patients (store w))
                  /\ patientId patient = patientId old
                  /\ p_email patient
                     = (if Js.truthy (patientEmail req)
                        then patientEmail req else p_email old)
                  /\ p_phone patient
                     = (if Js.truthy (patientPhone req)
                        then patientPhone req else p_phone old)))).
Proof.
  destruct (hasRequiredFields req) eqn:Hreq.
  2: { left. unfold bookHandler, hasRequiredFields in *.
       destruct (Js.truthy (doctorId req)), (Js.truthy (patientName req)),
         (Js.truthy (date req)), (Js.truthy (timeSlot req));
         cbn in Hreq |- *;
         try (eexists _, []; rewrite app_nil_r, Nat.add_0_r;
              destruct w; split; [reflexivity|]; left; cbn; auto; fail).
       destruct (Js.truthy (patientEmail req)),
         (Js.truthy (patientPhone req));
         cbn in Hreq |- *; try discriminate.
       eexists _, []. rewrite app_nil_r, Nat.add_0_r.
       destruct w; split; [reflexivity|]. left. cbn. auto. }
  pose proof Hreq as Hreq'.
  unfold hasRequiredFields in Hreq.
  repeat (apply andb_prop in Hreq as [Hreq ?]).
  unfold bookHandler, doctorOf.
  repeat match goal with H : Js.truthy _ = true |- _ => rewrite H; clear H
         end.
  cbn [negb orb].
  match goal with H : (_ || _)%bool = true |- _ =>
    apply orb_prop in H;
    replace (negb (Js.truthy (patientEmail req))
             && negb (Js.truthy (patientPhone req)))%bool with false
      by (destruct H as [-> | ->]; cbn; rewrite ?andb_false_r; reflexivity)
  end.
  cbn [run handle answer].
  destruct (List.find _ (doctors (store w))) as [doctor|] eqn:Hdoc.
  2: { left. eexists _, [DoctorStore]. rewrite Nat.add_1_r.
       split; [reflexivity|]. right; left. cbn. auto. }
  cbn [run handle answer tick store calls].
  destruct (findOne _ (patients (store w))) as [[doc old]|] eqn:Hfound;
    cbn [run handle answer tick store calls];
    unfold handle; cbn [answer tick store calls];
    match goal with
    | |- context [writeFaultAt env ?n] =>
        destruct (writeFaultAt env n) as [m|] eqn:Hfault
    end;
    cbn [run].
  - left. eexists _, [DoctorStore; PatientStore; PatientStore].
    rewrite <- !app_assoc.
    replace (tick w + length [DoctorStore; PatientStore; PatientStore])%nat
      with (S (S (S (tick w)))) by (cbn; lia).
    split; [reflexivity|]. right; right. cbn. eauto 10.
  - right. eexists doctor, _, _, [DoctorStore; PatientStore; PatientStore].
    split; [reflexivity|]. cbn. rewrite <- !app_assoc.
    do 3 (split; [reflexivity|]). split; [right; reflexivity|].
    repeat (split; [reflexivity|]). right. eauto 10.
  - left. eexists _, [DoctorStore; PatientStore; UuidSource; PatientStore].
    rewrite <- !app_assoc.
    replace (tick w + length [DoctorStore; PatientStore; UuidSource;
                              PatientStore])%nat
      with (S (S (S (S (tick w))))) by (cbn; lia).
    split; [reflexivity|]. right; right. cbn. eauto 10.
  - right.
    eexists doctor, _, _, [DoctorStore; PatientStore; UuidSource; PatientStore].
    split; [reflexivity|]. cbn. rewrite <- !app_assoc.
    do 3 (split; [reflexivity|]). split; [left; reflexivity|].
    repeat (split; [reflexivity|]). left. auto.
Qed.

Lemma callsTo_app c l1 l2 :
  callsTo c (l1 ++ l2) = (callsTo c l1 + callsTo c l2)%nat.
Proof. unfold callsTo. rewrite List.filter_app. apply length_app. Qed.

Lemma findOne_lookup {A : Type} (f : A -> bool) (l : list A) i x :
  findOne f l = Some (i, x) -> l !! i = Some x /\ f x = true.
Proof.
  intros H. apply findFrom_Some in H as (k & -> & Hk & Hx). auto.
Qed.

Lemma In_insert {A : Type} (l : list A) i x y :
  l !! i = Some y -> In x (<[i := x]> l).
Proof.
  intros H. apply (lookup_In _ i).
  apply list_lookup_insert_eq. eapply lookup_lt_Some, H.
Qed.

(** The whole booking route: its answer, what it wrote and whom it
    called. *)
Lemma run_bookRoute_paths req w :
  exists r w' new,
    run env (bookRoute getTime req) w = (r, w')
    /\ calls w' = (calls w ++ new)%list
    /\ doctors (store w') = doctors (store w)
    /\ (((code r = 400 \/ code r = 401 \/ code r = 404 \/ code r = 409)
         /\ appointments (store w') = appointments (store w)
         /\ callsTo CalendarInsert new = O
         /\ callsTo MailTransport new = O)
        \/ (code r = 500
            /\ appointments (store w') = appointments (store w)
            /\ (callsTo CalendarInsert new <= 1)%nat
            /\ callsTo MailTransport new = O)
        \/ (exists a patient st link,
              r = ok (BookedBody (appointmentId a) "confirmed"
                        (summaryOf patient) st link)
              /\ appointments (store w') = (appointments (store w) ++ [a])%list
              /\ a_patientId a = patientId patient
              /\ status a = "confirmed"
              /\ In patient (patients (store w'))
              /\ callsTo CalendarInsert new = 1%nat
              /\ callsTo MailTransport new
                 = if mailConfigured env (p_email patient)
                   then 1%nat else O)).
Proof.
  unfold bookRoute. rewrite run_requireApiKey.
  destruct (authorized env (apiKey req)).
  2: { eexists _, _, [ProcessEnv]. split; [reflexivity|].
       do 2 (split; [reflexivity|]). left. cbn. auto 10. }
  destruct (run_bookHandler_upsert req (advance w ProcessEnv))
    as [(r & new & Hrun & Hcase)
       | (doctor & patient & w1 & pre & Hrun & _ & _ & Hpre & Hshape
          & Happ & Hdoc & _ & Hpat)].
  - rewrite Hrun. eexists r, _, (ProcessEnv :: new).
    split; [reflexivity|].
    split; [cbn [calls advance]; rewrite <- app_assoc; reflexivity|].
    split; [reflexivity|].
    destruct Hcase as [(Hc & -> & _) | [(Hc & -> & _) | (Hc & _ & Hnew & _)]].
    + left. cbn. auto 10.
    + left. cbn. auto 10.
    + right; left. destruct Hnew as [-> | ->]; cbn; auto.
  - rewrite Hrun.
    destruct (run_bookSlot_paths req doctor patient w1)
      as (r & w' & new & Hslot & Hcalls & Hpats & Hdocs & Hcase).
    rewrite Hslot. exists r, w', (ProcessEnv :: pre ++ new)%list.
    split; [reflexivity|].
    split; [rewrite Hcalls, Hpre; cbn [calls advance];
            rewrite <- !app_assoc; reflexivity|].
    split; [rewrite Hdocs, Hdoc; reflexivity|].
    clear Hdoc.
    change (ProcessEnv :: pre ++ new)%list
      with ([ProcessEnv] ++ (pre ++ new))%list.
    assert (Hcal : callsTo CalendarInsert pre = O)
      by (destruct Hshape as [-> | ->]; reflexivity).
    assert (Hmail : callsTo MailTransport pre = O)
      by (destruct Hshape as [-> | ->]; reflexivity).
    rewrite !(callsTo_app _ [ProcessEnv]), !(callsTo_app _ pre), Hcal, Hmail.
    change (callsTo CalendarInsert [ProcessEnv]) with O.
    change (callsTo MailTransport [ProcessEnv]) with O.
    cbn [Nat.add]. cbn [advance store] in Happ. rewrite <- Happ.
    destruct Hcase as [(Hc & -> & Hsame) | [(Hc & -> & Hsame)
                      | [(Hc & -> & Hsame)
                        | (a & st & link & mail & -> & Hadd & Hpid & _ & _
                           & Hst & -> & Hcal' & Hmail')]]].
    + destruct Hc as [Hc | Hc].
      * left. cbn. auto 10.
      * right; left. cbn. auto.
    + left. cbn. auto 10.
    + right; left. cbn. auto.
    + right; right. exists a, patient, st, link.
      split; [reflexivity|]. split; [exact Hadd|].
      split; [exact Hpid|]. split; [exact Hst|].
      split.
      { rewrite Hpats.
        destruct Hpat as [(_ & -> & _) | (doc & old & Hf & -> & _)].
        - apply in_or_app. right. left. reflexivity.
        - apply findOne_lookup in Hf as [Hf _].
          eapply In_insert. exact Hf. }
      rewrite !callsTo_app, Hcal', Hmail'. split; reflexivity.
Qed.

End BookingPaths.

(** X9: what [POST /appointments/book] answers and what it writes.  The
    status is one of 200, 400, 401, 404, 409 and 500; doctors are never
    written; a 200 means exactly one appointment was added, with status
    "confirmed", for a patient who is in the patient collection, and
    its identifier is the one in the response; any other status means
    the appointment collection is what it was. *)
Theorem booking_answers_200_iff_appointment_added getTime env req w :
  let r := fst (run env (bookRoute getTime req) w) in
  let w' := snd (run env (bookRoute getTime req) w) in
  doctors (store w') = doctors (store w)
  /\ In (code r) [200; 400; 401; 404; 409; 500]
  /\ (code r = 200 ->
      exists a patient st link,
        r = ok (BookedBody (appointmentId a) "confirmed"
                  (summaryOf patient) st link)
        /\ appointments (store w') = (appointments (store w) ++ [a])%list
        /\ status a = "confirmed"
        /\ a_patientId a = patientId patient
        /\ In patient (patients (store w')))
  /\ (code r <> 200 -> appointments (store w') = appointments (store w)).
Proof.
  destruct (run_bookRoute_paths getTime env req w)
    as (r & w' & new & Hrun & _ & Hdoc & Hcase).
  rewrite Hrun. cbn [fst snd]. split; [exact Hdoc|].
  destruct Hcase as [(Hc & Happ & _) | [(Hc & Happ & _)
                    | (a & patient & st & link & -> & Hadd & Hpid & Hst
                       & Hin & _)]].
  - split; [cbn; intuition lia|]. split; [intros H; lia|]. intros _.
    exact Happ.
  - split; [cbn; intuition lia|]. split; [intros H; lia|]. intros _.
    exact Happ.
  - split; [cbn; auto|]. split; [|intros H; exfalso; apply H; reflexivity].
    intros _. exists a, patient, st, link. auto.
Qed.

(** X10: whom [POST /appointments/book] calls.  The calendar is asked to
    insert an event at most once, and the mail transport is used at
    most once; a request answered 400, 401, 404 or 409 reaches neither;
    a request answered 200 has asked the calendar exactly once; the
    mail transport is used only for a request answered 200; and when
    the calendar was asked but the answer is not 200, the answer is 500
    and no appointment was stored, so an event the calendar created
    then has no appointment. *)
Theorem booking_calls_calendar_then_mail getTime env req w :
  let r := fst (run env (bookRoute getTime req) w) in
  let w' := snd (run env (bookRoute getTime req) w) in
  let new := callsSince w w' in
  (callsTo CalendarInsert new <= 1)%nat
  /\ (callsTo MailTransport new <= 1)%nat
  /\ (In (code r) [400; 401; 404; 409] ->
      callsTo CalendarInsert new = O /\ callsTo MailTransport new = O)
  /\ (code r = 200 -> callsTo CalendarInsert new = 1%nat)
  /\ (callsTo MailTransport new = 1%nat -> code r = 200)
  /\ (callsTo CalendarInsert new = 1%nat -> code r <> 200 ->
      code r = 500
      /\ appointments (store w') = appointments (store w)).
Proof.
  destruct (run_bookRoute_paths getTime env req w)
    as (r & w' & new & Hrun & Hcalls & _ & Hcase).
  rewrite Hrun. cbn [fst snd]. rewrite (callsSince_app _ _ _ Hcalls).
  destruct Hcase as [(Hc & Happ & Hcal & Hmail) | [(Hc & Happ & Hcal & Hmail)
                    | (a & patient & st & link & -> & Hadd & Hpid & Hst
                       & Hin & Hcal & Hmail)]].
  - rewrite Hcal, Hmail.
    repeat match goal with |- _ /\ _ => split | |- _ -> _ => intro end;
      cbn [In] in *; try lia; assumption.
  - rewrite Hmail.
    repeat match goal with |- _ /\ _ => split | |- _ -> _ => intro end;
      cbn [In] in *; try lia; assumption.
  - rewrite Hcal, Hmail. cbn [code ok json].
    destruct (mailConfigured env (p_email patient));
      repeat match goal with |- _ /\ _ => split | |- _ -> _ => intro end;
      cbn [In] in *; try lia; congruence.
Qed.

(** X11: the booking route writes the patient before it looks at the
    time slot.  For a request that carries the shared secret and the
    required fields and names a known doctor, with writes accepted, the
    patient collection afterwards holds a record with the request's name
    and contact details whatever the answer is; in particular a request
    whose time slot cannot be read is answered 400, stores no
    appointment, and has still written that record. *)
Theorem booking_writes_patient_before_slot_check getTime env req w doctor :
  writesAccepted env ->
  authorized env (apiKey req) = true ->
  hasRequiredFields req = true ->
  doctorOf (store w) (Api.str (doctorId req)) = Some doctor ->
  let r := fst (run env (bookRoute getTime req) w) in
  let w' := snd (run env (bookRoute getTime req) w) in
  (exists p,
     In p (patients (store w'))
     /\ p_name p = patientName req
     /\ (Js.truthy (patientEmail req) = true -> p_email p = patientEmail req)
     /\ (Js.truthy (patientPhone req) = true ->
         p_phone p = patientPhone req))
  /\ (Label.bookingInterval (Api.str (date req)) (Api.str (timeSlot req))
      = None ->
      code r = 400
      /\ appointments (store w') = appointments (store w)
      /\ callsTo PatientStore (callsSince w w') = 2%nat).
Proof.
  intros Hw Hauth Hreq Hdoc r w'. subst r w'.
  unfold bookRoute. rewrite run_requireApiKey, Hauth.
  destruct (run_bookHandler_upsert getTime env req (advance w ProcessEnv))
    as [(r & new & Hrun & Hcase)
       | (doctor' & patient & w1 & pre & Hrun & _ & _ & Hpre & Hshape
          & Happ & _ & Hname & Hpat)].
  { exfalso.
    destruct Hcase as [(_ & _ & H) | [(_ & _ & _ & H) | (_ & _ & _ & n & m & H)]].
    - congruence.
    - cbn [advance store] in H. congruence.
    - rewrite Hw in H. discriminate. }
  rewrite Hrun.
  destruct (run_bookSlot_paths getTime env req doctor' patient w1)
    as (r & w' & new & Hslot & Hcalls & Hpats & _ & _).
  assert (Hin : In patient (patients (store w1))
                /\ (Js.truthy (patientEmail req) = true ->
                    p_email patient = patientEmail req)
                /\ (Js.truthy (patientPhone req) = true ->
                    p_phone patient = patientPhone req)).
  { destruct Hpat as [(_ & -> & He & Hp)
                     | (doc & old & Hf & -> & _ & He & Hp)].
    - split; [apply in_or_app; right; left; reflexivity|]. auto.
    - apply findOne_lookup in Hf as [Hf _].
      split; [eapply In_insert; exact Hf|].
      split; intros Ht; rewrite Ht in *; assumption. }
  destruct Hin as (Hin & He & Hp).
  split.
  { rewrite Hslot. cbn [snd]. exists patient. rewrite Hpats. auto. }
  intros Hnone. rewrite run_bookSlot_unreadable by exact Hnone.
  cbn [fst snd code json]. split; [reflexivity|].
  split; [exact Happ|].
  assert (Hsince : callsSince w w1 = ProcessEnv :: pre).
  { apply callsSince_app. rewrite Hpre. cbn [advance calls].
    rewrite <- app_assoc. reflexivity. }
  rewrite Hsince. destruct Hshape as [-> | ->]; reflexivity.
Qed.

(** The ways [POST /appointments/:appointmentId/cancel] can go. *)
Lemma run_cancelRoute_paths env key id w :
  exists r w',
    run env (cancelRoute key id) w = (r, w')
    /\ patients (store w') = patients (store w)
    /\ doctors (store w') = doctors (store w)
    /\ ((authorized env key = false /\ code r = 401
         /\ w' = advance w ProcessEnv)
        \/ (authorized env key = true /\ appointmentOf (store w) id = None
            /\ r = json 404 (ErrorBody "Appointment not found")
            /\ store w' = store w)
        \/ (authorized env key = true
            /\ exists doc a,
                 appointmentOf (store w) id = Some (doc, a)
                 /\ ((exists m, writeFaultAt env (2 + tick w) = Some m
                                /\ r = json 500 (ErrorBody m)
                                /\ store w' = store w)
                     \/ (writeFaultAt env (2 + tick w) = None
                         /\ r = ok (CancelledBody (appointmentId a))
                         /\ appointments (store w')
                            = <[doc := cancelled a]>
                                (appointments (store w)))))).
Proof.
  unfold cancelRoute, appointmentOf. rewrite run_requireApiKey.
  destruct (authorized env key).
  2: { eexists _, _. split; [reflexivity|]. do 2 (split; [reflexivity|]).
       left. auto. }
  cbn [run handle answer store advance].
  destruct (findOne _ _) as [[doc a]|].
  2: { eexists _, _. split; [reflexivity|]. do 2 (split; [reflexivity|]).
       right; left. auto. }
  cbn [run]. unfold handle. cbn [answer store tick advance].
  change (2 + tick w)%nat with (S (S (tick w))).
  destruct (writeFaultAt env (S (S (tick w)))) as [m|] eqn:Hfault; cbn [run];
    (eexists _, _; split; [reflexivity|]; do 2 (split; [reflexivity|]);
     right; right; split; [reflexivity|]; exists doc, a;
     split; [reflexivity|]).
  - left. exists m. auto.
  - right. auto.
Qed.

Lemma find_None_lookup {A : Type} (f : A -> bool) (l : list A) :
  (forall j x, l !! j = Some x -> f x = false) -> List.find f l = None.
Proof.
  induction l as [|y l IH]; intros H; [reflexivity|]. cbn.
  rewrite (H O y eq_refl). apply IH. intros j x Hj. exact (H (S j) x Hj).
Qed.

Lemma conflictsWith_cancelled doctorId startT endT a :
  conflictsWith doctorId startT endT (cancelled a) = false.
Proof.
  unfold conflictsWith, notCancelled. cbn.
  rewrite andb_false_r. reflexivity.
Qed.

Lemma findFrom_insert {A : Type} (f : A -> bool) (l : list A) :
  forall n k x y,
    findFrom f n l = Some ((n + k)%nat, x) -> f y = true ->
    findFrom f n (<[k := y]> l) = Some ((n + k)%nat, y).
Proof.
  induction l as [|b l IH]; intros n k x y H Hy; [discriminate|].
  cbn in H. destruct (f b) eqn:Hb.
  - injection H as Hn _. assert (k = O) by lia. subst k.
    cbn. rewrite Hy, Nat.add_0_r. reflexivity.
  - destruct (findFrom_Some _ _ _ _ _ H) as (k' & Hk & _).
    assert (k = S k') by lia. subst k. cbn. rewrite Hb.
    replace (n + S k')%nat with (S n + k')%nat in * by lia.
    eapply IH; eassumption.
Qed.

Lemma store_eq (s t : Store) :
  doctors s = doctors t -> patients s = patients t ->
  appointments s = appointments t -> s = t.
Proof. destruct s, t. cbn. intros -> -> ->. reflexivity. Qed.

(** X12: cancelling marks one appointment and nothing else.  When the
    request carries the shared secret, the identifier is first found at
    position [i] and the write is accepted, the answer is 200 with that
    identifier, the document at [i] is the old one with status
    "cancelled" (same identifier and interval), every other document,
    every patient and every doctor is what it was, the cancelled
    document conflicts with no booking any more, and cancelling again
    gives the same answer and the same store.  An identifier that is not
    found is answered 404 and nothing is written. *)
Theorem cancel_marks_one_appointment env key id w :
  writesAccepted env ->
  authorized env key = true ->
  let r := fst (run env (cancelRoute key id) w) in
  let w' := snd (run env (cancelRoute key id) w) in
  (appointmentOf (store w) id = None ->
   r = json 404 (ErrorBody "Appointment not found") /\ store w' = store w)
  /\ (forall i a,
        appointmentOf (store w) id = Some (i, a) ->
        r = ok (CancelledBody id)
        /\ appointments (store w') !! i = Some (cancelled a)
        /\ (forall j, j <> i ->
              appointments (store w') !! j = appointments (store w) !! j)
        /\ length (appointments (store w')) = length (appointments (store w))
        /\ patients (store w') = patients (store w)
        /\ doctors (store w') = doctors (store w)
        /\ (forall doctorId startT endT,
              conflictsWith doctorId startT endT (cancelled a) = false)
        /\ fst (run env (cancelRoute key id) w') = r
        /\ store (snd (run env (cancelRoute key id) w')) = store w').
Proof.
  intros Hw Hauth r w'. subst r w'.
  destruct (run_cancelRoute_paths env key id w)
    as (r & w' & Hrun & Hpat & Hdoc & Hcase).
  rewrite Hrun. cbn [fst snd].
  destruct Hcase as [(H & _) | [(_ & Hnone & -> & Hstore)
                    | (_ & i & a & Hsome & Hsave)]].
  - congruence.
  - split; [auto|]. intros i a H. congruence.
  - split; [intros H; congruence|].
    intros i' a' H. rewrite Hsome in H. injection H as <- <-.
    destruct Hsave as [(m & Hm & _) | (_ & -> & Happ)].
    { rewrite Hw in Hm. discriminate. }
    pose proof Hsome as Hfound. unfold appointmentOf in Hfound.
    apply findOne_lookup in Hfound as [Hi Hid].
    apply String.eqb_eq in Hid.
    assert (Hlt : (i < length (appointments (store w)))%nat)
      by (eapply lookup_lt_Some, Hi).
    split; [rewrite Hid; reflexivity|].
    split; [rewrite Happ; apply list_lookup_insert_eq, Hlt|].
    split; [intros j Hj; rewrite Happ; apply list_lookup_insert_ne; auto|].
    split; [rewrite Happ; apply length_insert|].
    split; [exact Hpat|]. split; [exact Hdoc|].
    split; [intros; apply conflictsWith_cancelled|].
    assert (Hagain : appointmentOf (store w') id = Some (i, cancelled a)).
    { unfold appointmentOf, findOne in *. rewrite Happ.
      apply (findFrom_insert _ _ O i a); [exact Hsome|].
      cbn. apply String.eqb_eq, Hid. }
    destruct (run_cancelRoute_paths env key id w')
      as (r2 & w2 & Hrun2 & Hpat2 & Hdoc2 & Hcase2).
    rewrite Hrun2. cbn [fst snd].
    destruct Hcase2 as [(H & _) | [(_ & Hnone & _)
                       | (_ & doc2 & a2 & Hsome2 & Hsave2)]];
      [congruence | congruence |].
    rewrite Hagain in Hsome2. injection Hsome2 as <- <-.
    destruct Hsave2 as [(m & Hm & _) | (_ & -> & Happ2)].
    { rewrite Hw in Hm. discriminate. }
    split; [reflexivity|].
    apply store_eq; [exact Hdoc2 | exact Hpat2 |].
    rewrite Happ2, Happ. apply list_insert_insert_eq.
Qed.

(** X13: a cancelled slot can be booked again.  Take a booking request
    that passes the checks, whose interval conflicts with the
    appointment [a] found under [id] and with no other document: the
    request is answered 409; after that appointment is cancelled, the
    same request is answered 200 and its appointment is stored next to
    the cancelled one. *)
Theorem cancelled_slot_can_be_booked_again
    getTime env key id req w doctor startText endText startT endT i a :
  writesAccepted env ->
  authorized env key = true ->
  authorized env (apiKey req) = true ->
  hasRequiredFields req = true ->
  doctorOf (store w) (Api.str (doctorId req)) = Some doctor ->
  Label.bookingInterval (Api.str (date req)) (Api.str (timeSlot req))
  = Some (startText, endText) ->
  getTime startText = Some startT ->
  getTime endText = Some endT ->
  appointmentOf (store w) id = Some (i, a) ->
  conflictsWith (d_doctorId doctor) startT endT a = true ->
  (forall j b, appointments (store w) !! j = Some b -> j <> i ->
     conflictsWith (d_doctorId doctor) startT endT b = false) ->
  code (fst (run env (bookRoute getTime req) w)) = 409
  /\ (let w1 := snd (run env (cancelRoute key id) w) in
      let r2 := fst (run env (bookRoute getTime req) w1) in
      let w2 := snd (run env (bookRoute getTime req) w1) in
      code r2 = 200
      /\ exists b,
           appointments (store w2)
           = (<[i := cancelled a]> (appointments (store w)) ++ [b])%list
           /\ status b = "confirmed"
           /\ startDateTime b = Some startT
           /\ endDateTime b = Some endT).
Proof.
  intros Hw Hkey Hauth Hreq Hdoc Hi Hs He Hsome Hconf Hothers.
  pose proof Hsome as Hfound. unfold appointmentOf in Hfound.
  apply findOne_lookup in Hfound as [Hat _].
  split.
  - unfold bookRoute. rewrite run_requireApiKey, Hauth.
    destruct (run_bookHandler_accepted getTime env req doctor
                (advance w ProcessEnv) Hw Hreq Hdoc)
      as (patient & w1 & Hrun & Happ & _).
    rewrite Hrun.
    destruct (List.find (conflictsWith (d_doctorId doctor) startT endT)
                (appointments (store w1))) as [c|] eqn:Hfind.
    + rewrite (run_bookSlot_conflict getTime env req doctor patient w1
                 _ _ _ _ c Hi Hs He Hfind). reflexivity.
    + exfalso. rewrite Happ in Hfind. cbn [advance store] in Hfind.
      pose proof (find_none _ _ Hfind a (lookup_In _ _ _ Hat)) as H.
      cbv beta in H. congruence.
  - intros w1 r2 w2. subst w1 r2 w2.
    destruct (run_cancelRoute_paths env key id w)
      as (r & w1 & Hrun & Hpat & Hdocs & Hcase).
    rewrite Hrun. cbn [snd].
    destruct Hcase as [(H & _) | [(_ & Hnone & _)
                      | (_ & i' & a' & Hsome' & Hsave)]];
      [congruence | congruence |].
    rewrite Hsome in Hsome'. injection Hsome' as <- <-.
    destruct Hsave as [(m & Hm & _) | (_ & _ & Happ)].
    { rewrite Hw in Hm. discriminate. }
    assert (Hdoc1 : doctorOf (store w1) (Api.str (doctorId req))
                    = Some doctor)
      by (unfold doctorOf in *; rewrite Hdocs; exact Hdoc).
    unfold bookRoute. rewrite run_requireApiKey, Hauth.
    destruct (run_bookHandler_accepted getTime env req doctor
                (advance w1 ProcessEnv) Hw Hreq Hdoc1)
      as (patient & w2 & Hrun2 & Happ2 & _).
    rewrite Hrun2. cbn [advance store] in Happ2.
    assert (Hfree : List.find (conflictsWith (d_doctorId doctor) startT endT)
                      (appointments (store w2)) = None).
    { rewrite Happ2, Happ. apply find_None_lookup. intros j x Hj.
      destruct (Nat.eq_dec j i) as [-> | Hne].
      - rewrite list_lookup_insert_eq in Hj
          by (eapply lookup_lt_Some, Hat).
        injection Hj as <-. apply conflictsWith_cancelled.
      - rewrite list_lookup_insert_ne in Hj by auto.
        eapply Hothers; eassumption. }
    destruct (run_bookSlot_accepted getTime env req doctor patient w2
                _ _ _ _ Hw Hi Hs He Hfree)
      as (b & st & link & w3 & Hrun3 & Happ3 & _ & Hst & Hsb & Heb & _).
    rewrite Hrun3. cbn [fst snd code ok json]. split; [reflexivity|].
    exists b. rewrite Happ3, Happ2, Happ. auto.
Qed.

(** X14: [sendConfirmationEmail] uses the mail transport exactly when
    there is a recipient and [SMTP_HOST], [SMTP_USER] and [SMTP_PASS]
    are all set, and then for one message; apart from that it only
    reads the process environment, and it writes nothing.  Without a
    recipient or without [SMTP_HOST] it reports a skip; with the host
    set but user or password missing it throws; a message reported as
    sent carries an identifier the transport returned. *)
Theorem confirmation_mail_sent_iff_configured env toEmail subject w :
  let r := fst (run env (sendConfirmationEmail toEmail subject) w) in
  let w' := snd (run env (sendConfirmationEmail toEmail subject) w) in
  let new := callsSince w w' in
  store w' = store w
  /\ callsTo MailTransport new
     = (if mailConfigured env toEmail then 1%nat else O)
  /\ (callsTo ProcessEnv new + callsTo MailTransport new)%nat = length new
  /\ (Js.truthy toEmail = false ->
      r = Returned (EmailSkipped "No recipient email"))
  /\ (Js.truthy toEmail = true ->
      Js.truthy (processEnv env "SMTP_HOST") = false ->
      r = Returned (EmailSkipped "SMTP not configured"))
  /\ (Js.truthy toEmail = true ->
      Js.truthy (processEnv env "SMTP_HOST") = true ->
      mailConfigured env toEmail = false ->
      exists thrown, r = Thrown thrown)
  /\ (forall messageId,
        r = Returned (EmailSent messageId) ->
        mailConfigured env toEmail = true
        /\ exists n, smtpAt env n = Returned messageId).
Proof.
  destruct (run_sendConfirmationEmail_paths env toEmail subject w)
    as (r & w' & new & Hrun & Hstore & Hcalls & Hpath).
  rewrite Hrun. cbn [fst snd]. rewrite (callsSince_app _ _ _ Hcalls).
  split; [exact Hstore|]. unfold mailConfigured in *.
  destruct Hpath as [(Hto & -> & ->) | [(Hto & Hh & -> & ->)
                    | [(Hto & Hh & Hup & -> & ->) | (Hc & -> & ->)]]].
  - rewrite Hto. cbn [andb].
    repeat match goal with |- _ /\ _ => split | |- _ -> _ => intro end;
      try reflexivity; try congruence.
  - rewrite Hto, Hh. cbn [andb].
    repeat match goal with |- _ /\ _ => split | |- _ -> _ => intro end;
      try reflexivity; try congruence.
  - rewrite Hto, Hh. cbn [andb]. rewrite Hup.
    repeat match goal with |- _ /\ _ => split | |- _ -> _ => intro end;
      try reflexivity; try congruence. eauto.
  - rewrite Hc.
    apply andb_prop in Hc as [Hc Hpass]. apply andb_prop in Hc as [Hc Huser].
    apply andb_prop in Hc as [Hto Hhost].
    repeat match goal with |- _ /\ _ => split | |- _ -> _ => intro end;
      try reflexivity; try congruence.
    exists (4 + tick w)%nat.
    destruct (smtpAt env (4 + tick w)); congruence.
Qed.

Section Patients.
Variable env : Env.

(** The ways [POST /patients/register] can go. *)
Lemma run_registerRoute_paths req w :
  exists r w',
    run env (registerRoute req) w = (r, w')
    /\ doctors (store w') = doctors (store w)
    /\ appointments (store w') = appointments (store w)
    /\ ((authorized env (r_apiKey req) = false /\ code r = 401
         /\ store w' = store w)
        \/ (authorized env (r_apiKey req) = true
            /\ Js.truthy (r_name req)
               && (Js.truthy (r_email req) || Js.truthy (r_phone req))
               = false
            /\ code r = 400 /\ store w' = store w)
        \/ (authorized env (r_apiKey req) = true
            /\ Js.truthy (r_name req)
               && (Js.truthy (r_email req) || Js.truthy (r_phone req))
               = true
            /\ ((exists doc q,
                   findOne (matchesAny (contactFilter req))
                           (patients (store w)) = Some (doc, q)
                   /\ r = json 409 (AlreadyRegisteredBody
                                      "Patient already registered"
                                      (summaryOf q))
                   /\ store w' = store w)
                \/ (findOne (matchesAny (contactFilter req))
                            (patients (store w)) = None
                    /\ ((exists m, writeFaultAt env (3 + tick w) = Some m
                                   /\ r = json 500 (ErrorBody m)
                                   /\ store w' = store w)
                        \/ (exists p,
                              writeFaultAt env (3 + tick w) = None
                              /\ r = ok (RegisteredBody (summaryOf p))
                              /\ patients (store w')
                                 = (patients (store w) ++ [p])%list
                              /\ p_name p = r_name req
                              /\ p_email p = r_email req
                              /\ p_phone p = r_phone req)))))).
Proof.
  unfold registerRoute. rewrite run_requireApiKey.
  destruct (authorized env (r_apiKey req)).
  2: { eexists _, _. split; [reflexivity|]. do 2 (split; [reflexivity|]).
       left. auto. }
  destruct (Js.truthy (r_name req)); cbn [negb orb andb].
  2: { eexists _, _. split; [reflexivity|]. do 2 (split; [reflexivity|]).
       right; left. auto. }
  destruct (Js.truthy (r_email req) || Js.truthy (r_phone req))%bool eqn:Hc;
    rewrite <- negb_orb, Hc; cbn [negb].
  2: { eexists _, _. split; [reflexivity|]. do 2 (split; [reflexivity|]).
       right; left. auto. }
  cbn [run handle answer advance store tick].
  destruct (findOne _ _) as [[doc q]|].
  { eexists _, _. split; [reflexivity|]. do 2 (split; [reflexivity|]).
    right; right. do 2 (split; [reflexivity|]). left. eauto. }
  cbn [run handle answer tick store calls].
  unfold handle. cbn [answer tick store calls].
  change (3 + tick w)%nat with (S (S (S (tick w)))).
  destruct (writeFaultAt env (S (S (S (tick w))))) as [m|]; cbn [run];
    (eexists _, _; split; [reflexivity|]; do 2 (split; [reflexivity|]);
     right; right; do 2 (split; [reflexivity|]); right;
     split; [reflexivity|]).
  - left. eauto.
  - right. eexists. cbn. auto 10.
Qed.

(** The ways [GET /patients/search] can go. *)
Lemma run_searchRoute_paths email phone w :
  exists r,
    run env (searchRoute email phone) w
    = (r, if Js.truthy email || Js.truthy phone
          then advance w PatientStore else w)
    /\ ((Js.truthy email || Js.truthy phone = false /\ code r = 400)
        \/ (Js.truthy email || Js.truthy phone = true
            /\ match findOne
                        (matchesAny
                           ((if Js.truthy email then [ByEmail email] else [])
                            ++ (if Js.truthy phone then [ByPhone phone]
                                else []))%list)
                        (patients (store w)) with
               | Some (_, p) => r = ok (PatientBody p)
               | None => r = json 404 (ErrorBody "Patient not found")
               end)).
Proof.
  unfold searchRoute. rewrite <- negb_orb.
  destruct (Js.truthy email || Js.truthy phone)%bool; cbn [negb].
  2: { eexists. split; [reflexivity|]. left. auto. }
  cbn [run handle answer]. fold (advance w PatientStore).
  destruct (findOne _ _) as [[doc p]|];
    (eexists; split; [reflexivity|]; right; split; reflexivity).
Qed.

(** X15: what [POST /patients/register] answers and what it writes.
    The status is one of 200, 400, 401, 409 and 500; doctors and
    appointments are never written; a 200 means exactly one patient was
    added, carrying the request's name, e-mail and phone, and no patient
    with that e-mail or phone was there before; a 409 carries the
    record of an existing patient with that e-mail or phone; any status
    other than 200 means the store is what it was. *)
Theorem registration_answers_200_iff_patient_added req w :
  let r := fst (run env (registerRoute req) w) in
  let w' := snd (run env (registerRoute req) w) in
  doctors (store w') = doctors (store w)
  /\ appointments (store w') = appointments (store w)
  /\ In (code r) [200; 400; 401; 409; 500]
  /\ (code r = 200 ->
      exists p,
        r = ok (RegisteredBody (summaryOf p))
        /\ patients (store w') = (patients (store w) ++ [p])%list
        /\ p_name p = r_name req
        /\ p_email p = r_email req
        /\ p_phone p = r_phone req
        /\ Forall (fun q => matchesAny (contactFilter req) q = false)
                  (patients (store w)))
  /\ (code r = 409 ->
      exists q,
        In q (patients (store w))
        /\ matchesAny (contactFilter req) q = true
        /\ r = json 409 (AlreadyRegisteredBody "Patient already registered"
                           (summaryOf q)))
  /\ (code r <> 200 -> store w' = store w).
Proof.
  destruct (run_registerRoute_paths req w)
    as (r & w' & Hrun & Hdoc & Happ & Hcase).
  rewrite Hrun. cbn [fst snd].
  split; [exact Hdoc|]. split; [exact Happ|].
  destruct Hcase as [(_ & Hc & Hs) | [(_ & _ & Hc & Hs)
    | (_ & _ & [(doc & q & Hf & -> & Hs)
               | (Hf & [(m & _ & -> & Hs)
                       | (p & _ & -> & Hp & Hn & He & Hph)])])]].
  - rewrite Hc. cbn [In].
    repeat match goal with |- _ /\ _ => split | |- _ -> _ => intro end;
      try lia; auto.
  - rewrite Hc. cbn [In].
    repeat match goal with |- _ /\ _ => split | |- _ -> _ => intro end;
      try lia; auto.
  - cbn [code json In].
    repeat match goal with |- _ /\ _ => split | |- _ -> _ => intro end;
      try lia; auto.
    apply findOne_lookup in Hf as [Hf Hm].
    exists q. split; [eapply lookup_In, Hf|]. auto.
  - cbn [code json In].
    repeat match goal with |- _ /\ _ => split | |- _ -> _ => intro end;
      try lia; auto.
  - cbn [code ok json In].
    repeat match goal with |- _ /\ _ => split | |- _ -> _ => intro end;
      try lia; auto.
    exists p. apply findFrom_None in Hf. auto 10.
Qed.

Lemma findOne_last {A : Type} (f : A -> bool) (l : list A) x :
  Forall (fun y => f y = false) l -> f x = true ->
  findOne f (l ++ [x]) = Some (length l, x).
Proof. intros Hl Hx. apply (findFrom_last f O l x Hl Hx). Qed.

(** X16: a registered patient is found by the search route, which asks
    for no shared secret.  After a registration answered 200, searching
    by the registered e-mail, by the registered phone, or by both
    returns the record that was created, whole; the search writes
    nothing and never reads the process environment, so it answers the
    same whether or not [API_KEY] is set. *)
Theorem search_finds_registered_patient req w :
  code (fst (run env (registerRoute req) w)) = 200 ->
  let w1 := snd (run env (registerRoute req) w) in
  exists p,
    fst (run env (registerRoute req) w) = ok (RegisteredBody (summaryOf p))
    /\ (Js.truthy (r_email req) = true ->
        fst (run env (searchRoute (r_email req) None) w1)
        = ok (PatientBody p))
    /\ (Js.truthy (r_phone req) = true ->
        fst (run env (searchRoute None (r_phone req)) w1)
        = ok (PatientBody p))
    /\ fst (run env (searchRoute (r_email req) (r_phone req)) w1)
       = ok (PatientBody p)
    /\ (forall email phone,
          let w2 := snd (run env (searchRoute email phone) w1) in
          store w2 = store w1
          /\ callsTo ProcessEnv (callsSince w1 w2) = O).
Proof.
  intros H200 w1. subst w1.
  destruct (run_registerRoute_paths req w)
    as (r & w' & Hrun & Hdoc & Happ & Hcase).
  rewrite Hrun in *. cbn [fst snd] in *.
  destruct Hcase as [(_ & Hc & _) | [(_ & _ & Hc & _)
    | (_ & Hvalid & [(doc & q & _ & -> & _)
               | (Hf & [(m & _ & -> & _)
                       | (p & _ & -> & Hp & Hn & He & Hph)])])]];
    try (rewrite Hc in H200; discriminate); try discriminate.
  exists p. split; [reflexivity|].
  apply findFrom_None in Hf.
  assert (Hfind : forall email phone,
            Js.truthy email || Js.truthy phone = true ->
            (Js.truthy email = true -> email = r_email req) ->
            (Js.truthy phone = true -> phone = r_phone req) ->
            fst (run env (searchRoute email phone) w') = ok (PatientBody p)).
  { intros email phone Hany Hemail Hphone.
    destruct (run_searchRoute_paths email phone w') as (r & Hs & Hcase).
    rewrite Hs. cbn [fst].
    destruct Hcase as [(H & _) | (_ & Hr)]; [congruence|].
    rewrite Hp in Hr.
    assert (Hsub : forall c,
              In c ((if Js.truthy email then [ByEmail email] else [])
                    ++ (if Js.truthy phone then [ByPhone phone] else []))%list
              -> In c (contactFilter req) /\ matchesClause p c = true).
    { intros c Hc. unfold contactFilter.
      apply in_app_or in Hc as [Hc | Hc].
      - destruct (Js.truthy email) eqn:Hte; [|destruct Hc].
        destruct Hc as [<- | []]. rewrite (Hemail eq_refl) in *.
        rewrite Hte. split; [left; reflexivity|].
        cbn. rewrite He. apply strictEq_refl.
      - destruct (Js.truthy phone) eqn:Htp; [|destruct Hc].
        destruct Hc as [<- | []]. rewrite (Hphone eq_refl) in *.
        rewrite Htp. split; [apply in_or_app; right; left; reflexivity|].
        cbn. rewrite Hph. apply strictEq_refl. }
    rewrite (findOne_last _ _ p) in Hr; [exact Hr | |].
    - eapply List.Forall_impl; [|exact Hf]. cbv beta. intros q Hq.
      match goal with |- ?b = false => destruct b eqn:Hm end;
        [|reflexivity].
      apply existsb_exists in Hm as (c & Hc & Hm).
      rewrite (matchesAny_in _ _ c (proj1 (Hsub c Hc)) Hm) in Hq.
      discriminate.
    - clear Hr. revert Hsub Hany.
      destruct (Js.truthy email);
        [intros Hsub _
        | cbn [orb]; intros Hsub Hany; rewrite Hany in Hsub |- *].
      + apply (matchesAny_in _ _ (ByEmail email));
          [cbn; left; reflexivity|].
        apply Hsub. cbn. left. reflexivity.
      + apply (matchesAny_in _ _ (ByPhone phone));
          [cbn; left; reflexivity|].
        apply Hsub. cbn. left. reflexivity. }
  split; [intros Hte; apply Hfind; [rewrite Hte; reflexivity | auto
                                   | discriminate]|].
  split; [intros Htp; apply Hfind; [exact Htp | discriminate | auto]|].
  split.
  { apply Hfind; auto.
    apply andb_prop in Hvalid as [_ Hvalid]. exact Hvalid. }
  intros email phone.
  destruct (run_searchRoute_paths email phone w') as (r & Hs & _).
  rewrite Hs. cbn [snd].
  destruct (Js.truthy email || Js.truthy phone)%bool.
  - split; [reflexivity|].
    rewrite (callsSince_app w' (advance w' PatientStore) [PatientStore]
               eq_refl). reflexivity.
  - split; [reflexivity|].
    rewrite (callsSince_app w' w' [] (eq_sym (app_nil_r _))). reflexivity.
Qed.

End Patients.

Section Availability.
Variable getTime : string -> option Z.
Variable weekdayOf : string -> string.

(** The ways [POST /doctors/:doctorId/availability] can go. *)
Lemma run_availabilityRoute_paths env id dateField w :
  exists r w' new,
    run env (availabilityRoute getTime weekdayOf id dateField) w = (r, w')
    /\ store w' = store w
    /\ calls w' = (calls w ++ new)%list
    /\ ((code r = 400 /\ new = [] /\ slotsOf r = [])
        \/ (code r = 404 /\ new = [DoctorStore] /\ slotsOf r = [])
        \/ (code r = 400 /\ new = [DoctorStore] /\ slotsOf r = [])
        \/ (code r = 200 /\ new = [DoctorStore] /\ slotsOf r = [])
        \/ (exists day doctor av hours ws we busy,
              dateField = Some day
              /\ dateRegexTest day = true
              /\ doctorOf (store w) id = Some doctor
              /\ d_availability doctor = Some av
              /\ av !! weekdayOf day = Some hours
              /\ available hours = true
              /\ dayStart hours = Some ws
              /\ dayEnd hours = Some we
              /\ r = ok (AvailabilityBody day (weekdayOf day)
                           (d_doctorId doctor)
                           (Slots.generateAvailableSlots getTime day ws we
                              busy
                              (liveOn (store w) (d_doctorId doctor) day))
                           None)
              /\ ((Js.truthy (d_calendarId doctor) = true
                   /\ new = [DoctorStore; BusySource; AppointmentStore]
                   /\ busy = match freeBusyAt env (1 + tick w) with
                             | Returned (Some periods) => periods
                             | _ => []
                             end)
                  \/ (Js.truthy (d_calendarId doctor) = false
                      /\ new = [DoctorStore; AppointmentStore]
                      /\ busy = [])))).
Proof.
  unfold availabilityRoute, doctorOf.
  destruct dateField as [day|]; cbn [Js.truthy negb].
  2: { eexists _, _, []. split; [reflexivity|]. split; [reflexivity|].
       split; [symmetry; apply app_nil_r|]. left. auto. }
  destruct (String.eqb day ""); cbn [negb].
  { eexists _, _, []. split; [reflexivity|]. split; [reflexivity|].
    split; [symmetry; apply app_nil_r|]. left. auto. }
  change (Api.str (Some day)) with day.
  destruct (dateRegexTest day) eqn:Hre; cbn [negb].
  2: { eexists _, _, []. split; [reflexivity|]. split; [reflexivity|].
       split; [symmetry; apply app_nil_r|]. left. auto. }
  cbn [run handle answer].
  destruct (List.find _ (doctors (store w))) as [doctor|] eqn:Hdoc.
  2: { eexists _, _, _. split; [reflexivity|]. split; [reflexivity|].
       split; [reflexivity|]. right; left. auto. }
  destruct (d_availability doctor) as [av|] eqn:Hav.
  2: { eexists _, _, _. split; [reflexivity|]. split; [reflexivity|].
       split; [reflexivity|]. right; right; left. auto. }
  destruct (av !! weekdayOf day) as [hours|] eqn:Hday.
  2: { eexists _, _, _. split; [reflexivity|]. split; [reflexivity|].
       split; [reflexivity|]. right; right; right; left. auto. }
  destruct (available hours) eqn:Havail; cbn [negb].
  2: { eexists _, _, _. split; [reflexivity|]. split; [reflexivity|].
       split; [reflexivity|]. right; right; right; left. auto. }
  destruct (dayStart hours) as [ws|] eqn:Hws; cbn [Js.truthy negb orb].
  2: { eexists _, _, _. split; [reflexivity|]. split; [reflexivity|].
       split; [reflexivity|]. right; right; left. auto. }
  destruct (String.eqb ws ""); cbn [negb orb].
  { eexists _, _, _. split; [reflexivity|]. split; [reflexivity|].
    split; [reflexivity|]. right; right; left. auto. }
  destruct (dayEnd hours) as [we|] eqn:Hwe; cbn [Js.truthy negb orb].
  2: { eexists _, _, _. split; [reflexivity|]. split; [reflexivity|].
       split; [reflexivity|]. right; right; left. auto. }
  destruct (String.eqb we ""); cbn [negb orb].
  { eexists _, _, _. split; [reflexivity|]. split; [reflexivity|].
    split; [reflexivity|]. right; right; left. auto. }
  change (Api.str (Some ws)) with ws. change (Api.str (Some we)) with we.
  destruct (Js.truthy (d_calendarId doctor)) eqn:Hcal.
  - cbn [run handle answer tick store calls].
    change (1 + tick w)%nat with (S (tick w)).
    destruct (freeBusyAt env (S (tick w))) as [[periods|]|m];
      cbn [run handle answer tick store calls];
      (eexists _, _, [DoctorStore; BusySource; AppointmentStore];
       split; [reflexivity|]; split; [reflexivity|];
       split; [cbn [calls]; rewrite <- !app_assoc; reflexivity|];
       right; right; right; right;
       eexists day, doctor, av, hours, ws, we, _;
       repeat (split; [first [reflexivity | assumption]|]);
       left; auto).
  - cbn [run handle answer tick store calls].
    eexists _, _, [DoctorStore; AppointmentStore].
    split; [reflexivity|]. split; [reflexivity|].
    split; [cbn [calls]; rewrite <- !app_assoc; reflexivity|].
    right; right; right; right.
    eexists day, doctor, av, hours, ws, we, _.
    repeat (split; [first [reflexivity | assumption]|]).
    right. auto.
Qed.

(** X17: the availability handler only reads.  On every path on which
    its two queries are answered, whatever the request, the store is
    left as it was, the calendar's busy intervals are asked for at most
    once, and the handler never touches the patient collection, never
    inserts a calendar event and never sends mail.  (The path on which
    a query is refused, answered 500 by the handler's [catch], is not
    part of [availabilityRoute]; nothing is said here about the status
    or about the process environment.) *)
Theorem availability_writes_nothing env id dateField w :
  let w' := snd (run env (availabilityRoute getTime weekdayOf id dateField) w) in
  let new := callsSince w w' in
  store w' = store w
  /\ (callsTo BusySource new <= 1)%nat
  /\ callsTo PatientStore new = O
  /\ callsTo CalendarInsert new = O
  /\ callsTo MailTransport new = O.
Proof.
  destruct (run_availabilityRoute_paths env id dateField w)
    as (r & w' & new & Hrun & Hstore & Hcalls & Hcase).
  rewrite Hrun. cbn [fst snd]. rewrite (callsSince_app _ _ _ Hcalls).
  split; [exact Hstore|].
  destruct Hcase as [(Hc & -> & _) | [(Hc & -> & _) | [(Hc & -> & _)
    | [(Hc & -> & _)
      | (day & doctor & av & hours & ws & we & busy & _ & _ & _ & _ & _ & _
         & _ & _ & -> & [(_ & -> & _) | (_ & -> & _)])]]]];
    try rewrite Hc; cbn; repeat split; auto; lia.
Qed.

(** X18: a calendar that fails is treated as a calendar with nothing
    busy.  The availability route gives the same answer and ends in the
    same world whether the busy-interval request throws, returns no
    list, or returns the empty list. *)
Theorem availability_survives_calendar_failure env m id dateField w :
  run (withFreeBusy env (fun _ => Thrown m))
      (availabilityRoute getTime weekdayOf id dateField) w
  = run (withFreeBusy env (fun _ => Returned (Some [])))
        (availabilityRoute getTime weekdayOf id dateField) w
  /\ run (withFreeBusy env (fun _ => Returned None))
         (availabilityRoute getTime weekdayOf id dateField) w
     = run (withFreeBusy env (fun _ => Returned (Some [])))
           (availabilityRoute getTime weekdayOf id dateField) w.
Proof.
  unfold availabilityRoute.
  destruct dateField as [day|]; [|split; reflexivity].
  cbn [Js.truthy negb].
  destruct (String.eqb day ""); [split; reflexivity|]. cbn [negb].
  destruct (dateRegexTest _); [|split; reflexivity].
  cbn [negb run handle answer].
  destruct (List.find _ _) as [doctor|]; [|split; reflexivity].
  destruct (d_availability doctor) as [av|]; [|split; reflexivity].
  destruct (av !! _) as [hours|]; [|split; reflexivity].
  destruct (available hours); [|split; reflexivity]. cbn [negb].
  destruct (negb (Js.truthy (dayStart hours))
            || negb (Js.truthy (dayEnd hours)))%bool; [split; reflexivity|].
  destruct (Js.truthy (d_calendarId doctor)); split; reflexivity.
Qed.

Lemma find_None_In {A : Type} (f : A -> bool) (l : list A) :
  (forall x, In x l -> f x = false) -> List.find f l = None.
Proof.
  intros H. apply find_None_lookup. intros j x Hj.
  apply H. eapply lookup_In, Hj.
Qed.

(** X25: the availability route never offers a slot that overlaps a
    live appointment of that doctor filed under the requested date:
    for every slot in its answer and every stored appointment of the
    doctor with that date and a status other than "cancelled", the
    slot's interval and the appointment's stored interval do not
    overlap.  (Appointments filed under another date are not looked
    at.) *)
Theorem offered_slots_avoid_live_appointments env id day w slot a :
  In slot
     (slotsOf (fst (run env
                      (availabilityRoute getTime weekdayOf id (Some day))
                      w))) ->
  In a (appointments (store w)) ->
  a_doctorId a = id ->
  a_date a = day ->
  status a <> "cancelled" ->
  Slots.overlaps (getTime (startISO slot)) (getTime (endISO slot))
                 (startDateTime a) (endDateTime a) = false.
Proof.
  intros Hin Ha Hid Hdate Hlive.
  destruct (run_availabilityRoute_paths env id (Some day) w)
    as (r & w1 & new & Hrun & _ & _ & Hcase).
  rewrite Hrun in Hin. cbn [fst] in Hin.
  destruct Hcase as [(_ & _ & Hnil) | [(_ & _ & Hnil) | [(_ & _ & Hnil)
    | [(_ & _ & Hnil)
      | (day' & doctor & av & hours & ws & we & busy & Hd & _ & Hdoc
         & _ & _ & _ & _ & _ & -> & _)]]]];
    try (rewrite Hnil in Hin; destruct Hin).
  injection Hd as <-.
  assert (Hdid : d_doctorId doctor = id).
  { unfold doctorOf in Hdoc. apply find_some in Hdoc as [_ Hdoc].
    apply String.eqb_eq in Hdoc. exact Hdoc. }
  cbn [slotsOf body ok json] in Hin.
  unfold Slots.generateAvailableSlots in Hin.
  destruct (Slots.parseClock ws) as [m0|]; [|destruct Hin].
  destruct (Slots.parseClock we) as [m1|]; [|destruct Hin].
  rewrite generateFromMinutes_closed in Hin.
  apply in_map_iff in Hin as (m & <- & Hm).
  apply filter_In in Hm as [_ Hfree].
  unfold Slots.isAvailable in Hfree. apply negb_true_iff in Hfree.
  apply isSlotConflicting_false in Hfree as [_ Hfree].
  apply Hfree. unfold liveOn. apply filter_In. split; [exact Ha|].
  rewrite Hdid, Hid, Hdate, !String.eqb_refl. unfold notCancelled.
  apply negb_true_iff, String.eqb_neq, Hlive.
Qed.

(** X19: a slot the availability route offers can be booked.  Take a
    doctor whose working hours for the day start on a half hour and
    end by midnight, and a slot in the route's answer for that day
    whose start and end the runtime reads as instants.  If no
    appointment filed under another date reaches into the slot, then a
    booking request for that doctor, that date and the slot's label
    (with the shared secret, a patient name and a contact, and writes
    accepted) is answered 200, and the appointment stored has the
    slot's interval. *)
Theorem offered_slot_is_bookable
    env id day w doctor av hours ws we m0 m1 slot startT endT req :
  writesAccepted env ->
  doctorOf (store w) id = Some doctor ->
  d_availability doctor = Some av ->
  av !! weekdayOf day = Some hours ->
  dayStart hours = Some ws ->
  dayEnd hours = Some we ->
  Slots.parseClock ws = Some m0 ->
  Slots.parseClock we = Some m1 ->
  0 <= m0 -> m0 mod 30 = 0 -> m1 <= 1440 ->
  In slot
     (slotsOf (fst (run env
                      (availabilityRoute getTime weekdayOf id (Some day))
                      w))) ->
  getTime (startISO slot) = Some startT ->
  getTime (endISO slot) = Some endT ->
  (forall b, In b (appointments (store w)) -> a_date b <> day ->
     conflictsWith id startT endT b = false) ->
  authorized env (apiKey req) = true ->
  hasRequiredFields req = true ->
  doctorId req = Some id ->
  date req = Some day ->
  timeSlot req = Some (time slot) ->
  let w1 :=
    snd (run env (availabilityRoute getTime weekdayOf id (Some day)) w) in
  let r := fst (run env (bookRoute getTime req) w1) in
  let w2 := snd (run env (bookRoute getTime req) w1) in
  code r = 200
  /\ exists a,
       appointments (store w2) = (appointments (store w) ++ [a])%list
       /\ status a = "confirmed"
       /\ startDateTime a = Some startT
       /\ endDateTime a = Some endT.
Proof.
  intros Hw Hdoc Hav Hday Hws Hwe Hm0 Hm1 H0 Hmod H1 Hin Hs He Hother
         Hauth Hreq Hid Hdate Hslot w1 r w2. subst w1 r w2.
  destruct (run_availabilityRoute_paths env id (Some day) w)
    as (r & w1 & new & Hrun & Hstore & _ & Hcase).
  rewrite Hrun in *. cbn [fst snd] in *.
  destruct Hcase as [(_ & _ & Hnil) | [(_ & _ & Hnil) | [(_ & _ & Hnil)
    | [(_ & _ & Hnil)
      | (day' & doctor' & av' & hours' & ws' & we' & busy & Hd & _ & Hdoc'
         & Hav' & Hday' & _ & Hws' & Hwe' & -> & _)]]]];
    try (rewrite Hnil in Hin; destruct Hin).
  injection Hd as <-.
  rewrite Hdoc in Hdoc'. injection Hdoc' as <-.
  rewrite Hav in Hav'. injection Hav' as <-.
  rewrite Hday in Hday'. injection Hday' as <-.
  rewrite Hws in Hws'. injection Hws' as <-.
  rewrite Hwe in Hwe'. injection Hwe' as <-.
  cbn [slotsOf body ok json] in Hin.
  unfold Slots.generateAvailableSlots in Hin. rewrite Hm0, Hm1 in Hin.
  rewrite generateFromMinutes_closed in Hin.
  apply in_map_iff in Hin as (m & <- & Hm).
  apply filter_In in Hm as [Hm Hfree].
  apply in_map_iff in Hm as (i & <- & Hi). apply in_seq in Hi.
  set (m := m0 + 30 * Z.of_nat i) in *.
  assert (Hbound : m + 30 <= m1).
  { destruct (Z_lt_le_dec m0 m1) as [Hlt|Hge].
    - pose proof (slotCount_bounds _ _ Hlt). subst m. lia.
    - rewrite slotCount_zero in Hi by lia. lia. }
  assert (Hm30 : m mod 30 = 0).
  { subst m. replace (m0 + 30 * Z.of_nat i) with (m0 + Z.of_nat i * 30)
      by lia. rewrite Z.mod_add by lia. exact Hmod. }
  assert (Hread : Label.bookingInterval day (time (Slots.slotAt day m))
                  = Some (startISO (Slots.slotAt day m),
                          endISO (Slots.slotAt day m))).
  { apply bookingInterval_readsBack, readsBack_aligned; subst m; lia. }
  unfold Slots.isAvailable in Hfree. apply negb_true_iff in Hfree.
  apply isSlotConflicting_false in Hfree as [_ Hfree].
  rewrite Hs, He in Hfree.
  assert (Hdid : d_doctorId doctor = id).
  { unfold doctorOf in Hdoc. apply find_some in Hdoc as [_ Hdoc].
    apply String.eqb_eq in Hdoc. exact Hdoc. }
  assert (Hdoc1 : doctorOf (store (advance w1 ProcessEnv))
                    (Api.str (doctorId req)) = Some doctor).
  { cbn [advance store]. rewrite Hstore, Hid. exact Hdoc. }
  unfold bookRoute. rewrite run_requireApiKey, Hauth.
  destruct (run_bookHandler_accepted getTime env req doctor
              (advance w1 ProcessEnv) Hw Hreq Hdoc1)
    as (patient & w2 & Hrun2 & Happ2 & _).
  rewrite Hrun2. cbn [advance store] in Happ2. rewrite Hstore in Happ2.
  assert (Hi' : Label.bookingInterval (Api.str (date req))
                  (Api.str (timeSlot req))
                = Some (startISO (Slots.slotAt day m),
                        endISO (Slots.slotAt day m))).
  { rewrite Hdate, Hslot. exact Hread. }
  assert (Hnone : List.find (conflictsWith (d_doctorId doctor) startT endT)
                    (appointments (store w2)) = None).
  { rewrite Happ2, Hdid. apply find_None_In. intros b Hb.
    destruct (String.eqb (a_date b) day) eqn:Hbd.
    - rewrite conflictsWith_overlaps.
      destruct (String.eqb (a_doctorId b) id) eqn:Hbi; [|reflexivity].
      destruct (notCancelled b) eqn:Hbc; [|reflexivity].
      cbn [andb]. apply Hfree. unfold liveOn. apply filter_In.
      split; [exact Hb|]. rewrite Hdid, Hbi, Hbd, Hbc. reflexivity.
    - apply Hother; [exact Hb|]. intros Heq.
      rewrite Heq, String.eqb_refl in Hbd. discriminate. }
  destruct (run_bookSlot_accepted getTime env req doctor patient w2
              _ _ _ _ Hw Hi' Hs He Hnone)
    as (a & st & link & w3 & Hrun3 & Happ3 & _ & Hst & Hsa & Hea & _).
  rewrite Hrun3. cbn [fst snd code ok json]. split; [reflexivity|].
  exists a. rewrite Happ3, Happ2. auto.
Qed.

End Availability.

(** The booking route past the conflict check, with the appointment
    write accepted: what the calendar's answer becomes. *)
Lemma run_bookSlot_calendar getTime env req doctor patient w
    startText endText startT endT :
  Label.bookingInterval (Api.str (date req)) (Api.str (timeSlot req))
  = Some (startText, endText) ->
  getTime startText = Some startT ->
  getTime endText = Some endT ->
  List.find (conflictsWith (d_doctorId doctor) startT endT)
            (appointments (store w)) = None ->
  writeFaultAt env (4 + tick w) = None ->
  exists a st w',
    run env (bookSlot getTime req doctor patient) w
    = (ok (BookedBody (appointmentId a) "confirmed" (summaryOf patient) st
             (match createEventAt env (2 + tick w) with
              | Returned ev => htmlLink ev
              | Thrown _ => None
              end)), w')
    /\ appointments (store w') = (appointments (store w) ++ [a])%list
    /\ googleEventId a
       = match createEventAt env (2 + tick w) with
         | Returned ev => eventId ev
         | Thrown _ => "manual-" ++ Js.toString (nowAt env (1 + tick w))
         end
    /\ startDateTime a = Some startT
    /\ endDateTime a = Some endT
    /\ a_timeSlot a = Api.str (timeSlot req).
Proof.
  intros Hi Hs He Hfind Hfault. unfold bookSlot. rewrite Hi, Hs, He.
  cbn [run handle answer]. rewrite Hfind.
  cbn [run handle answer tick store calls].
  unfold handle. cbn [answer tick store calls].
  change (4 + tick w)%nat with (S (S (S (S (tick w))))) in Hfault.
  change (2 + tick w)%nat with (S (S (tick w))).
  change (1 + tick w)%nat with (S (tick w)).
  rewrite Hfault. cbn [run].
  match goal with
  | |- context [run env (bookNotify ?d ?p ?dt ?a ?ev) ?w1] =>
      destruct (run_bookNotify env d p dt a ev w1)
        as (st & w' & Hrun & Hstore & _);
      rewrite Hrun; exists a, st, w'
  end.
  rewrite Hstore. cbn.
  destruct (createEventAt env (S (S (tick w)))); auto 10.
Qed.

(** X26: a failing calendar does not stop a booking.  For a request
    that passes the checks and meets no conflict, with writes accepted
    and a calendar that refuses every event, the answer is 200 without
    a calendar link, and the stored appointment carries the interval
    read from the label and an event identifier of the form
    "manual-" followed by a reading of the clock. *)
Theorem booking_survives_calendar_failure
    getTime env req w doctor startText endText startT endT :
  writesAccepted env ->
  calendarDown env ->
  authorized env (apiKey req) = true ->
  hasRequiredFields req = true ->
  doctorOf (store w) (Api.str (doctorId req)) = Some doctor ->
  Label.bookingInterval (Api.str (date req)) (Api.str (timeSlot req))
  = Some (startText, endText) ->
  getTime startText = Some startT ->
  getTime endText = Some endT ->
  List.find (conflictsWith (d_doctorId doctor) startT endT)
            (appointments (store w)) = None ->
  let r := fst (run env (bookRoute getTime req) w) in
  let w' := snd (run env (bookRoute getTime req) w) in
  exists a patient st n,
    r = ok (BookedBody (appointmentId a) "confirmed" (summaryOf patient)
              st None)
    /\ appointments (store w') = (appointments (store w) ++ [a])%list
    /\ googleEventId a = "manual-" ++ Js.toString (nowAt env n)
    /\ startDateTime a = Some startT
    /\ endDateTime a = Some endT.
Proof.
  intros Hw Hdown Hauth Hreq Hdoc Hi Hs He Hfind r w'. subst r w'.
  unfold bookRoute. rewrite run_requireApiKey, Hauth.
  destruct (run_bookHandler_accepted getTime env req doctor
              (advance w ProcessEnv) Hw Hreq Hdoc)
    as (patient & w1 & Hrun & Happ & _).
  rewrite Hrun. cbn [advance store] in Happ.
  rewrite <- Happ in Hfind.
  destruct (run_bookSlot_calendar getTime env req doctor patient w1
              _ _ _ _ Hi Hs He Hfind (Hw _))
    as (a & st & w2 & Hrun2 & Happ2 & Hev & Hsa & Hea & _).
  destruct (Hdown (2 + tick w1)%nat) as [m Hm]. rewrite Hm in Hrun2, Hev.
  rewrite Hrun2. cbn [fst snd].
  exists a, patient, st, (1 + tick w1)%nat.
  split; [reflexivity|]. rewrite Happ2, Happ. auto.
Qed.

(** ** Sessions *)

Lemma evolves_refl s : evolves s s.
Proof. split; [reflexivity|]. split; [reflexivity | auto]. Qed.

Lemma evolves_trans s1 s2 s3 :
  evolves s1 s2 -> evolves s2 s3 -> evolves s1 s3.
Proof.
  intros (Hd & Hp & Hi) (Hd' & Hp' & Hi').
  split; [congruence|]. split; [etrans; eassumption | auto].
Qed.

Lemma evolves_same s s' : s' = s -> evolves s s'.
Proof. intros ->. apply evolves_refl. Qed.

Lemma patientIds_appended s s' p :
  patients s' = (patients s ++ [p])%list -> patientIds s `prefix_of` patientIds s'.
Proof.
  intros H. unfold patientIds. rewrite H, map_app. apply prefix_app_r.
  reflexivity.
Qed.

Lemma patientIds_updated s s' i old new :
  patients s !! i = Some old -> patientId new = patientId old ->
  patients s' = <[i := new]> (patients s) -> patientIds s = patientIds s'.
Proof.
  intros Hi Hid H. unfold patientIds. rewrite H.
  change (map patientId ?l) with (patientId <$> l).
  rewrite list_fmap_insert, Hid. symmetry. apply list_insert_id.
  rewrite list_lookup_fmap, Hi. reflexivity.
Qed.

Lemma bookRoute_patientIds getTime env req w :
  patientIds (store w)
  `prefix_of` patientIds (store (snd (run env (bookRoute getTime req) w))).
Proof.
  unfold bookRoute. rewrite run_requireApiKey.
  destruct (authorized env (apiKey req)); [|reflexivity].
  destruct (run_bookHandler_upsert getTime env req (advance w ProcessEnv))
    as [(r & new & Hrun & _)
       | (doctor & patient & w1 & pre & Hrun & _ & _ & _ & _ & _ & _ & _
          & Hpat)].
  - rewrite Hrun. reflexivity.
  - rewrite Hrun.
    destruct (run_bookSlot_paths getTime env req doctor patient w1)
      as (r & w' & new & Hslot & _ & Hpats & _).
    rewrite Hslot. cbn [snd]. cbn [advance store] in Hpat.
    assert (Hsame : patientIds (store w') = patientIds (store w1))
      by (unfold patientIds; rewrite Hpats; reflexivity).
    rewrite Hsame.
    destruct Hpat as [(_ & Happ & _) | (doc & old & Hf & Hins & Hid & _)].
    + eapply patientIds_appended, Happ.
    + apply findOne_lookup in Hf as [Hf _].
      rewrite (patientIds_updated _ _ _ _ _ Hf Hid Hins). reflexivity.
Qed.

(** The ways [POST /patients] of the earlier router can go. *)
Lemma run_patientsRoute_paths env req w :
  exists r w',
    run env (patientsRoute req) w = (r, w')
    /\ doctors (store w') = doctors (store w)
    /\ appointments (store w') = appointments (store w)
    /\ (code r = 200 \/ code r = 400 \/ code r = 500)
    /\ (patients (store w') = patients (store w)
        \/ (exists p, patients (store w') = (patients (store w) ++ [p])%list)
        \/ (exists i old new,
              patients (store w) !! i = Some old
              /\ patientId new = patientId old
              /\ p_email new = p_email old
              /\ patients (store w') = <[i := new]> (patients (store w)))).
Proof.
  unfold patientsRoute.
  destruct (negb (Js.truthy (r_email req)) && negb (Js.truthy (r_phone req)))%bool.
  { eexists _, _. split; [reflexivity|]. do 2 (split; [reflexivity|]).
    cbn. auto. }
  cbn [run handle answer].
  destruct (findOne _ (patients (store w))) as [[doc old]|] eqn:Hf;
    cbn [run handle answer tick store calls];
    unfold handle; cbn [answer tick store calls];
    match goal with
    | |- context [writeFaultAt env ?n] => destruct (writeFaultAt env n)
    end;
    cbn [run];
    (eexists _, _; split; [reflexivity|]; do 2 (split; [reflexivity|]);
     split; [cbn; auto|]); cbn; auto.
  - right; right. apply findOne_lookup in Hf as [Hf _].
    eexists doc, old, _. split; [exact Hf|]. cbn.
    split; [|split]. 3: reflexivity. all: reflexivity.
  - right; left. eauto.
Qed.

Lemma serve_evolves getTime weekdayOf env rq w :
  evolves (store w) (store (snd (serve getTime weekdayOf env rq w))).
Proof.
  unfold serve. destruct rq as [id dt|req|key id|id|req|req|email phone];
    cbn [handler].
  - destruct (run_availabilityRoute_paths getTime weekdayOf env id dt w)
      as (r & w' & new & Hrun & Hstore & _).
    rewrite Hrun. apply evolves_same, Hstore.
  - split; [|split].
    + destruct (run_bookRoute_paths getTime env req w)
        as (r & w' & new & Hrun & _ & Hdoc & _).
      rewrite Hrun. exact Hdoc.
    + apply bookRoute_patientIds.
    + intros Hinv. eapply NoOverlap_keptOrAdded; [exact Hinv|].
      apply bookRoute_writes.
  - split; [|split].
    + destruct (run_cancelRoute_paths env key id w)
        as (r & w' & Hrun & _ & Hdoc & _).
      rewrite Hrun. exact Hdoc.
    + destruct (run_cancelRoute_paths env key id w)
        as (r & w' & Hrun & Hpat & _).
      rewrite Hrun. unfold patientIds. cbn [snd]. rewrite Hpat. reflexivity.
    + apply cancelRoute_preserves.
  - split; [|split]; [| |apply cancelDeleteRoute_preserves];
      unfold cancelDeleteRoute; cbn [run handle answer];
      destruct (findOne _ _) as [[doc a]|]; reflexivity.
  - destruct (run_registerRoute_paths env req w)
      as (r & w' & Hrun & Hdoc & Happ & Hcase).
    rewrite Hrun. cbn [snd]. split; [exact Hdoc|].
    split; [|rewrite Happ; auto].
    destruct Hcase as [(_ & _ & ->) | [(_ & _ & _ & ->)
      | (_ & _ & [(doc & q & _ & _ & ->)
                 | (_ & [(m & _ & _ & ->)
                        | (p & _ & _ & Hp & _)])])]];
      try reflexivity.
    eapply patientIds_appended, Hp.
  - destruct (run_patientsRoute_paths env req w)
      as (r & w' & Hrun & Hdoc & Happ & _ & Hcase).
    rewrite Hrun. cbn [snd]. split; [exact Hdoc|].
    split; [|rewrite Happ; auto].
    destruct Hcase as [Hp | [(p & Hp) | (i & old & new & Hi & Hid & _ & Hp)]].
    + unfold patientIds. rewrite Hp. reflexivity.
    + eapply patientIds_appended, Hp.
    + rewrite (patientIds_updated _ _ _ _ _ Hi Hid Hp). reflexivity.
  - destruct (run_searchRoute_paths env email phone w) as (r & Hrun & _).
    rewrite Hrun. cbn [snd].
    destruct (Js.truthy email || Js.truthy phone)%bool;
      apply evolves_refl.
Qed.

Lemma serveAll_evolves getTime weekdayOf env rqs w :
  evolves (store w) (store (serveAll getTime weekdayOf env rqs w)).
Proof.
  revert w. induction rqs as [|rq rqs IH]; intros w; [apply evolves_refl|].
  cbn [serveAll]. eapply evolves_trans; [apply serve_evolves | apply IH].
Qed.

Lemma NoOverlap_lookup l i j a b :
  NoOverlap l -> (i < j)%nat -> l !! i = Some a -> l !! j = Some b ->
  compatible a b = true.
Proof.
  unfold NoOverlap. intros Hl. revert i j.
  induction Hl as [|x l Hx Hl IH]; intros i j Hij Hi Hj; [discriminate|].
  destruct j as [|j]; [lia|]. cbn in Hj.
  destruct i as [|i]; cbn in Hi.
  - injection Hi as <-. rewrite List.Forall_forall in Hx.
    apply Hx. eapply lookup_In, Hj.
  - apply (IH i j); [lia | assumption | assumption].
Qed.

(** X20: identifiers are stable over any session.  Whatever requests
    are served, in whatever order and with whatever answers from the
    calendar, the mail transport and the store, the doctors are never
    written and the patient identifiers given out so far stay where
    they are: the identifiers before are a prefix of the identifiers
    after, so no request deletes a patient, reorders patients or
    changes a patient's identifier. *)
Theorem patient_identifiers_are_stable getTime weekdayOf env rqs w :
  let w' := serveAll getTime weekdayOf env rqs w in
  doctors (store w') = doctors (store w)
  /\ patientIds (store w) `prefix_of` patientIds (store w')
  /\ (length (patients (store w)) <= length (patients (store w')))%nat
  /\ (forall i p,
        patients (store w) !! i = Some p ->
        exists p', patients (store w') !! i = Some p'
                   /\ patientId p' = patientId p).
Proof.
  destruct (serveAll_evolves getTime weekdayOf env rqs w) as (Hd & Hp & _).
  cbv zeta. split; [exact Hd|]. split; [exact Hp|].
  unfold patientIds in Hp.
  split.
  - apply prefix_length in Hp. rewrite !length_map in Hp. exact Hp.
  - intros i p Hi.
    assert (Hid : map patientId (patients (store w)) !! i
                  = Some (patientId p)).
    { change (map patientId ?l) with (patientId <$> l).
      rewrite list_lookup_fmap, Hi. reflexivity. }
    eapply prefix_lookup_Some in Hid; [|exact Hp].
    change (map patientId ?l) with (patientId <$> l) in Hid.
    rewrite list_lookup_fmap in Hid.
    destruct (patients (store (serveAll getTime weekdayOf env rqs w)) !! i)
      as [p'|]; [|discriminate].
    exists p'. split; [reflexivity|]. cbn in Hid. congruence.
Qed.

(** X21: no double booking on the stored intervals, over any session.
    Starting from an empty appointment collection and serving any
    requests, any two stored appointments of the same doctor that are
    both not cancelled have stored intervals that do not overlap. *)
Theorem no_double_booking_in_any_session getTime weekdayOf env rqs w :
  appointments (store w) = [] ->
  let l := appointments (store (serveAll getTime weekdayOf env rqs w)) in
  forall i j a b,
    i <> j -> l !! i = Some a -> l !! j = Some b ->
    a_doctorId a = a_doctorId b ->
    status a <> "cancelled" -> status b <> "cancelled" ->
    Slots.overlaps (startDateTime a) (endDateTime a)
                   (startDateTime b) (endDateTime b) = false.
Proof.
  intros Hempty l.
  destruct (serveAll_evolves getTime weekdayOf env rqs w) as (_ & _ & Hinv).
  assert (Hl : NoOverlap l).
  { apply Hinv. rewrite Hempty. constructor. }
  assert (Hlive : forall a, status a <> "cancelled" -> notCancelled a = true).
  { intros a Ha. unfold notCancelled. apply negb_true_iff.
    apply String.eqb_neq, Ha. }
  intros i j a b Hij Hi Hj Hdoc Ha Hb.
  destruct (Nat.lt_total i j) as [Hlt | [Heq | Hgt]]; [|contradiction|].
  - pose proof (NoOverlap_lookup l i j a b Hl Hlt Hi Hj) as Hc.
    unfold compatible in Hc. rewrite Hdoc, String.eqb_refl in Hc.
    rewrite (Hlive a Ha), (Hlive b Hb) in Hc. cbn [andb] in Hc.
    apply negb_true_iff in Hc. exact Hc.
  - pose proof (NoOverlap_lookup l j i b a Hl Hgt Hj Hi) as Hc.
    unfold compatible in Hc. rewrite <- Hdoc, String.eqb_refl in Hc.
    rewrite (Hlive a Ha), (Hlive b Hb) in Hc. cbn [andb] in Hc.
    apply negb_true_iff in Hc. rewrite overlaps_sym. exact Hc.
Qed.

Lemma bookHandler_not_401 getTime env req w :
  code (fst (run env (bookHandler getTime req) w)) <> 401.
Proof.
  destruct (run_bookHandler_upsert getTime env req w)
    as [(r & new & Hrun & Hcase)
       | (doctor & patient & w1 & pre & Hrun & _)]; rewrite Hrun.
  - cbn [fst].
    destruct Hcase as [(Hc & _) | [(Hc & _) | (Hc & _)]]; rewrite Hc; lia.
  - destruct (run_bookSlot_paths getTime env req doctor patient w1)
      as (r & w' & new & Hslot & _ & _ & _ & Hcase).
    rewrite Hslot. cbn [fst].
    destruct Hcase as [([Hc | Hc] & _) | [(Hc & _) | [(Hc & _)
                      | (a & st & link & mail & -> & _)]]];
      try (rewrite Hc; lia). cbn. lia.
Qed.

(** X22: the shared secret guards booking, cancelling and registering.
    A request for one of these three routes is answered 401 exactly
    when it does not carry the configured [API_KEY]; it has then
    consulted the process environment and nothing else, and the store
    is untouched.  With no [API_KEY] configured none of them is
    answered 401. *)
Theorem shared_secret_guards_three_routes getTime weekdayOf env g w :
  let r := fst (serve getTime weekdayOf env (requestOf g) w) in
  let w' := snd (serve getTime weekdayOf env (requestOf g) w) in
  (code r = 401 <-> authorized env (keyOf g) = false)
  /\ (code r = 401 -> w' = advance w ProcessEnv)
  /\ (Js.truthy (processEnv env "API_KEY") = false -> code r <> 401).
Proof.
  assert (Hopen : forall key,
            Js.truthy (processEnv env "API_KEY") = false ->
            authorized env key = true).
  { intros key H. unfold authorized. rewrite H. reflexivity. }
  unfold serve.
  destruct g as [req|key id|req]; cbn [handler requestOf keyOf].
  - unfold bookRoute. rewrite run_requireApiKey.
    destruct (authorized env (apiKey req)) eqn:Hauth.
    + pose proof (bookHandler_not_401 getTime env req (advance w ProcessEnv))
        as Hc.
      split; [split; [intros H; contradiction | discriminate]|].
      split; [intros H; contradiction | auto].
    + cbn [fst snd code json].
      split; [split; reflexivity|].
      split; [reflexivity|].
      intros H. rewrite (Hopen _ H) in Hauth. discriminate.
  - destruct (run_cancelRoute_paths env key id w)
      as (r & w' & Hrun & _ & _ & Hcase).
    rewrite Hrun. cbn [fst snd].
    destruct Hcase as [(Hauth & Hc & ->) | [(Hauth & _ & -> & _)
      | (Hauth & doc & a & _ & [(m & _ & -> & _) | (_ & -> & _)])]];
      (split; [split; [intros H; try discriminate; assumption
                      | intros H; congruence]|];
       split; [intros H; try discriminate; reflexivity|]);
      intros H; first [rewrite (Hopen _ H) in Hauth; discriminate
                      | discriminate].
  - destruct (run_registerRoute_paths env req w)
      as (r & w' & Hrun & _ & _ & Hcase).
    rewrite Hrun. cbn [fst snd].
    assert (H401 : code r = 401 -> w' = advance w ProcessEnv).
    { intros H. revert Hrun. unfold registerRoute.
      rewrite run_requireApiKey.
      destruct (authorized env (r_apiKey req)) eqn:Hauth.
      - destruct Hcase as [(Ha & _) | [(_ & _ & Hc & _)
          | (_ & _ & [(doc & q & _ & -> & _)
                     | (_ & [(m & _ & -> & _)
                            | (p & _ & -> & _)])])]];
          try congruence; try discriminate.
      - intros [= _ <-]. reflexivity. }
    destruct Hcase as [(Hauth & Hc & _) | [(Hauth & _ & Hc & _)
      | (Hauth & _ & [(doc & q & _ & -> & _)
                     | (_ & [(m & _ & -> & _)
                            | (p & _ & -> & _)])])]];
      (split; [split; [intros H; try discriminate; try lia; assumption
                      | intros H; congruence]|];
       split; [exact H401|]);
      intros H;
      first [rewrite (Hopen _ H) in Hauth; discriminate
            | rewrite ?Hc; cbn; lia].
Qed.

End RouteOutcomes.

(* ===================================================================== *)
(** * The further properties on the sample clinic                         *)
(* ===================================================================== *)
Section FurtherInstances.
Import Effects Http Notions Api Search Traces Changes Session.

Lemma otp_four_mistakes_allowed_witness :
  Otp.verdictsFor "asha@example.org"
    (Readings.submissionsOf "asha@example.org" Cases.mistakes
     ++ [(300000, Otp.Submit "asha@example.org" "123456")])
    (Otp.storeOTP 1000 "asha@example.org" "123456" ∅)
  = (Readings.refusals 0 Cases.mistakes
     ++ [(300000, "123456", Readings.accepted)])%list.
Proof.
  assert (Hlen : (length Cases.mistakes <= 4)%nat)
    by (unfold Cases.mistakes; cbn [length]; lia).
  assert (Hall : Forall (fun tc => fst tc <= 1000 + Otp.OTP_EXPIRY_TIME
                                   /\ snd tc <> "123456") Cases.mistakes)
    by (unfold Cases.fiveMistakes, Cases.mistakes, Otp.OTP_EXPIRY_TIME;
        repeat constructor; cbn [fst snd]; (lia || discriminate)).
  assert (Hnow : 300000 <= 1000 + Otp.OTP_EXPIRY_TIME)
    by (unfold Otp.OTP_EXPIRY_TIME; lia).
  exact (otp_four_mistakes_allowed ∅ 1000 "asha@example.org" "123456"
           Cases.mistakes 300000 Hlen Hall Hnow).
Defined.

Lemma otp_fifth_mistake_locks_out_witness :
  Otp.verdictsFor "asha@example.org"
    (Readings.submissionsOf "asha@example.org" Cases.fiveMistakes
     ++ [(260000, Otp.Submit "asha@example.org" "123456");
         (270000, Otp.Submit "asha@example.org" "123456")])
    (Otp.storeOTP 1000 "asha@example.org" "123456" ∅)
  = (Readings.refusals 0 Cases.fiveMistakes
     ++ [(260000, "123456", Readings.exhausted);
         (270000, "123456", Readings.notFound)])%list.
Proof.
  assert (Hlen : length Cases.fiveMistakes = 5%nat) by reflexivity.
  assert (Hall : Forall (fun tc => fst tc <= 1000 + Otp.OTP_EXPIRY_TIME
                                   /\ snd tc <> "123456")
                        Cases.fiveMistakes)
    by (unfold Cases.fiveMistakes, Cases.mistakes, Otp.OTP_EXPIRY_TIME;
        repeat constructor; cbn [fst snd]; (lia || discriminate)).
  assert (Hnow : 260000 <= 1000 + Otp.OTP_EXPIRY_TIME)
    by (unfold Otp.OTP_EXPIRY_TIME; lia).
  exact (otp_fifth_mistake_locks_out ∅ 1000 "asha@example.org" "123456"
           Cases.fiveMistakes 260000 "123456" 270000 "123456"
           Hlen Hall Hnow).
Defined.

Lemma otp_expired_code_refused_witness :
  Otp.verdictsFor "asha@example.org"
    [(301001, Otp.Submit "asha@example.org" "123456");
     (302000, Otp.Submit "asha@example.org" "123456")]
    (Otp.storeOTP 1000 "asha@example.org" "123456" ∅)
  = [(301001, "123456", Readings.expired);
     (302000, "123456", Readings.notFound)].
Proof.
  assert (Hnow : 1000 + Otp.OTP_EXPIRY_TIME < 301001)
    by (unfold Otp.OTP_EXPIRY_TIME; lia).
  exact (otp_expired_code_refused ∅ 1000 "asha@example.org" "123456"
           301001 "123456" 302000 "123456" Hnow).
Defined.

Lemma otp_status_agrees_with_verify_witness :
  exists e,
    Otp.storeOTP 1000 "asha@example.org" "123456" ∅ !! "asha@example.org"
    = Some e
    /\ Otp.verifyOTP 2000 "asha@example.org" (Otp.otp e)
         (Otp.storeOTP 1000 "asha@example.org" "123456" ∅)
       = (Readings.accepted,
          delete "asha@example.org"
            (Otp.storeOTP 1000 "asha@example.org" "123456" ∅)).
Proof.
  assert (Hs : OtpStatus.getOTPStatus 2000 "asha@example.org"
                 (Otp.storeOTP 1000 "asha@example.org" "123456" ∅)
               = Some MoreCases.fresh) by (vm_compute; reflexivity).
  assert (Hleft : 0 < OtpStatus.remainingTime MoreCases.fresh)
    by (unfold MoreCases.fresh; cbn [OtpStatus.remainingTime]; lia).
  assert (Hbudget : OtpStatus.attemptsMade MoreCases.fresh
                    < OtpStatus.maxAttempts MoreCases.fresh)
    by (unfold MoreCases.fresh;
        cbn [OtpStatus.attemptsMade OtpStatus.maxAttempts]; lia).
  exact (proj2 (proj2 otp_status_agrees_with_verify) 2000
           "asha@example.org"
           (Otp.storeOTP 1000 "asha@example.org" "123456" ∅)
           MoreCases.fresh Hs Hleft Hbudget).
Defined.

Lemma label_end_read_back_iff_half_hour_witness :
  exists startRead endRead,
    Label.bookingInterval "2025-12-03"
      (time (Slots.slotAt "2025-12-03" 555))
    = Some (startRead, endRead)
    /\ startRead = startISO (Slots.slotAt "2025-12-03" 555)
    /\ (endRead = endISO (Slots.slotAt "2025-12-03" 555)
        <-> 555 mod 30 = 0).
Proof.
  assert (H0 : 0 <= 555) by lia.
  assert (H1 : 555 + 30 <= 1440) by lia.
  exact (label_end_read_back_iff_half_hour "2025-12-03" 555 H0 H1).
Defined.

Lemma slot_times_parse_back_witness :
  Slots.parseClock (startTime (Slots.slotAt "2025-12-01" 540)) = Some 540
  /\ Slots.parseClock (endTime (Slots.slotAt "2025-12-01" 540))
     = Some (540 + 30)
  /\ Slots.generateAvailableSlots RefClock.getTime "2025-12-01"
       (startTime (Slots.slotAt "2025-12-01" 540))
       (endTime (Slots.slotAt "2025-12-01" 540)) [] []
     = [Slots.slotAt "2025-12-01" 540].
Proof.
  assert (H0 : 0 <= 540) by lia.
  assert (H1 : 540 + 30 <= 1440) by lia.
  exact (slot_times_parse_back RefClock.getTime "2025-12-01" 540 H0 H1).
Defined.

Lemma booking_writes_patient_before_slot_check_witness :
  let r := fst (run Sample.env (bookRoute RefClock.getTime MoreCases.vague)
                    Sample.start) in
  let w' := snd (run Sample.env (bookRoute RefClock.getTime MoreCases.vague)
                     Sample.start) in
  (exists p,
     In p (patients (store w'))
     /\ p_name p = patientName MoreCases.vague
     /\ (Js.truthy (patientEmail MoreCases.vague) = true ->
         p_email p = patientEmail MoreCases.vague)
     /\ (Js.truthy (patientPhone MoreCases.vague) = true ->
         p_phone p = patientPhone MoreCases.vague))
  /\ (Label.bookingInterval (Api.str (date MoreCases.vague))
        (Api.str (timeSlot MoreCases.vague)) = None ->
      code r = 400
      /\ appointments (store w') = appointments (store Sample.start)
      /\ callsTo PatientStore (callsSince Sample.start w') = 2%nat).
Proof.
  assert (Hauth : authorized Sample.env (apiKey MoreCases.vague) = true)
    by (vm_compute; reflexivity).
  assert (Hreq : hasRequiredFields MoreCases.vague = true)
    by (vm_compute; reflexivity).
  assert (Hdoc : doctorOf (store Sample.start)
                   (Api.str (doctorId MoreCases.vague)) = Some Sample.rao)
    by (vm_compute; reflexivity).
  exact (booking_writes_patient_before_slot_check RefClock.getTime
           Sample.env MoreCases.vague Sample.start Sample.rao
           (fun n => eq_refl) Hauth Hreq Hdoc).
Defined.

Lemma cancel_marks_one_appointment_witness :
  let r := fst (run Sample.env (cancelRoute None "A-00001008")
                    Sample.booked) in
  let w' := snd (run Sample.env (cancelRoute None "A-00001008")
                     Sample.booked) in
  (appointmentOf (store Sample.booked) "A-00001008" = None ->
   r = json 404 (ErrorBody "Appointment not found")
   /\ store w' = store Sample.booked)
  /\ (forall i a,
        appointmentOf (store Sample.booked) "A-00001008" = Some (i, a) ->
        r = ok (CancelledBody "A-00001008")
        /\ appointments (store w') !! i = Some (cancelled a)
        /\ (forall j, j <> i ->
              appointments (store w') !! j
              = appointments (store Sample.booked) !! j)
        /\ length (appointments (store w'))
           = length (appointments (store Sample.booked))
        /\ patients (store w') = patients (store Sample.booked)
        /\ doctors (store w') = doctors (store Sample.booked)
        /\ (forall doctorId startT endT,
              conflictsWith doctorId startT endT (cancelled a) = false)
        /\ fst (run Sample.env (cancelRoute None "A-00001008") w') = r
        /\ store (snd (run Sample.env (cancelRoute None "A-00001008") w'))
           = store w').
Proof.
  assert (Hauth : authorized Sample.env None = true)
    by (vm_compute; reflexivity).
  exact (cancel_marks_one_appointment Sample.env None "A-00001008"
           Sample.booked (fun n => eq_refl) Hauth).
Defined.

Lemma cancelled_slot_can_be_booked_again_witness :
  code (fst (run Sample.env (bookRoute RefClock.getTime MoreCases.again)
                 Sample.booked)) = 409
  /\ (let w1 := snd (run Sample.env (cancelRoute None "A-00001008")
                         Sample.booked) in
      let r2 := fst (run Sample.env
                       (bookRoute RefClock.getTime MoreCases.again) w1) in
      let w2 := snd (run Sample.env
                       (bookRoute RefClock.getTime MoreCases.again) w1) in
      code r2 = 200
      /\ exists b,
           appointments (store w2)
           = (<[O := cancelled Sample.ashaMonday]>
                (appointments (store Sample.booked)) ++ [b])%list
           /\ status b = "confirmed"
           /\ startDateTime b = Some 1764561600000
           /\ endDateTime b = Some 1764563400000).
Proof.
  assert (Hauth : authorized Sample.env None = true)
    by (vm_compute; reflexivity).
  assert (Hauth' : authorized Sample.env (apiKey MoreCases.again) = true)
    by (vm_compute; reflexivity).
  assert (Hreq : hasRequiredFields MoreCases.again = true)
    by (vm_compute; reflexivity).
  assert (Hdoc : doctorOf (store Sample.booked)
                   (Api.str (doctorId MoreCases.again)) = Some Sample.rao)
    by (vm_compute; reflexivity).
  assert (Hread : Label.bookingInterval (Api.str (date MoreCases.again))
                    (Api.str (timeSlot MoreCases.again))
                  = Some ("2025-12-01T09:30:00+05:30",
                          "2025-12-01T10:00:00+05:30"))
    by (vm_compute; reflexivity).
  assert (Hstart : RefClock.getTime "2025-12-01T09:30:00+05:30"
                   = Some 1764561600000) by (vm_compute; reflexivity).
  assert (Hend : RefClock.getTime "2025-12-01T10:00:00+05:30"
                 = Some 1764563400000) by (vm_compute; reflexivity).
  assert (Hfound : appointmentOf (store Sample.booked) "A-00001008"
                   = Some (O, Sample.ashaMonday))
    by (vm_compute; reflexivity).
  assert (Hconf : conflictsWith (d_doctorId Sample.rao) 1764561600000
                    1764563400000 Sample.ashaMonday = true)
    by (vm_compute; reflexivity).
  assert (Hothers : forall j b,
            appointments (store Sample.booked) !! j = Some b -> j <> O ->
            conflictsWith (d_doctorId Sample.rao) 1764561600000
              1764563400000 b = false).
  { intros [|j] b Hj Hne; [contradiction | discriminate]. }
  exact (cancelled_slot_can_be_booked_again RefClock.getTime Sample.env
           None "A-00001008" MoreCases.again Sample.booked Sample.rao
           "2025-12-01T09:30:00+05:30" "2025-12-01T10:00:00+05:30"
           1764561600000 1764563400000 O Sample.ashaMonday
           (fun n => eq_refl) Hauth Hauth' Hreq Hdoc Hread Hstart Hend
           Hfound Hconf Hothers).
Defined.

Lemma search_finds_registered_patient_witness :
  let w1 := snd (run Sample.env (registerRoute (Sample.registration "Asha"))
                     Sample.start) in
  exists p,
    fst (run Sample.env (registerRoute (Sample.registration "Asha"))
             Sample.start)
    = ok (RegisteredBody (summaryOf p))
    /\ (Js.truthy (r_email (Sample.registration "Asha")) = true ->
        fst (run Sample.env
               (searchRoute (r_email (Sample.registration "Asha")) None) w1)
        = ok (PatientBody p))
    /\ (Js.truthy (r_phone (Sample.registration "Asha")) = true ->
        fst (run Sample.env
               (searchRoute None (r_phone (Sample.registration "Asha"))) w1)
        = ok (PatientBody p))
    /\ fst (run Sample.env
              (searchRoute (r_email (Sample.registration "Asha"))
                           (r_phone (Sample.registration "Asha"))) w1)
       = ok (PatientBody p)
    /\ (forall email phone,
          let w2 := snd (run Sample.env (searchRoute email phone) w1) in
          store w2 = store w1
          /\ callsTo ProcessEnv (callsSince w1 w2) = O).
Proof.
  assert (H200 : code (fst (run Sample.env
                              (registerRoute (Sample.registration "Asha"))
                              Sample.start)) = 200)
    by (vm_compute; reflexivity).
  exact (search_finds_registered_patient Sample.env
           (Sample.registration "Asha") Sample.start H200).
Defined.

Lemma offered_slot_is_bookable_witness :
  let w1 :=
    snd (run Sample.env
           (availabilityRoute RefClock.getTime Sample.weekdayOf "D-1"
              (Some "2025-12-01")) Sample.booked) in
  let r := fst (run Sample.env
                  (bookRoute RefClock.getTime MoreCases.tenOClock) w1) in
  let w2 := snd (run Sample.env
                   (bookRoute RefClock.getTime MoreCases.tenOClock) w1) in
  code r = 200
  /\ exists a,
       appointments (store w2)
       = (appointments (store Sample.booked) ++ [a])%list
       /\ status a = "confirmed"
       /\ startDateTime a = Some 1764563400000
       /\ endDateTime a = Some 1764565200000.
Proof.
  assert (Hdoc : doctorOf (store Sample.booked) "D-1" = Some Sample.rao)
    by (vm_compute; reflexivity).
  assert (Hday : Sample.week !! Sample.weekdayOf "2025-12-01"
                 = Some (Sample.hours "09:00" "11:00"))
    by (vm_compute; reflexivity).
  assert (Hm0 : Slots.parseClock "09:00" = Some 540)
    by (vm_compute; reflexivity).
  assert (Hm1 : Slots.parseClock "11:00" = Some 660)
    by (vm_compute; reflexivity).
  assert (H0 : 0 <= 540) by lia.
  assert (Hmod : 540 mod 30 = 0) by reflexivity.
  assert (H1 : 660 <= 1440) by lia.
  assert (Hslots :
            slotsOf (fst (run Sample.env
                            (availabilityRoute RefClock.getTime
                               Sample.weekdayOf "D-1" (Some "2025-12-01"))
                            Sample.booked))
            = [Slots.slotAt "2025-12-01" 540; Slots.slotAt "2025-12-01" 600;
               Slots.slotAt "2025-12-01" 630])
    by (vm_compute; reflexivity).
  assert (Hin : In (Slots.slotAt "2025-12-01" 600)
                   (slotsOf (fst (run Sample.env
                                    (availabilityRoute RefClock.getTime
                                       Sample.weekdayOf "D-1"
                                       (Some "2025-12-01"))
                                    Sample.booked))))
    by (rewrite Hslots; right; left; reflexivity).
  assert (Hstart : RefClock.getTime
                     (startISO (Slots.slotAt "2025-12-01" 600))
                   = Some 1764563400000) by (vm_compute; reflexivity).
  assert (Hend : RefClock.getTime (endISO (Slots.slotAt "2025-12-01" 600))
                 = Some 1764565200000) by (vm_compute; reflexivity).
  assert (Hother : forall b,
            In b (appointments (store Sample.booked)) ->
            a_date b <> "2025-12-01" ->
            conflictsWith "D-1" 1764563400000 1764565200000 b = false).
  { intros b [<- | []] Hne. exfalso. apply Hne. reflexivity. }
  assert (Hauth : authorized Sample.env (apiKey MoreCases.tenOClock) = true)
    by (vm_compute; reflexivity).
  assert (Hreq : hasRequiredFields MoreCases.tenOClock = true)
    by (vm_compute; reflexivity).
  assert (Hslot : timeSlot MoreCases.tenOClock
                  = Some (time (Slots.slotAt "2025-12-01" 600)))
    by (vm_compute; reflexivity).
  exact (offered_slot_is_bookable RefClock.getTime Sample.weekdayOf
           Sample.env "D-1" "2025-12-01" Sample.booked Sample.rao
           Sample.week (Sample.hours "09:00" "11:00") "09:00" "11:00"
           540 660 (Slots.slotAt "2025-12-01" 600)
           1764563400000 1764565200000 MoreCases.tenOClock
           (fun n => eq_refl) Hdoc eq_refl Hday eq_refl eq_refl Hm0 Hm1
           H0 Hmod H1 Hin Hstart Hend Hother Hauth Hreq eq_refl eq_refl
           Hslot).
Defined.

Lemma no_double_booking_in_any_session_witness :
  appointments
    (store (serveAll RefClock.getTime Sample.weekdayOf Sample.env
              SessionCases.twoBookings Sample.start))
  = [Sample.ashaMonday; SessionCases.ashaTen]
  /\ Slots.overlaps (startDateTime Sample.ashaMonday)
                    (endDateTime Sample.ashaMonday)
                    (startDateTime SessionCases.ashaTen)
                    (endDateTime SessionCases.ashaTen) = false.
Proof.
  assert (Hempty : appointments (store Sample.start) = []) by reflexivity.
  assert (Hl : appointments
                 (store (serveAll RefClock.getTime Sample.weekdayOf
                           Sample.env SessionCases.twoBookings Sample.start))
               = [Sample.ashaMonday; SessionCases.ashaTen])
    by (vm_compute; reflexivity).
  assert (Hfirst : appointments
                     (store (serveAll RefClock.getTime Sample.weekdayOf
                               Sample.env SessionCases.twoBookings
                               Sample.start)) !! O
                   = Some Sample.ashaMonday)
    by (vm_compute; reflexivity).
  assert (Hsecond : appointments
                      (store (serveAll RefClock.getTime Sample.weekdayOf
                                Sample.env SessionCases.twoBookings
                                Sample.start)) !! 1%nat
                    = Some SessionCases.ashaTen)
    by (vm_compute; reflexivity).
  assert (Hij : O <> 1%nat) by discriminate.
  assert (Hlive : status Sample.ashaMonday <> "cancelled") by discriminate.
  assert (Hlive' : status SessionCases.ashaTen <> "cancelled")
    by discriminate.
  split; [exact Hl|].
  exact (no_double_booking_in_any_session RefClock.getTime Sample.weekdayOf
           Sample.env SessionCases.twoBookings Sample.start Hempty
           O 1%nat Sample.ashaMonday SessionCases.ashaTen
           Hij Hfirst Hsecond eq_refl Hlive Hlive').
Defined.

Lemma slot_labels_are_well_formed_witness :
  Notions.isLabel (time (Slots.slotAt "2025-12-01" 705)) = true
  /\ String.length (time (Slots.slotAt "2025-12-01" 705)) = 19%nat.
Proof.
  assert (H0 : 0 <= 705) by lia.
  assert (H1 : 705 + 30 <= 1440) by lia.
  exact (slot_labels_are_well_formed "2025-12-01" 705 H0 H1).
Defined.

Lemma derived_interval_of_label_witness :
  Label.bookingInterval "2025-12-03" (time (Slots.slotAt "2025-12-03" 585))
  = Some (startISO (Slots.slotAt "2025-12-03" 585),
          "2025-12-03" ++ "T" ++ Slots.clockLabel (Readings.derivedEnd 585)
          ++ ":00+05:30")
  /\ (Readings.derivedEnd 585 = 585 + 30 <-> 585 mod 30 = 0)
  /\ (585 mod 60 < 30 -> 585 < Readings.derivedEnd 585 <= 585 + 30)
  /\ (30 < 585 mod 60 -> Readings.derivedEnd 585 < 585).
Proof.
  assert (H0 : 0 <= 585) by lia.
  assert (H1 : 585 + 30 <= 1440) by lia.
  exact (derived_interval_of_label "2025-12-03" 585 H0 H1).
Defined.

Lemma offered_slots_avoid_live_appointments_witness :
  Slots.overlaps
    (RefClock.getTime (startISO (Slots.slotAt "2025-12-01" 600)))
    (RefClock.getTime (endISO (Slots.slotAt "2025-12-01" 600)))
    (startDateTime Sample.ashaMonday) (endDateTime Sample.ashaMonday)
  = false.
Proof.
  assert (Hslots :
            slotsOf (fst (run Sample.env
                            (availabilityRoute RefClock.getTime
                               Sample.weekdayOf "D-1" (Some "2025-12-01"))
                            Sample.booked))
            = [Slots.slotAt "2025-12-01" 540; Slots.slotAt "2025-12-01" 600;
               Slots.slotAt "2025-12-01" 630])
    by (vm_compute; reflexivity).
  assert (Hin : In (Slots.slotAt "2025-12-01" 600)
                   (slotsOf (fst (run Sample.env
                                    (availabilityRoute RefClock.getTime
                                       Sample.weekdayOf "D-1"
                                       (Some "2025-12-01"))
                                    Sample.booked))))
    by (rewrite Hslots; right; left; reflexivity).
  assert (Ha : In Sample.ashaMonday (appointments (store Sample.booked)))
    by (left; reflexivity).
  assert (Hlive : status Sample.ashaMonday <> "cancelled") by discriminate.
  exact (offered_slots_avoid_live_appointments RefClock.getTime
           Sample.weekdayOf Sample.env "D-1" "2025-12-01" Sample.booked
           (Slots.slotAt "2025-12-01" 600) Sample.ashaMonday
           Hin Ha eq_refl eq_refl Hlive).
Defined.

Lemma booking_survives_calendar_failure_witness :
  exists a patient st n,
    fst (run Sample.env (bookRoute RefClock.getTime MoreCases.again)
             Sample.start)
    = ok (BookedBody (appointmentId a) "confirmed" (summaryOf patient)
            st None)
    /\ appointments
         (store (snd (run Sample.env
                        (bookRoute RefClock.getTime MoreCases.again)
                        Sample.start)))
       = (appointments (store Sample.start) ++ [a])%list
    /\ googleEventId a = "manual-" ++ Js.toString (nowAt Sample.env n)
    /\ startDateTime a = Some 1764561600000
    /\ endDateTime a = Some 1764563400000.
Proof.
  assert (Hdown : calendarDown Sample.env)
    by (intros n; exists "calendar unreachable"; reflexivity).
  assert (Hauth : authorized Sample.env (apiKey MoreCases.again) = true)
    by (vm_compute; reflexivity).
  assert (Hreq : hasRequiredFields MoreCases.again = true)
    by (vm_compute; reflexivity).
  assert (Hdoc : doctorOf (store Sample.start)
                   (Api.str (doctorId MoreCases.again)) = Some Sample.rao)
    by (vm_compute; reflexivity).
  assert (Hread : Label.bookingInterval (Api.str (date MoreCases.again))
                    (Api.str (timeSlot MoreCases.again))
                  = Some ("2025-12-01T09:30:00+05:30",
                          "2025-12-01T10:00:00+05:30"))
    by (vm_compute; reflexivity).
  assert (Hstart : RefClock.getTime "2025-12-01T09:30:00+05:30"
                   = Some 1764561600000) by (vm_compute; reflexivity).
  assert (Hend : RefClock.getTime "2025-12-01T10:00:00+05:30"
                 = Some 1764563400000) by (vm_compute; reflexivity).
  assert (Hfree : List.find
                    (conflictsWith (d_doctorId Sample.rao) 1764561600000
                       1764563400000)
                    (appointments (store Sample.start)) = None)
    by reflexivity.
  exact (booking_survives_calendar_failure RefClock.getTime Sample.env
           MoreCases.again Sample.start Sample.rao
           "2025-12-01T09:30:00+05:30" "2025-12-01T10:00:00+05:30"
           1764561600000 1764563400000 (fun n => eq_refl) Hdown Hauth Hreq
           Hdoc Hread Hstart Hend Hfree).
Defined.

Lemma generated_otp_has_six_digits_witness :
  String.length (Otp.generateOTP 123456) = 6%nat
  /\ Js.Number (Otp.generateOTP 123456) = Some 123456
  /\ (forall r', 100000 <= r' < 999999 ->
        Otp.generateOTP r' = Otp.generateOTP 123456 -> r' = 123456).
Proof.
  assert (Hr : 100000 <= 123456 < 999999) by lia.
  exact (generated_otp_has_six_digits 123456 Hr).
Defined.

Lemma unreadable_times_never_block_witness :
  Slots.generateAvailableSlots RefClock.getTime "2025-12-01" "09:00" "11:00"
    (Sample.busy ++ [MoreCases.openEnded])
    ([Sample.ashaMonday] ++ [MoreCases.undated])
  = Slots.generateAvailableSlots RefClock.getTime "2025-12-01" "09:00"
      "11:00" Sample.busy [Sample.ashaMonday]
  /\ (forall a doctorId startT endT,
        In a [MoreCases.undated] ->
        Effects.conflictsWith doctorId startT endT a = false).
Proof.
  assert (Hend : RefClock.getTime (busyEnd MoreCases.openEnded) = None)
    by (vm_compute; reflexivity).
  assert (Hbusy : forall b, In b [MoreCases.openEnded] ->
            RefClock.getTime (busyStart b) = None
            \/ RefClock.getTime (busyEnd b) = None).
  { intros b [<- | []]. right. exact Hend. }
  assert (Happts : forall a, In a [MoreCases.undated] ->
            startDateTime a = None \/ endDateTime a = None).
  { intros a [<- | []]. left. reflexivity. }
  exact (unreadable_times_never_block RefClock.getTime "2025-12-01"
           "09:00" "11:00" Sample.busy [MoreCases.openEnded]
           [Sample.ashaMonday] [MoreCases.undated] Hbusy Happts).
Defined.

End FurtherInstances.
